(** * IIHRA: the rule engine and the model trainer, embedded in Rocq

    A shallow embedding of [src/rule_engine.py] and [src/ml_model.py].

    - Python [str] values are [string]s of code points below 256: one
      character of the string is one code point, as Python has it.  [lower]
      and [strip] are Python's on that range (the accented capitals of
      Latin-1, the blanks U+0085 and U+00A0); [split(',')] and the substring
      test [in] are written out.
    - A pandas cell of a text column is a [cell]: a string or the float NaN
      that [pd.read_csv] stores for a missing entry.  A cell of a numeric
      column is a [num]: a rational or NaN.
    - A DataFrame built from a list of records is the list of its rows, the
      row label being the position (a RangeIndex).
    - Python exceptions are the [Raise] branch of [result]. *)

From Stdlib Require Import String Ascii List ZArith QArith Qround Bool Lia.
From Stdlib Require Import Sorted Permutation.
From Stdlib Require OrderedTypeEx.
Import ListNotations.
Local Open Scope string_scope.
Local Open Scope Z_scope.

(** ** Exceptions *)

Inductive pyerr : Type :=
| AttributeError               (* no attribute 'lower'; no .str accessor *)
| IndexError                   (* single positional indexer is out-of-bounds *)
| KeyError                     (* a dict key or a label that is absent *)
| ValueError (msg : string)
| Exception (msg : string).

Inductive result (A : Type) : Type :=
| Ok (a : A)
| Raise (e : pyerr).
Arguments Ok {A} a.
Arguments Raise {A} e.

Definition bind {A B} (r : result A) (k : A -> result B) : result B :=
  match r with
  | Ok a => k a
  | Raise e => Raise e
  end.

Notation "x <- c ;; k" := (bind c (fun x => k))
  (at level 61, c at next level, right associativity).

(** ** Python strings *)

Module PyStr.

(** The capitals below 256: A..Z, and U+00C0..U+00DE without the
    multiplication sign U+00D7.  Each has its small letter 32 above. *)
Definition is_upper (c : ascii) : bool :=
  let n := nat_of_ascii c in
  ((Nat.leb 65 n && Nat.leb n 90)
   || (Nat.leb 192 n && Nat.leb n 222 && negb (Nat.eqb n 215)))%bool.

Definition lower_char (c : ascii) : ascii :=
  if is_upper c then ascii_of_nat (nat_of_ascii c + 32) else c.

(** [s.lower()] *)
Fixpoint lower (s : string) : string :=
  match s with
  | EmptyString => EmptyString
  | String c s' => String (lower_char c) (lower s')
  end.

(** The characters below 256 that [str.isspace] accepts: TAB..CR, FS..US,
    space, NEL (U+0085) and the no-break space (U+00A0). *)
Definition is_space (c : ascii) : bool :=
  let n := nat_of_ascii c in
  ((Nat.leb 9 n && Nat.leb n 13) || (Nat.leb 28 n && Nat.leb n 32)
   || Nat.eqb n 133 || Nat.eqb n 160)%bool.

Fixpoint lstrip (s : string) : string :=
  match s with
  | EmptyString => EmptyString
  | String c s' => if is_space c then lstrip s' else s
  end.

Fixpoint rstrip (s : string) : string :=
  match s with
  | EmptyString => EmptyString
  | String c s' =>
      match rstrip s' with
      | EmptyString => if is_space c then EmptyString else String c EmptyString
      | r => String c r
      end
  end.

(** [s.strip()] *)
Definition strip (s : string) : string := rstrip (lstrip s).

(** [s.split(sep)] for a one-character separator: never the empty list. *)
Fixpoint split (sep : ascii) (s : string) : list string :=
  match s with
  | EmptyString => [EmptyString]
  | String c s' =>
      if Ascii.eqb c sep then EmptyString :: split sep s'
      else match split sep s' with
           | [] => [String c EmptyString]
           | h :: t => String c h :: t
           end
  end.

(** [sub in s] on strings *)
Fixpoint contains (sub s : string) : bool :=
  match s with
  | EmptyString => String.eqb sub EmptyString
  | String _ s' => (String.prefix sub s || contains sub s')%bool
  end.

(** truthiness of a string: non-empty *)
Definition truthy (s : string) : bool :=
  match s with EmptyString => false | _ => true end.

(** [x in l] for a string [x] and a list of strings *)
Definition mem (x : string) (l : list string) : bool :=
  existsb (String.eqb x) l.

End PyStr.

(** ** Cells *)

Inductive cell : Type :=
| CStr (s : string)
| CNaN.

Inductive num : Type :=
| NVal (q : Q)
| NNaN.

(** [str(x)] *)
Definition py_str (x : cell) : string :=
  match x with
  | CStr s => s
  | CNaN => "nan"
  end.

(** [x == y] on cells: NaN equals nothing, itself included. *)
Definition cell_eqb (x y : cell) : bool :=
  match x, y with
  | CStr a, CStr b => String.eqb a b
  | _, _ => false
  end.

(** [x == 'literal'] *)
Definition cell_is (x : cell) (lit : string) : bool := cell_eqb x (CStr lit).

(** [x.lower()]: only a [str] has the method. *)
Definition cell_lower (x : cell) : result string :=
  match x with
  | CStr s => Ok (PyStr.lower s)
  | CNaN => Raise AttributeError
  end.

(** [bmi > 30]: false on NaN. *)
Definition num_gt (x : num) (bound : Q) : bool :=
  match x with
  | NVal q => negb (Qle_bool q bound)
  | NNaN => false
  end.

(** ** Entity tables *)

Record User : Type := mkUser {
  UserID : cell;
  Age : num;
  BMI : num;
  SkinType : cell;
  Allergies : cell;
  HormoneLevel : cell
}.

Record Trend : Type := mkTrend {
  TrendName : cell;
  Type_ : cell;
  KeyIngredients : cell
}.

Record IngredientRiskEntry : Type := mkEntry {
  Ingredient : cell;
  RiskLevel : cell
}.

(** ** [class RuleEngine] *)

Record RuleEngine : Type := mkRuleEngine {
  users_df : list User;
  trends_df : list Trend;
  ingredient_risk_df : list IngredientRiskEntry;
  risk_rules : list (string * Z)
}.

Definition _define_risk_rules : list (string * Z) :=
  [ ("Allergy", 3); ("Skincare_Mismatch", 2);
    ("Diet_Mismatch", 1); ("Banned_Ingredient", 3) ].

(** [RuleEngine.__init__] *)
Definition RuleEngine_init (users : list User) (trends : list Trend)
    (ingredient_risk : list IngredientRiskEntry) : RuleEngine :=
  mkRuleEngine users trends ingredient_risk _define_risk_rules.

(** [d[k]] on a dict *)
Fixpoint dict_get (d : list (string * Z)) (k : string) : result Z :=
  match d with
  | [] => Raise KeyError
  | (k', v) :: d' => if String.eqb k' k then Ok v else dict_get d' k
  end.

(** [[a.strip().lower() for a in str(x).split(',') if str(a).strip()]] *)
Definition tokens (x : cell) : list string :=
  map (fun a => PyStr.lower (PyStr.strip a))
      (filter (fun a => PyStr.truthy (PyStr.strip a))
              (PyStr.split "," (py_str x))).

Definition check_allergy_risk (self : RuleEngine)
    (user_allergies trend_ingredients : cell) : result Z :=
  let user_allergies := tokens user_allergies in
  let trend_ingredients := tokens trend_ingredients in
  if existsb (fun ing => PyStr.mem ing user_allergies) trend_ingredients
  then dict_get (risk_rules self) "Allergy"
  else Ok 0.

(** [and] evaluates its right operand only when the left one is true. *)
Definition check_skincare_risk (self : RuleEngine)
    (skin_type trend_type trend_ingredients : cell) : result Z :=
  if (cell_is trend_type "Skincare" && cell_is skin_type "Sensitive")%bool
  then
    low <- cell_lower trend_ingredients ;;
    if PyStr.contains "acid" low
    then dict_get (risk_rules self) "Skincare_Mismatch"
    else Ok 0
  else Ok 0.

Definition check_diet_risk (self : RuleEngine)
    (bmi : num) (trend_type trend_ingredients : cell) : result Z :=
  if (cell_is trend_type "Dietary" && num_gt bmi (30 # 1))%bool
  then
    low <- cell_lower trend_ingredients ;;
    if PyStr.contains "detox" low
    then dict_get (risk_rules self) "Diet_Mismatch"
    else Ok 0
  else Ok 0.

(** [Series.str.lower()]: NaN where the element is not a string. *)
Definition series_str_lower (x : cell) : cell :=
  match x with
  | CStr s => CStr (PyStr.lower s)
  | CNaN => CNaN
  end.

(** The dtype [pd.read_csv] gives the Ingredient column: text (object) when
    the table has no row or some row has a name, a float column when it has
    rows and every name is missing.  A selection of rows keeps the dtype. *)
Definition ingredient_column_is_text (df : list IngredientRiskEntry) : bool :=
  match df with
  | [] => true
  | _ :: _ =>
      existsb (fun e => match Ingredient e with CStr _ => true | CNaN => false end)
              df
  end.

(** [df[df['RiskLevel'] == 'High']['Ingredient'].str.lower().tolist()]: the
    [.str] accessor raises AttributeError on a column that is not text. *)
Definition high_risk_ingredients (self : RuleEngine) : result (list cell) :=
  let selected :=
    filter (fun e => cell_is (RiskLevel e) "High") (ingredient_risk_df self) in
  if ingredient_column_is_text (ingredient_risk_df self)
  then Ok (map (fun e => series_str_lower (Ingredient e)) selected)
  else Raise AttributeError.

Definition check_ingredient_risk_level (self : RuleEngine)
    (trend_ingredients : cell) : result Z :=
  let trend_ingredients := tokens trend_ingredients in
  high <- high_risk_ingredients self ;;
  if existsb (fun ing => existsb (cell_eqb (CStr ing)) high) trend_ingredients
  then dict_get (risk_rules self) "Banned_Ingredient"
  else Ok 0.

(** [max(l)] on a list of ints *)
Definition py_max (l : list Z) : result Z :=
  match l with
  | [] => Raise (ValueError "max() arg is an empty sequence")
  | x :: l' => Ok (fold_left Z.max l' x)
  end.

Definition _assess_risk_efficient (self : RuleEngine)
    (user : User) (trend : Trend) : result (string * Z) :=
  a <- check_allergy_risk self (Allergies user) (KeyIngredients trend) ;;
  s <- check_skincare_risk self (SkinType user) (Type_ trend) (KeyIngredients trend) ;;
  d <- check_diet_risk self (BMI user) (Type_ trend) (KeyIngredients trend) ;;
  b <- check_ingredient_risk_level self (KeyIngredients trend) ;;
  let risk_scores := [a; s; d; b] in
  max_risk <- py_max risk_scores ;;
  if 3 <=? max_risk then Ok ("High Risk", max_risk)
  else if 1 <=? max_risk then Ok ("Medium Risk", max_risk)
  else Ok ("Safe", max_risk).

(** [df[mask].iloc[0]]: the first row the mask keeps. *)
Definition iloc0 {A} (rows : list A) : result A :=
  match rows with
  | [] => Raise IndexError
  | r :: _ => Ok r
  end.

Definition assess_risk (self : RuleEngine) (user_id trend_name : cell)
    : result (string * Z) :=
  user <- iloc0 (filter (fun u => cell_eqb (UserID u) user_id) (users_df self)) ;;
  trend <- iloc0 (filter (fun t => cell_eqb (TrendName t) trend_name) (trends_df self)) ;;
  _assess_risk_efficient self user trend.

(** A row of the risk matrix. *)
Record RiskRow : Type := mkRiskRow {
  rUserID : cell;
  rAge : num;
  rBMI : num;
  rSkinType : cell;
  rAllergies : cell;
  rHormoneLevel : cell;
  rTrendName : cell;
  rTrendType : cell;
  rKeyIngredients : cell;
  rRiskLevel : string;
  rRiskScore : Z
}.

Definition risk_row (user_data : User) (trend_data : Trend)
    (risk_level : string) (risk_score : Z) : RiskRow :=
  mkRiskRow (UserID user_data) (Age user_data) (BMI user_data)
            (SkinType user_data) (Allergies user_data) (HormoneLevel user_data)
            (TrendName trend_data) (Type_ trend_data) (KeyIngredients trend_data)
            risk_level risk_score.

(** The inner loop: one user against every trend, appending to [acc]. *)
Fixpoint trends_loop (self : RuleEngine) (user_data : User)
    (trends : list Trend) (risk_results : list RiskRow) : result (list RiskRow) :=
  match trends with
  | [] => Ok risk_results
  | trend_data :: rest =>
      r <- _assess_risk_efficient self user_data trend_data ;;
      trends_loop self user_data rest
        (risk_results ++ [risk_row user_data trend_data (fst r) (snd r)])
  end.

(** The outer loop over the users. *)
Fixpoint users_loop (self : RuleEngine) (users : list User)
    (risk_results : list RiskRow) : result (list RiskRow) :=
  match users with
  | [] => Ok risk_results
  | user_data :: rest =>
      acc <- trends_loop self user_data (trends_df self) risk_results ;;
      users_loop self rest acc
  end.

Definition generate_risk_matrix (self : RuleEngine) : result (list RiskRow) :=
  users_loop self (users_df self) [].

(** ** DataFrames of the model trainer

    The feature table is handled by column name, so it is kept generic: the
    column labels and, for every row, its index label and its values. *)

Inductive value : Type :=
| VCell (c : cell)
| VNum (n : num)
| VBool (b : bool)
| VInt (z : Z).

Record DataFrame : Type := mkDF {
  columns : list string;
  rows : list (nat * list value)
}.

(** [pd.isna] on a single value *)
Definition is_na (v : value) : bool :=
  match v with
  | VCell CNaN => true
  | VNum NNaN => true
  | _ => false
  end.

(** Position of a column label. *)
Fixpoint col_pos (c : string) (cols : list string) : option nat :=
  match cols with
  | [] => None
  | h :: t => if String.eqb h c then Some O
              else option_map S (col_pos c t)
  end.

(** Pair every element with its position, counting from [i]: the RangeIndex
    of a frame built from a list of records. *)
Fixpoint range_index {A} (i : nat) (l : list A) : list (nat * A) :=
  match l with
  | [] => []
  | x :: t => (i, x) :: range_index (S i) t
  end.

(** [df[c]]: the values of one column, with the frame's index. *)
Definition get_column (df : DataFrame) (c : string)
    : result (list (nat * value)) :=
  match col_pos c (columns df) with
  | None => Raise KeyError
  | Some p => Ok (map (fun r => (fst r, nth p (snd r) (VCell CNaN))) (rows df))
  end.

Fixpoint remove_nth {A} (p : nat) (l : list A) : list A :=
  match p, l with
  | _, [] => []
  | O, _ :: t => t
  | S p', h :: t => h :: remove_nth p' t
  end.

(** [df.drop(columns=[c])] *)
Definition drop_column (df : DataFrame) (c : string) : result DataFrame :=
  match col_pos c (columns df) with
  | None => Raise KeyError
  | Some p =>
      Ok (mkDF (remove_nth p (columns df))
               (map (fun r => (fst r, remove_nth p (snd r))) (rows df)))
  end.

Fixpoint replace_nth {A} (p : nat) (x : A) (l : list A) : list A :=
  match p, l with
  | _, [] => []
  | O, _ :: t => x :: t
  | S p', h :: t => h :: replace_nth p' x t
  end.

(** [df[c] = values]: replaces the column when it exists, appends otherwise.
    [values] comes from a Series over the same index. *)
Definition set_column (df : DataFrame) (c : string)
    (values : list (nat * value)) : DataFrame :=
  let cells := map snd values in
  match col_pos c (columns df) with
  | Some p =>
      mkDF (columns df)
           (map (fun rv => (fst (fst rv), replace_nth p (snd rv) (snd (fst rv))))
                (combine (rows df) cells))
  | None =>
      mkDF (columns df ++ [c])%list
           (map (fun rv => (fst (fst rv), (snd (fst rv) ++ [snd rv])%list))
                (combine (rows df) cells))
  end.

(** [df.dropna()]: keeps the rows without a missing value. *)
Definition dropna (df : DataFrame) : DataFrame :=
  mkDF (columns df)
       (filter (fun r => negb (existsb is_na (snd r))) (rows df)).

(** [s[labels]] / [df.loc[labels]]: selection by index label. *)
Fixpoint lookup_label {A} (s : list (nat * A)) (l : nat) : result A :=
  match s with
  | [] => Raise KeyError
  | (k, x) :: t => if Nat.eqb k l then Ok x else lookup_label t l
  end.

Fixpoint loc {A} (s : list (nat * A)) (labels : list nat)
    : result (list (nat * A)) :=
  match labels with
  | [] => Ok []
  | l :: t =>
      x <- lookup_label s l ;;
      rest <- loc s t ;;
      Ok ((l, x) :: rest)
  end.

(** Sorted distinct strings: the levels of [get_dummies] and the [classes_]
    of a [LabelEncoder]. *)
Fixpoint insert_level (s : string) (l : list string) : list string :=
  match l with
  | [] => [s]
  | h :: t =>
      match String.compare s h with
      | Lt => s :: l
      | Eq => l
      | Gt => h :: insert_level s t
      end
  end.

Definition sorted_unique (l : list string) : list string :=
  fold_right insert_level [] l.

(** The non-missing text of a column, in row order. *)
Fixpoint text_of (vs : list value) : list string :=
  match vs with
  | [] => []
  | VCell (CStr s) :: t => s :: text_of t
  | _ :: t => text_of t
  end.

(** One indicator per level; a missing value sets none of them. *)
Definition indicators (levels : list string) (v : value) : list value :=
  map (fun l => VBool (match v with
                       | VCell (CStr s) => String.eqb s l
                       | _ => false
                       end)) levels.

(** One step of [pd.get_dummies(df, columns=...)]: the column [c] leaves its
    place and its indicator columns [c_<level>] are appended. *)
Definition encode_column (df : DataFrame) (c : string) : result DataFrame :=
  col <- get_column df c ;;
  rest <- drop_column df c ;;
  let levels := sorted_unique (text_of (map snd col)) in
  Ok (mkDF (columns rest ++ map (fun l => (c ++ "_" ++ l)%string) levels)%list
           (map (fun rv => (fst (fst rv),
                            (snd (fst rv) ++ indicators levels (snd rv))%list))
                (combine (rows rest) (map snd col)))).

Fixpoint get_dummies (df : DataFrame) (cols : list string) : result DataFrame :=
  match cols with
  | [] => Ok df
  | c :: t => df' <- encode_column df c ;; get_dummies df' t
  end.

(** [lambda x: 1 if str(x).lower() not in ('none', 'nan') else 0].  The text
    of a number or of a bool is neither of the two words; NaN prints as
    [nan]. *)
Definition has_allergies (x : value) : value :=
  match x with
  | VCell c =>
      if PyStr.mem (PyStr.lower (py_str c)) ["none"; "nan"] then VInt 0 else VInt 1
  | VNum NNaN => VInt 0
  | _ => VInt 1
  end.

(** [MLModel._preprocess_features] *)
Definition _preprocess_features (X : DataFrame) : result DataFrame :=
  X_processed <- get_dummies X ["SkinType"; "TrendType"] ;;
  allergies <- get_column X_processed "Allergies" ;;
  let X_processed :=
    set_column X_processed "HasAllergies"
               (map (fun iv => (fst iv, has_allergies (snd iv))) allergies) in
  drop_column X_processed "Allergies".

(** [LabelEncoder.fit_transform]: the classes and the code of every label. *)
Fixpoint index_of (s : string) (l : list string) : nat :=
  match l with
  | [] => O
  | h :: t => if String.eqb h s then O else S (index_of s t)
  end.

Definition fit_transform (y : list string) : list string * list nat :=
  let classes := sorted_unique y in
  (classes, map (fun s => index_of s classes) y).

(** [LabelEncoder.inverse_transform] on one code *)
Definition inverse_label (classes : list string) (code : nat) : string :=
  nth code classes "".

(** The risk matrix as a DataFrame: [pd.DataFrame(risk_results)].  A frame
    built from no record has no column. *)
Definition risk_columns : list string :=
  [ "UserID"; "Age"; "BMI"; "SkinType"; "Allergies"; "HormoneLevel";
    "TrendName"; "TrendType"; "KeyIngredients"; "RiskLevel"; "RiskScore" ].

Definition risk_values (r : RiskRow) : list value :=
  [ VCell (rUserID r); VNum (rAge r); VNum (rBMI r); VCell (rSkinType r);
    VCell (rAllergies r); VCell (rHormoneLevel r); VCell (rTrendName r);
    VCell (rTrendType r); VCell (rKeyIngredients r);
    VCell (CStr (rRiskLevel r)); VInt (rRiskScore r) ].

Definition risk_frame (risk_results : list RiskRow) : DataFrame :=
  match risk_results with
  | [] => mkDF [] []
  | _ => mkDF risk_columns (range_index 0 (map risk_values risk_results))
  end.

(** Positions of the wanted labels; the first absent one raises. *)
Fixpoint positions (cols wanted : list string) : result (list nat) :=
  match wanted with
  | [] => Ok []
  | c :: t =>
      match col_pos c cols with
      | None => Raise KeyError
      | Some p => ps <- positions cols t ;; Ok (p :: ps)
      end
  end.

(** [df[[c1, ..., cn]]] *)
Definition select_columns (df : DataFrame) (wanted : list string)
    : result DataFrame :=
  ps <- positions (columns df) wanted ;;
  Ok (mkDF wanted
           (map (fun r => (fst r, map (fun p => nth p (snd r) (VCell CNaN)) ps))
                (rows df))).

(** ** scikit-learn, as far as the trainer calls it

    The split, the forest and the metrics are the library's; the trainer is
    modelled over any implementation of them. *)

Inductive ndarray : Type :=
| Array1 (l : list Z)          (* [np.array([...])] *)
| Table (df : DataFrame).

Class Sklearn : Type := {
  classifier : Type;
  report : Type;
  train_test_split :
    DataFrame -> list nat -> Q -> Z ->
    result (DataFrame * DataFrame * list nat * list nat);
  RandomForestClassifier : Z -> Z -> classifier;
  fit : classifier -> DataFrame -> list nat -> result classifier;
  predict : classifier -> ndarray -> result (list nat);
  accuracy_score : list nat -> list nat -> Q;
  classification_report :
    list nat -> list nat -> list string -> result report;
  confusion_matrix : list nat -> list nat -> list (list nat)
}.

Section Trainer.

Context {sk : Sklearn}.

(** ** [class MLModel] *)

Record MLModel : Type := mkMLModel {
  rule_engine : RuleEngine;
  label_encoder : option (list string);     (* [classes_], once fitted *)
  model : option classifier;
  X_train : option DataFrame;
  X_test : option DataFrame;
  y_train : option (list nat);
  y_test : option (list nat);
  risk_df_cleaned : option (list (nat * RiskRow))
}.

(** [MLModel.__init__] *)
Definition MLModel_init (engine : RuleEngine) : MLModel :=
  mkMLModel engine None None None None None None None.

(** Methods that assign to [self]: a state and error monad.  What was
    assigned before an exception stays assigned. *)
Definition M (A : Type) : Type := MLModel -> result A * MLModel.

Definition ret {A} (a : A) : M A := fun self => (Ok a, self).

Definition raise {A} (e : pyerr) : M A := fun self => (Raise e, self).

Definition bindM {A B} (m : M A) (k : A -> M B) : M B :=
  fun self =>
    match m self with
    | (Ok a, self') => k a self'
    | (Raise e, self') => (Raise e, self')
    end.

Definition lift {A} (r : result A) : M A := fun self => (r, self).

Definition read {A} (f : MLModel -> A) : M A := fun self => (Ok (f self), self).

Definition assign (f : MLModel -> MLModel) : M unit :=
  fun self => (Ok tt, f self).

Notation "x <~ c ;; k" := (bindM c (fun x => k))
  (at level 61, c at next level, right associativity).
Notation "c ;;; k" := (bindM c (fun _ => k))
  (at level 61, right associativity).

Definition set_label_encoder (classes : list string) (self : MLModel) : MLModel :=
  mkMLModel (rule_engine self) (Some classes) (model self) (X_train self)
            (X_test self) (y_train self) (y_test self) (risk_df_cleaned self).

Definition set_risk_df_cleaned (df : list (nat * RiskRow)) (self : MLModel)
    : MLModel :=
  mkMLModel (rule_engine self) (label_encoder self) (model self) (X_train self)
            (X_test self) (y_train self) (y_test self) (Some df).

Definition set_partitions
    (parts : DataFrame * DataFrame * list nat * list nat) (self : MLModel)
    : MLModel :=
  let '(Xtr, Xte, ytr, yte) := parts in
  mkMLModel (rule_engine self) (label_encoder self) (model self) (Some Xtr)
            (Some Xte) (Some ytr) (Some yte) (risk_df_cleaned self).

Definition set_model (m : classifier) (self : MLModel) : MLModel :=
  mkMLModel (rule_engine self) (label_encoder self) (Some m) (X_train self)
            (X_test self) (y_train self) (y_test self) (risk_df_cleaned self).

Definition prepare_training_data
    : M (DataFrame * list nat * list (nat * RiskRow)) :=
  engine <~ read rule_engine ;;
  risk_df <~ lift (generate_risk_matrix engine) ;;
  X <~ lift (select_columns (risk_frame risk_df)
               ["Age"; "BMI"; "SkinType"; "Allergies"; "TrendType"]) ;;
  let y := range_index 0 (map rRiskLevel risk_df) in
  X_processed <~ lift (_preprocess_features X) ;;
  let X_processed := dropna X_processed in
  y <~ lift (loc y (map fst (rows X_processed))) ;;
  let '(classes, y_encoded) := fit_transform (map snd y) in
  assign (set_label_encoder classes) ;;;
  cleaned <~ lift (loc (range_index 0 risk_df) (map fst (rows X_processed))) ;;
  assign (set_risk_df_cleaned cleaned) ;;;
  ret (X_processed, y_encoded, cleaned).

Definition train_model (model_type : string)
    : M (Q * report * list (list nat) * classifier) :=
  prepared <~ prepare_training_data ;;
  let '(X_processed, y_encoded, _) := prepared in
  parts <~ lift (train_test_split X_processed y_encoded (2 # 10) 42) ;;
  assign (set_partitions parts) ;;;
  let '(Xtr, Xte, ytr, yte) := parts in
  (if String.eqb model_type "random_forest"
   then assign (set_model (RandomForestClassifier 100 42))
   else raise (ValueError "Unsupported model type.")) ;;;
  fitted <~ lift (fit (RandomForestClassifier 100 42) Xtr ytr) ;;
  assign (set_model fitted) ;;;
  y_pred <~ lift (predict fitted (Table Xte)) ;;
  let accuracy := accuracy_score yte y_pred in
  classes <~ read label_encoder ;;
  rep <~ lift (classification_report yte y_pred
                 (match classes with Some c => c | None => [] end)) ;;
  let conf_matrix := confusion_matrix yte y_pred in
  ret (accuracy, rep, conf_matrix, fitted).

(** The arguments are not used: the body predicts on a fixed array. *)
Definition predict_risk {U T : Type} (self : MLModel)
    (user_features : U) (trend_features : T) : result (list nat) :=
  match model self with
  | None => Raise (Exception "Model not trained yet.")
  | Some m => predict m (Array1 [1; 0; 1])
  end.

End Trainer.

(** ** Statements about the rule engine *)

(** The thresholds of the risk tiers, as a relation between level and score. *)
Definition threshold_consistent (level : string) (score : Z) : Prop :=
  (level = "Safe" <-> score = 0) /\
  (level = "Medium Risk" <-> 1 <= score <= 2) /\
  (level = "High Risk" <-> 3 <= score).

(** A (level, score) the engine hands out: through the single-pair entry
    point, or as a row of the matrix. *)
Inductive assessed (self : RuleEngine) (level : string) (score : Z) : Prop :=
| assessed_pair (user_id trend_name : cell) :
    assess_risk self user_id trend_name = Ok (level, score) ->
    assessed self level score
| assessed_row (matrix : list RiskRow) (r : RiskRow) :
    generate_risk_matrix self = Ok matrix ->
    In r matrix ->
    rRiskLevel r = level ->
    rRiskScore r = score ->
    assessed self level score.

(** Running a fallible function over a list, left to right, stopping at the
    first exception. *)
Fixpoint mapM {A B} (f : A -> result B) (l : list A) : result (list B) :=
  match l with
  | [] => Ok []
  | x :: t => y <- f x ;; ys <- mapM f t ;; Ok (y :: ys)
  end.

(** The matrix row of one pair. *)
Definition pair_row (self : RuleEngine) (p : User * Trend) : result RiskRow :=
  r <- _assess_risk_efficient self (fst p) (snd p) ;;
  Ok (risk_row (fst p) (snd p) (fst r) (snd r)).

Definition row_key (r : RiskRow) : cell * cell := (rUserID r, rTrendName r).

Definition is_text (c : cell) : Prop := exists s, c = CStr s.

(** ** Tables used to evaluate the engine *)

Module Sample.

Definition alice : User :=
  mkUser (CStr "U001") (NVal (29 # 1)) (NVal (22 # 1)) (CStr "Sensitive")
         (CStr "nuts") (CStr "Normal").

Definition bob : User :=
  mkUser (CStr "U002") (NVal (41 # 1)) (NVal (32 # 1)) (CStr "Oily")
         (CStr "None") (CStr "High").

(** A second record under Alice's key, with other attributes. *)
Definition alice_again : User :=
  mkUser (CStr "U001") (NVal (35 # 1)) (NVal (24 # 1)) (CStr "Normal")
         (CStr "None") (CStr "Low").

Definition nut_peel : Trend :=
  mkTrend (CStr "Nut Acid Peel") (CStr "Skincare") (CStr "Nuts, Glycolic Acid").

Definition detox_tea : Trend :=
  mkTrend (CStr "Detox Tea") (CStr "Dietary") (CStr "Detox Tea").

Definition water : Trend :=
  mkTrend (CStr "Water") (CStr "General") (CStr "Water").

(** A skincare trend whose ingredient entry is missing. *)
Definition mystery_serum : Trend :=
  mkTrend (CStr "Mystery Serum") (CStr "Skincare") CNaN.

Definition ingredient_risk : list IngredientRiskEntry :=
  [ mkEntry (CStr "Lead") (CStr "High"); mkEntry (CStr "Water") (CStr "Low") ].

Definition engine : RuleEngine :=
  RuleEngine_init [alice; bob] [nut_peel; detox_tea; water] ingredient_risk.

(** The matrix of [engine], evaluated. *)
Definition matrix : list RiskRow :=
  Eval vm_compute in
    match generate_risk_matrix engine with
    | Ok m => m
    | Raise _ => []
    end.

End Sample.

(** ** Statements about the model trainer *)

(** The feature table [risk_df[['Age', 'BMI', 'SkinType', 'Allergies',
    'TrendType']]], in closed form. *)
Definition feature_columns : list string :=
  ["Age"; "BMI"; "SkinType"; "Allergies"; "TrendType"].

Definition feature_values (r : RiskRow) : list value :=
  [ VNum (rAge r); VNum (rBMI r); VCell (rSkinType r); VCell (rAllergies r);
    VCell (rTrendType r) ].

Definition feature_frame (risk_df : list RiskRow) : DataFrame :=
  mkDF feature_columns (range_index 0 (map feature_values risk_df)).

(** The levels seen in a text field of the batch. *)
Definition levels_of (field : RiskRow -> cell) (risk_df : list RiskRow)
    : list string :=
  sorted_unique (text_of (map (fun r => VCell (field r)) risk_df)).

Definition dummy_names (prefix : string) (levels : list string) : list string :=
  map (fun l => prefix ++ "_" ++ l) levels.

(** The processed table, in closed form: what [_preprocess_features] is
    proved to return on a feature table. *)
Definition processed_columns (skin trend : list string) : list string :=
  (["Age"; "BMI"] ++ (dummy_names "SkinType" skin ++ dummy_names "TrendType" trend)
   ++ ["HasAllergies"])%list.

Definition processed_values (skin trend : list string) (r : RiskRow)
    : list value :=
  (VNum (rAge r) :: VNum (rBMI r) ::
   (indicators skin (VCell (rSkinType r))
    ++ indicators trend (VCell (rTrendType r)))
   ++ [has_allergies (VCell (rAllergies r))])%list.

Definition num_is_nan (n : num) : bool :=
  match n with NNaN => true | NVal _ => false end.

(** A row that [dropna] removes from the processed table. *)
Definition incomplete (r : RiskRow) : bool :=
  (num_is_nan (rAge r) || num_is_nan (rBMI r))%bool.

(** A row with a missing value in one of the five raw feature fields. *)
Definition missing_feature (r : RiskRow) : bool :=
  (num_is_nan (rAge r) || num_is_nan (rBMI r)
   || is_na (VCell (rSkinType r)) || is_na (VCell (rAllergies r))
   || is_na (VCell (rTrendType r)))%bool.

(** Follows the spec's words: "Allergies (comma-separated free text,
    normalized to a set of lowercase allergen tokens; empty/"none" -> empty
    set)".  The tokens are those of the rule engine; a missing entry and the
    single word "none" stand for no allergy. *)
Definition spec_allergy_tokens (x : cell) : list string :=
  match x with
  | CNaN => []
  | CStr s =>
      if String.eqb (PyStr.lower (PyStr.strip s)) "none" then []
      else tokens (CStr s)
  end.

(** Follows the spec's words: "1 if the token set is non-empty, 0
    otherwise". *)
Definition spec_has_allergies (x : cell) : value :=
  match spec_allergy_tokens x with
  | [] => VInt 0
  | _ => VInt 1
  end.

Fixpoint no_space (s : string) : bool :=
  match s with
  | EmptyString => true
  | String c s' => (negb (PyStr.is_space c) && no_space s')%bool
  end.

(** Follows the spec's words: an unsupported kind fails "before any
    computation", that is with the trainer left as it was. *)
Definition fails_before_any_computation {sk : Sklearn}
    (model_type : string) (self : MLModel) : Prop :=
  train_model model_type self
  = (Raise (ValueError "Unsupported model type."), self).

(** ** A plain implementation of the library interface

    Used to run the trainer on the sample tables: the test partition is the
    first fifth of the rows (rounded up), the classifier answers with the
    first training label. *)
Module Plain.

Definition n_test (n : nat) (test_size : Q) : nat :=
  Z.to_nat (Qceiling (inject_Z (Z.of_nat n) * test_size)).

Definition split (X : DataFrame) (y : list nat) (test_size : Q) (seed : Z)
    : result (DataFrame * DataFrame * list nat * list nat) :=
  let k := n_test (length (rows X)) test_size in
  if (length (rows X) <=? k)%nat
  then Raise (ValueError "the resulting train set will be empty")
  else Ok (mkDF (columns X) (skipn k (rows X)),
           mkDF (columns X) (firstn k (rows X)),
           skipn k y, firstn k y).

Definition fit (c : nat) (X : DataFrame) (y : list nat) : result nat :=
  match y with
  | [] => Raise (ValueError "Found array with 0 sample(s)")
  | label :: _ => Ok label
  end.

Definition predict (c : nat) (a : ndarray) : result (list nat) :=
  match a with
  | Table df => Ok (map (fun _ => c) (rows df))
  | Array1 _ => Raise (ValueError "Expected 2D array, got 1D array instead")
  end.

Definition hits (y_true y_pred : list nat) : nat :=
  length (filter (fun p => Nat.eqb (fst p) (snd p)) (combine y_true y_pred)).

Definition accuracy (y_true y_pred : list nat) : Q :=
  Z.of_nat (hits y_true y_pred) # Pos.of_nat (length y_true).

End Plain.

#[local] Instance plain_sklearn : Sklearn := {
  classifier := nat;
  report := unit;
  train_test_split := Plain.split;
  RandomForestClassifier := fun _ _ => O;
  fit := Plain.fit;
  predict := Plain.predict;
  accuracy_score := Plain.accuracy;
  classification_report := fun _ _ _ => Ok tt;
  confusion_matrix := fun _ _ => []
}.

Module SampleTrainer.

(** A user whose skin type was not recorded. *)
Definition carol : User :=
  mkUser (CStr "U003") (NVal (52 # 1)) (NVal (27 # 1)) CNaN (CStr "")
         (CStr "Low").

(** A user whose BMI was not recorded. *)
Definition dave : User :=
  mkUser (CStr "U004") (NVal (33 # 1)) NNaN (CStr "Oily") (CStr "None")
         (CStr "Normal").

Definition engine : RuleEngine :=
  RuleEngine_init [Sample.alice; Sample.bob; carol; dave]
                  [Sample.nut_peel; Sample.detox_tea] Sample.ingredient_risk.

Definition trainer : MLModel := MLModel_init engine.

(** The matrix of [engine], evaluated: eight rows, Dave's two last. *)
Definition matrix : list RiskRow :=
  Eval vm_compute in
    match generate_risk_matrix engine with
    | Ok m => m
    | Raise _ => []
    end.

(** Carol against the nut peel: no skin type, empty allergy text. *)
Definition carol_row : RiskRow :=
  risk_row carol Sample.nut_peel "Safe" 0.

Definition empty_trainer : MLModel :=
  MLModel_init (RuleEngine_init [] [Sample.water] Sample.ingredient_risk).

End SampleTrainer.

(** Two engines with the same users in another order; Dave's BMI is
    missing, so that his row is dropped before the labels are encoded. *)
Module SampleOrder.

Definition engine : RuleEngine :=
  RuleEngine_init [Sample.alice; SampleTrainer.dave] [Sample.nut_peel]
                  Sample.ingredient_risk.

Definition engine' : RuleEngine :=
  RuleEngine_init [SampleTrainer.dave; Sample.alice] [Sample.nut_peel]
                  Sample.ingredient_risk.

Definition trainer : MLModel := MLModel_init engine.

Definition trainer' : MLModel := MLModel_init engine'.

Definition matrix : list RiskRow :=
  [ risk_row Sample.alice Sample.nut_peel "High Risk" 3;
    risk_row SampleTrainer.dave Sample.nut_peel "Safe" 0 ].

Definition matrix' : list RiskRow :=
  [ risk_row SampleTrainer.dave Sample.nut_peel "Safe" 0;
    risk_row Sample.alice Sample.nut_peel "High Risk" 3 ].

End SampleOrder.

(** ** Statements about texts and tokens *)

(** A text that does not start with a blank. *)
Definition head_not_space (s : string) : bool :=
  match s with
  | EmptyString => true
  | String c _ => negb (PyStr.is_space c)
  end.

(** An ingredient entry with its name lowered. *)
Definition lower_entry (e : IngredientRiskEntry) : IngredientRiskEntry :=
  mkEntry (series_str_lower (Ingredient e)) (RiskLevel e).

(** The pairs on which an assessment raises: a missing ingredient entry met
    by a guard that passes. *)
Definition raising_pair (u : User) (t : Trend) : Prop :=
  KeyIngredients t = CNaN /\
  ((Type_ t = CStr "Skincare" /\ SkinType u = CStr "Sensitive") \/
   (Type_ t = CStr "Dietary" /\ exists q, BMI u = NVal q /\ (30 # 1 < q)%Q)).

(** An ingredient table with rows and not one name: [pd.read_csv] makes its
    Ingredient column a float column. *)
Definition nameless_ingredients (df : list IngredientRiskEntry) : Prop :=
  df <> [] /\ forall e, In e df -> Ingredient e = CNaN.

(** The rows of a matrix under a pair of keys, compared as pandas compares
    them. *)
Definition under_keys (user_id trend_name : cell) (r : RiskRow) : bool :=
  (cell_eqb (rUserID r) user_id && cell_eqb (rTrendName r) trend_name)%bool.

(** The three levels, in the order of a label encoder. *)
Definition risk_levels : list string := ["High Risk"; "Medium Risk"; "Safe"].

(** An implementation of the library interface whose fit always fails, as
    the forest does on a table it cannot take. *)
#[local] Instance failing_fit_sklearn : Sklearn := {
  classifier := nat;
  report := unit;
  train_test_split := Plain.split;
  RandomForestClassifier := fun _ _ => O;
  fit := fun _ _ _ => Raise (ValueError "could not convert string to float");
  predict := Plain.predict;
  accuracy_score := Plain.accuracy;
  classification_report := fun _ _ _ => Ok tt;
  confusion_matrix := fun _ _ => []
}.

(** ** [app.py]: the figures and the tabs of the dashboard

    The data side of [TrendWiseApp.render_main_dashboard]; what is drawn
    with them is Streamlit's. *)

(** [df[df['RiskLevel'] == level]] *)
Definition rows_with_level (df : list RiskRow) (level : string) : list RiskRow :=
  filter (fun r => String.eqb (rRiskLevel r) level) df.

Definition total_assessments (risk_df : list RiskRow) : nat := length risk_df.

Definition safe_count (risk_df : list RiskRow) : nat :=
  length (rows_with_level risk_df "Safe").

Definition medium_risk_count (risk_df : list RiskRow) : nat :=
  length (rows_with_level risk_df "Medium Risk").

Definition high_risk_count (risk_df : list RiskRow) : nat :=
  length (rows_with_level risk_df "High Risk").

(** The rows behind the recommendation tabs: the selected user's rows,
    narrowed by type and by level unless the choice is 'All'. *)
Definition user_risk_df (risk_df : list RiskRow)
    (selected_user selected_type : cell) (selected_risk : string)
    : list RiskRow :=
  let user_risk_df :=
    filter (fun r => cell_eqb (rUserID r) selected_user) risk_df in
  let user_risk_df :=
    if negb (cell_is selected_type "All")
    then filter (fun r => cell_eqb (rTrendType r) selected_type) user_risk_df
    else user_risk_df in
  let user_risk_df :=
    if negb (String.eqb selected_risk "All")
    then rows_with_level user_risk_df selected_risk
    else user_risk_df in
  user_risk_df.

Definition safe_trends (user_risk_df : list RiskRow) : list RiskRow :=
  rows_with_level user_risk_df "Safe".

Definition medium_trends (user_risk_df : list RiskRow) : list RiskRow :=
  rows_with_level user_risk_df "Medium Risk".

Definition high_trends (user_risk_df : list RiskRow) : list RiskRow :=
  rows_with_level user_risk_df "High Risk".

(** ** [visualizations.py]: the ingredient rows of the ingredient analysis

    [create_ingredient_risk_analysis] up to the grouping: the ingredient text
    is made a string, split at the commas and exploded, the names are
    stripped and the blank ones dropped. *)
Definition ingredient_names (key_ingredients : cell) : list string :=
  filter (fun name => negb (String.eqb name ""))
         (map PyStr.strip (PyStr.split "," (py_str key_ingredients))).

(** One row (RiskLevel, RiskScore, Ingredient) per name, in row order. *)
Definition ingredient_df (risk_df : list RiskRow) : list (string * Z * string) :=
  flat_map (fun r => map (fun name => (rRiskLevel r, rRiskScore r, name))
                         (ingredient_names (rKeyIngredients r)))
           risk_df.

(** ** [preprocessor.py]: the allergy list of [preprocess_users]

    [[] if str(x).lower().strip() in ('none', 'nan')
     else [allergy.strip() for allergy in str(x).split(',')]] *)
Definition allergy_list (x : cell) : list string :=
  if PyStr.mem (PyStr.strip (PyStr.lower (py_str x))) ["none"; "nan"]
  then []
  else map PyStr.strip (PyStr.split "," (py_str x)).

(** ** [data_loader.py]

    The loader is modelled over the file system it reads: whether a path
    exists, and what [pd.read_csv] makes of it.  A path is the list of the
    components given to [os.path.join]. *)

Definition path : Type := list string.

Inductive load_exception : Type :=
| FileNotFoundError (msg : string)
| OtherException (msg : string).

(** The lines [load_data] prints. *)
Inductive printed : Type :=
| AllLoaded                                  (* All data loaded successfully! *)
| DataFileError (e : string)                 (* DATA FILE ERROR: {e} *)
| DataFolderHint                             (* Please ensure the 'data' folder ... *)
| UnexpectedLoadingError (e : string).       (* UNEXPECTED LOADING ERROR: {e} *)

Section Loader.

Variable table : Type.
Variable path_exists : path -> bool.
Variable read_csv : path -> load_exception + table.

(** The attributes [users_df], [trends_df] and [ingredient_risk_df], under
    names of their own beside those of the rule engine. *)
Record DataLoader : Type := mkDataLoader {
  l_users_df : option table;
  l_trends_df : option table;
  l_ingredient_risk_df : option table;
  script_dir : string
}.

(** [DataLoader.__init__], the directory of the script being given. *)
Definition DataLoader_init (dir : string) : DataLoader :=
  mkDataLoader None None None dir.

Definition _get_data_path (self : DataLoader) (filename : string) : option path :=
  let data_root := [script_dir self; ".."; "data"] in
  let final_path := (data_root ++ [filename])%list in
  if path_exists final_path then Some final_path else None.

Definition files_to_load : list (string * string) :=
  [ ("Users", "Users.csv"); ("Trends", "trends.csv");
    ("Ingredient Risk", "ingredient_risk.csv") ].

(** The assignment chosen by the name of the data set. *)
Definition assign_table (name : string) (t : table) (self : DataLoader)
    : DataLoader :=
  if String.eqb name "Users"
  then mkDataLoader (Some t) (l_trends_df self) (l_ingredient_risk_df self)
                    (script_dir self)
  else if String.eqb name "Trends"
  then mkDataLoader (l_users_df self) (Some t) (l_ingredient_risk_df self)
                    (script_dir self)
  else if String.eqb name "Ingredient Risk"
  then mkDataLoader (l_users_df self) (l_trends_df self) (Some t)
                    (script_dir self)
  else self.

(** The body of the [try]: the loop over the files, stopping at the first
    exception. *)
Fixpoint load_files (files : list (string * string)) (self : DataLoader)
    : option load_exception * DataLoader :=
  match files with
  | [] => (None, self)
  | (name, filename) :: rest =>
      match _get_data_path self filename with
      | None =>
          (Some (FileNotFoundError ("Required file not found: " ++ filename)),
           self)
      | Some file_path =>
          match read_csv file_path with
          | inl e => (Some e, self)
          | inr t => load_files rest (assign_table name t self)
          end
      end
  end.

(** [DataLoader.load_data]: the flag returned, the loader afterwards and the
    lines printed. *)
Definition load_data (self : DataLoader) : bool * DataLoader * list printed :=
  match load_files files_to_load self with
  | (None, self') => (true, self', [AllLoaded])
  | (Some (FileNotFoundError e), self') =>
      (false, self', [DataFileError e; DataFolderHint])
  | (Some (OtherException e), self') =>
      (false, self', [UnexpectedLoadingError e])
  end.

(** What reading one file of the data folder gives. *)
Definition file_outcome (self : DataLoader) (filename : string)
    : load_exception + table :=
  match _get_data_path self filename with
  | None => inl (FileNotFoundError ("Required file not found: " ++ filename))
  | Some file_path => read_csv file_path
  end.

End Loader.

Arguments mkDataLoader {table}.
Arguments l_users_df {table}.
Arguments l_trends_df {table}.
Arguments l_ingredient_risk_df {table}.
Arguments script_dir {table}.
Arguments DataLoader_init {table}.
Arguments load_data {table}.
Arguments file_outcome {table}.

(** A data folder in which only the users file is present. *)
Module SampleFiles.

Definition only_users (p : path) : bool :=
  match p with
  | [_; _; _; name] => String.eqb name "Users.csv"
  | _ => false
  end.

Definition read_rows (p : path) : load_exception + nat := inr 12%nat.

End SampleFiles.

(** ** [app.py]: loading and processing

    [load_and_process_data] from the point where [load_data] has returned:
    [loaded] is its flag, the three tables are the loader's attributes.  The
    value is the 4-tuple returned, [None] included; the Streamlit cache around
    the function and its console lines are left out. *)

Section App.

Context {sk : Sklearn} {loader : Type}.

Definition load_and_process_data (data_loader : loader) (loaded : bool)
    (users : list User) (trends : list Trend)
    (ingredient_risk : list IngredientRiskEntry)
    : result (option loader * option RuleEngine * option MLModel
              * option (list RiskRow)) :=
  if negb loaded then Ok (None, None, None, None)
  else
    let rule_engine := RuleEngine_init users trends ingredient_risk in
    risk_df <- generate_risk_matrix rule_engine ;;
    let ml_model :=
      match risk_df with
      | [] => None
      | _ :: _ =>
          (* try: ... except Exception: the trainer is kept as training left it *)
          Some (snd (train_model "random_forest" (MLModel_init rule_engine)))
      end in
    Ok (Some data_loader, Some rule_engine, ml_model, Some risk_df).

(** The test of [TrendWiseApp.setup]: false when the loader or the matrix is
    [None] or the matrix is empty. *)
Definition setup
    (processed : option loader * option RuleEngine * option MLModel
                 * option (list RiskRow)) : bool :=
  match processed with
  | (None, _, _, _) => false
  | (_, _, _, None) => false
  | (_, _, _, Some []) => false
  | (Some _, _, _, Some (_ :: _)) => true
  end.

End App.

Local Open Scope list_scope.

(** ** The rule engine: what the four checks return *)

Section Checks.

Variables (users : list User) (trends : list Trend)
          (ingredient_risk : list IngredientRiskEntry).

Let self := RuleEngine_init users trends ingredient_risk.

Lemma check_allergy_risk_cases a i :
  check_allergy_risk self a i = Ok 3 \/ check_allergy_risk self a i = Ok 0.
Proof.
  unfold check_allergy_risk.
  destruct (existsb _ _); [left | right]; reflexivity.
Qed.

Lemma check_skincare_risk_cases s ty i :
  check_skincare_risk self s ty i = Ok 2 \/
  check_skincare_risk self s ty i = Ok 0 \/
  (check_skincare_risk self s ty i = Raise AttributeError /\ i = CNaN).
Proof.
  unfold check_skincare_risk.
  destruct (_ && _)%bool; [| right; left; reflexivity].
  destruct i as [txt |]; simpl.
  - destruct (PyStr.contains _ _); [left | right; left]; reflexivity.
  - right; right; split; reflexivity.
Qed.

Lemma check_diet_risk_cases bmi ty i :
  check_diet_risk self bmi ty i = Ok 1 \/
  check_diet_risk self bmi ty i = Ok 0 \/
  (check_diet_risk self bmi ty i = Raise AttributeError /\ i = CNaN).
Proof.
  unfold check_diet_risk.
  destruct (_ && _)%bool; [| right; left; reflexivity].
  destruct i as [txt |]; simpl.
  - destruct (PyStr.contains _ _); [left | right; left]; reflexivity.
  - right; right; split; reflexivity.
Qed.

Lemma check_ingredient_risk_level_cases i :
  check_ingredient_risk_level self i = Ok 3 \/
  check_ingredient_risk_level self i = Ok 0 \/
  (check_ingredient_risk_level self i = Raise AttributeError /\
   ingredient_column_is_text ingredient_risk = false).
Proof.
  unfold check_ingredient_risk_level, high_risk_ingredients.
  cbn [ingredient_risk_df self RuleEngine_init].
  destruct (ingredient_column_is_text ingredient_risk); cbn [bind].
  - destruct (existsb _ _); [left | right; left]; reflexivity.
  - right; right; split; reflexivity.
Qed.

(** What a successful assessment is made of. *)
Lemma assess_risk_efficient_inv u t level score :
  _assess_risk_efficient self u t = Ok (level, score) ->
  exists a s d b,
    check_allergy_risk self (Allergies u) (KeyIngredients t) = Ok a /\
    check_skincare_risk self (SkinType u) (Type_ t) (KeyIngredients t) = Ok s /\
    check_diet_risk self (BMI u) (Type_ t) (KeyIngredients t) = Ok d /\
    check_ingredient_risk_level self (KeyIngredients t) = Ok b /\
    score = Z.max (Z.max (Z.max a s) d) b /\
    level = (if 3 <=? score then "High Risk"
             else if 1 <=? score then "Medium Risk" else "Safe").
Proof.
  unfold _assess_risk_efficient.
  destruct (check_allergy_risk _ _ _) as [a | e]; [| discriminate].
  destruct (check_skincare_risk _ _ _ _) as [s | e]; [| discriminate].
  destruct (check_diet_risk _ _ _ _) as [d | e]; [| discriminate].
  destruct (check_ingredient_risk_level _ _) as [b | e]; [| discriminate].
  cbn [bind py_max fold_left].
  set (m := Z.max (Z.max (Z.max a s) d) b).
  intros H. exists a, s, d, b.
  assert (E : score = m
              /\ level = (if 3 <=? m then "High Risk"
                          else if 1 <=? m then "Medium Risk" else "Safe")).
  { destruct (3 <=? m); [| destruct (1 <=? m)];
      inversion H; split; reflexivity. }
  destruct E as [-> ->]. repeat split; reflexivity.
Qed.

Lemma assess_risk_efficient_range u t level score :
  _assess_risk_efficient self u t = Ok (level, score) -> 0 <= score <= 3.
Proof.
  intros H.
  destruct (assess_risk_efficient_inv _ _ _ _ H)
    as (a & s & d & b & Ha & Hs & Hd & Hb & -> & _).
  destruct (check_allergy_risk_cases (Allergies u) (KeyIngredients t))
    as [E | E]; rewrite E in Ha; inversion Ha; subst a;
  (destruct (check_skincare_risk_cases (SkinType u) (Type_ t) (KeyIngredients t))
    as [E1 | [E1 | [E1 _]]]; rewrite E1 in Hs; inversion Hs; subst s);
  (destruct (check_diet_risk_cases (BMI u) (Type_ t) (KeyIngredients t))
    as [E2 | [E2 | [E2 _]]]; rewrite E2 in Hd; inversion Hd; subst d);
  (destruct (check_ingredient_risk_level_cases (KeyIngredients t))
    as [E3 | [E3 | [E3 _]]]; rewrite E3 in Hb; inversion Hb; subst b); lia.
Qed.

Lemma assess_risk_efficient_threshold u t level score :
  _assess_risk_efficient self u t = Ok (level, score) ->
  threshold_consistent level score.
Proof.
  intros H. pose proof (assess_risk_efficient_range _ _ _ _ H) as R.
  destruct (assess_risk_efficient_inv _ _ _ _ H)
    as (a & s & d & b & _ & _ & _ & _ & _ & L).
  unfold threshold_consistent. rewrite L.
  destruct (3 <=? score) eqn:E3; [apply Z.leb_le in E3 | apply Z.leb_gt in E3].
  - repeat split; intros; try discriminate; try lia; reflexivity.
  - destruct (1 <=? score) eqn:E1;
      [apply Z.leb_le in E1 | apply Z.leb_gt in E1];
      repeat split; intros; try discriminate; try lia; reflexivity.
Qed.

(** An assessment only raises on a missing ingredient entry or on an
    ingredient table whose names are all missing. *)
Lemma assess_risk_efficient_total u t :
  is_text (KeyIngredients t) ->
  ingredient_column_is_text ingredient_risk = true ->
  exists level score, _assess_risk_efficient self u t = Ok (level, score).
Proof.
  intros [txt Ht] Hcol. unfold _assess_risk_efficient.
  destruct (check_allergy_risk_cases (Allergies u) (KeyIngredients t))
    as [E | E]; rewrite E; clear E;
  (destruct (check_skincare_risk_cases (SkinType u) (Type_ t) (KeyIngredients t))
    as [E1 | [E1 | [_ E1]]]; [rewrite E1 | rewrite E1 | congruence]);
  (destruct (check_diet_risk_cases (BMI u) (Type_ t) (KeyIngredients t))
    as [E2 | [E2 | [_ E2]]]; [rewrite E2 | rewrite E2 | congruence]);
  (destruct (check_ingredient_risk_level_cases (KeyIngredients t))
    as [E3 | [E3 | [_ E3]]]; [rewrite E3 | rewrite E3 | congruence]);
  cbn; eauto.
Qed.

(** The only exception of an assessment is AttributeError. *)
Lemma assess_risk_efficient_raise u t e :
  _assess_risk_efficient self u t = Raise e -> e = AttributeError.
Proof.
  unfold _assess_risk_efficient.
  destruct (check_allergy_risk_cases (Allergies u) (KeyIngredients t))
    as [E | E]; rewrite E; clear E;
  (destruct (check_skincare_risk_cases (SkinType u) (Type_ t) (KeyIngredients t))
    as [E1 | [E1 | [E1 _]]]; rewrite E1; clear E1);
  (destruct (check_diet_risk_cases (BMI u) (Type_ t) (KeyIngredients t))
    as [E2 | [E2 | [E2 _]]]; rewrite E2; clear E2);
  (destruct (check_ingredient_risk_level_cases (KeyIngredients t))
    as [E3 | [E3 | [E3 _]]]; rewrite E3; clear E3);
  cbn; intros H; try discriminate; inversion H; reflexivity.
Qed.

End Checks.

(** ** Lists run through a fallible function *)

Section MapM.

Context {A B : Type} (f : A -> result B).

Lemma mapM_app l1 l2 :
  mapM f (l1 ++ l2) =
  (ys1 <- mapM f l1 ;; ys2 <- mapM f l2 ;; Ok (ys1 ++ ys2)).
Proof.
  induction l1 as [| x l1 IH]; simpl.
  - destruct (mapM f l2); reflexivity.
  - destruct (f x) as [y | e]; simpl; [| reflexivity].
    rewrite IH. destruct (mapM f l1); simpl; [| reflexivity].
    destruct (mapM f l2); reflexivity.
Qed.

Lemma mapM_length l out : mapM f l = Ok out -> length out = length l.
Proof.
  revert out. induction l as [| x l IH]; simpl; intros out H.
  - inversion H. reflexivity.
  - destruct (f x); simpl in H; [| discriminate].
    destruct (mapM f l); simpl in H; [| discriminate].
    inversion H. simpl. f_equal. apply IH. reflexivity.
Qed.

Lemma mapM_map {C} (g : B -> C) (h : A -> C) l out :
  (forall x y, f x = Ok y -> g y = h x) ->
  mapM f l = Ok out -> map g out = map h l.
Proof.
  intros Hgh. revert out. induction l as [| x l IH]; simpl; intros out H.
  - inversion H. reflexivity.
  - destruct (f x) as [y | e] eqn:Ef; simpl in H; [| discriminate].
    destruct (mapM f l); simpl in H; [| discriminate].
    inversion H. simpl. f_equal; [apply Hgh, Ef | apply IH; reflexivity].
Qed.

(** Every output comes from an input, and every input gives an output. *)
Lemma mapM_In_out l out y :
  mapM f l = Ok out -> In y out -> exists x, In x l /\ f x = Ok y.
Proof.
  revert out. induction l as [| x l IH]; simpl; intros out H Hy.
  - inversion H; subst. destruct Hy.
  - destruct (f x) as [y0 | e] eqn:Ef; simpl in H; [| discriminate].
    destruct (mapM f l) as [ys | e]; simpl in H; [| discriminate].
    inversion H; subst. destruct Hy as [<- | Hy].
    + exists x. split; [left; reflexivity | exact Ef].
    + destruct (IH ys eq_refl Hy) as (x' & Hin & Hx').
      exists x'. split; [right; exact Hin | exact Hx'].
Qed.

Lemma mapM_In_in l out x :
  mapM f l = Ok out -> In x l -> exists y, In y out /\ f x = Ok y.
Proof.
  revert out. induction l as [| x0 l IH]; simpl; intros out H Hx.
  - destruct Hx.
  - destruct (f x0) as [y0 | e] eqn:Ef; simpl in H; [| discriminate].
    destruct (mapM f l) as [ys | e]; simpl in H; [| discriminate].
    inversion H; subst. destruct Hx as [<- | Hx].
    + exists y0. split; [left; reflexivity | exact Ef].
    + destruct (IH ys eq_refl Hx) as (y & Hin & Hy).
      exists y. split; [right; exact Hin | exact Hy].
Qed.

Lemma mapM_total l :
  (forall x, In x l -> exists y, f x = Ok y) -> exists out, mapM f l = Ok out.
Proof.
  induction l as [| x l IH]; simpl; intros H.
  - eauto.
  - destruct (H x (or_introl eq_refl)) as [y ->].
    destruct IH as [ys ->]; [intros; apply H; right; assumption |].
    simpl. eauto.
Qed.

End MapM.

(** ** Lists: products, keys, first matches *)

Lemma list_prod_map {A B A' B'} (f : A -> A') (g : B -> B') l l' :
  map (fun p => (f (fst p), g (snd p))) (list_prod l l') =
  list_prod (map f l) (map g l').
Proof.
  induction l as [| x l IH]; simpl; [reflexivity |].
  rewrite map_app, IH, !map_map. reflexivity.
Qed.

Lemma NoDup_list_prod {A B} (l : list A) (l' : list B) :
  NoDup l -> NoDup l' -> NoDup (list_prod l l').
Proof.
  intros Hl Hl'. induction Hl as [| x l Hx Hl IH]; simpl; [constructor |].
  apply NoDup_app.
  - clear -Hl'. induction Hl' as [| y l' Hy Hl' IH]; simpl; constructor.
    + rewrite in_map_iff. intros (y' & E & Hin). inversion E; subst. tauto.
    + exact IH.
  - exact IH.
  - intros [a b] Hin Hin'. apply in_map_iff in Hin as (y & E & _).
    inversion E; subst. apply in_prod_iff in Hin'. tauto.
Qed.


Lemma cell_eqb_eq x y : cell_eqb x y = true -> x = y.
Proof.
  destruct x, y; simpl; try discriminate.
  intros H. apply String.eqb_eq in H. congruence.
Qed.

Section FirstMatch.

Context {A : Type} (p : A -> bool).

Lemma iloc0_filter_first pre x post :
  (forall y, In y pre -> p y = false) -> p x = true ->
  iloc0 (filter p (pre ++ x :: post)) = Ok x.
Proof.
  intros Hpre Hx. induction pre as [| y pre IH]; simpl.
  - rewrite Hx. reflexivity.
  - rewrite (Hpre y (or_introl eq_refl)).
    apply IH. intros; apply Hpre; right; assumption.
Qed.



End FirstMatch.

(** ** The matrix is the engine mapped over the Cartesian product *)

Section Matrix.

Variables (users : list User) (trends : list Trend)
          (ingredient_risk : list IngredientRiskEntry).

Let self := RuleEngine_init users trends ingredient_risk.

Lemma trends_loop_mapM (engine : RuleEngine) u ts acc :
  trends_loop engine u ts acc =
  (new <- mapM (pair_row engine) (map (fun t => (u, t)) ts) ;;
   Ok (acc ++ new)).
Proof.
  revert acc. induction ts as [| t ts IH]; intros acc; simpl.
  - rewrite app_nil_r. reflexivity.
  - unfold pair_row at 1. simpl.
    destruct (_assess_risk_efficient engine u t) as [r | e]; simpl;
      [| reflexivity].
    rewrite IH. destruct (mapM _ _); simpl; [| reflexivity].
    rewrite <- app_assoc. reflexivity.
Qed.

Lemma users_loop_mapM (engine : RuleEngine) us acc :
  users_loop engine us acc =
  (new <- mapM (pair_row engine) (list_prod us (trends_df engine)) ;;
   Ok (acc ++ new)).
Proof.
  revert acc. induction us as [| u us IH]; intros acc; simpl.
  - rewrite app_nil_r. reflexivity.
  - rewrite trends_loop_mapM, mapM_app.
    destruct (mapM _ (map _ _)) as [r1 | e]; simpl; [| reflexivity].
    rewrite IH. destruct (mapM _ (list_prod _ _)); simpl; [| reflexivity].
    rewrite app_assoc. reflexivity.
Qed.

Lemma generate_risk_matrix_mapM :
  generate_risk_matrix self = mapM (pair_row self) (list_prod users trends).
Proof.
  unfold generate_risk_matrix. rewrite users_loop_mapM. simpl.
  destruct (mapM _ _); reflexivity.
Qed.

Lemma pair_row_inv p r :
  pair_row self p = Ok r ->
  _assess_risk_efficient self (fst p) (snd p) = Ok (rRiskLevel r, rRiskScore r)
  /\ r = risk_row (fst p) (snd p) (rRiskLevel r) (rRiskScore r).
Proof.
  unfold pair_row.
  destruct (_assess_risk_efficient self (fst p) (snd p)) as [[l s] | e];
    simpl; [| discriminate].
  intros H. inversion H. simpl. split; reflexivity.
Qed.

Lemma matrix_row_origin matrix r :
  generate_risk_matrix self = Ok matrix -> In r matrix ->
  exists u t,
    In u users /\ In t trends /\
    _assess_risk_efficient self u t = Ok (rRiskLevel r, rRiskScore r) /\
    r = risk_row u t (rRiskLevel r) (rRiskScore r).
Proof.
  rewrite generate_risk_matrix_mapM. intros H Hin.
  destruct (mapM_In_out _ _ _ _ H Hin) as ([u t] & Hp & Hr).
  apply in_prod_iff in Hp as [Hu Ht].
  apply pair_row_inv in Hr as [Ha Hr]. exists u, t. tauto.
Qed.

End Matrix.

(** ** The engine on the scenarios of the specification *)

(** Allergy "nuts" against the ingredients "Nuts, Vitamin C". *)
Example scenario_allergy :
  _assess_risk_efficient Sample.engine Sample.alice
    (mkTrend (CStr "Nut Bar") (CStr "General") (CStr "Nuts, Vitamin C"))
  = Ok ("High Risk", 3).
Proof. reflexivity. Qed.

(** Sensitive skin against a skincare trend with "Glycolic Acid". *)
Example scenario_skincare :
  _assess_risk_efficient Sample.engine
    (mkUser (CStr "U010") (NVal (30 # 1)) (NVal (21 # 1)) (CStr "Sensitive")
            (CStr "None") (CStr "Normal"))
    (mkTrend (CStr "Peel") (CStr "Skincare") (CStr "Glycolic Acid"))
  = Ok ("Medium Risk", 2).
Proof. reflexivity. Qed.

(** BMI 32 against a dietary trend with "Detox Tea"; BMI 30 is not above 30. *)
Example scenario_diet :
  _assess_risk_efficient Sample.engine Sample.bob Sample.detox_tea
  = Ok ("Medium Risk", 1) /\
  check_diet_risk Sample.engine (NVal (30 # 1)) (CStr "Dietary")
    (CStr "Detox Tea") = Ok 0.
Proof. split; reflexivity. Qed.

(** The ingredient "Lead" is marked High in the ingredient table. *)
Example scenario_banned :
  _assess_risk_efficient Sample.engine Sample.bob
    (mkTrend (CStr "Glow Paint") (CStr "General") (CStr "Mica, LEAD"))
  = Ok ("High Risk", 3).
Proof. reflexivity. Qed.

(** No rule fires. *)
Example scenario_safe :
  _assess_risk_efficient Sample.engine Sample.alice Sample.water
  = Ok ("Safe", 0).
Proof. reflexivity. Qed.

(** An empty ingredient table never bans anything. *)
Example empty_ingredient_table users trends i :
  check_ingredient_risk_level (RuleEngine_init users trends []) i = Ok 0.
Proof.
  unfold check_ingredient_risk_level, high_risk_ingredients.
  cbn [ingredient_risk_df RuleEngine_init filter map].
  induction (tokens i) as [| tok toks IH]; [reflexivity |].
  cbn [existsb orb]. exact IH.
Qed.

(** ** The claims about the rule engine *)

(** C1. Whatever level and score the engine returns, for a single pair or in
    a row of the matrix, the level is the threshold function of the score:
    "Safe" exactly at 0, "Medium Risk" exactly at 1 and 2, "High Risk"
    exactly from 3 on. *)
Theorem risk_level_is_threshold_of_score
    (users : list User) (trends : list Trend)
    (ingredient_risk : list IngredientRiskEntry) (level : string) (score : Z) :
  assessed (RuleEngine_init users trends ingredient_risk) level score ->
  threshold_consistent level score.
Proof.
  intros [uid tn H | matrix r Hm Hin <- <-].
  - unfold assess_risk in H.
    destruct (iloc0 (filter _ (users_df _))) as [u | e]; [| discriminate].
    destruct (iloc0 (filter _ (trends_df _))) as [t | e]; [| discriminate].
    simpl in H. eapply assess_risk_efficient_threshold, H.
  - destruct (matrix_row_origin _ _ _ _ _ Hm Hin) as (u & t & _ & _ & H & _).
    eapply assess_risk_efficient_threshold, H.
Qed.

Lemma risk_level_is_threshold_of_score_witness :
  threshold_consistent "High Risk" 3 /\ threshold_consistent "Safe" 0.
Proof.
  split.
  - apply (risk_level_is_threshold_of_score
             [Sample.alice; Sample.bob]
             [Sample.nut_peel; Sample.detox_tea; Sample.water]
             Sample.ingredient_risk).
    apply assessed_pair with (CStr "U001") (CStr "Nut Acid Peel").
    reflexivity.
  - apply (risk_level_is_threshold_of_score
             [Sample.alice; Sample.bob]
             [Sample.nut_peel; Sample.detox_tea; Sample.water]
             Sample.ingredient_risk).
    apply assessed_row with Sample.matrix (nth 2 Sample.matrix
      (risk_row Sample.alice Sample.water "" 0)).
    + reflexivity.
    + simpl. tauto.
    + reflexivity.
    + reflexivity.
Defined.

(** C2. The score of a pair is the maximum of the four rule outputs, not
    their sum: when the allergy rule (3) and the skincare rule (2) both fire,
    the score is 3 and not 5. *)
Theorem risk_score_is_max_of_rules
    (users : list User) (trends : list Trend)
    (ingredient_risk : list IngredientRiskEntry)
    (u : User) (t : Trend) (level : string) (score : Z) :
  let self := RuleEngine_init users trends ingredient_risk in
  _assess_risk_efficient self u t = Ok (level, score) ->
  exists a s d b,
    check_allergy_risk self (Allergies u) (KeyIngredients t) = Ok a /\
    check_skincare_risk self (SkinType u) (Type_ t) (KeyIngredients t) = Ok s /\
    check_diet_risk self (BMI u) (Type_ t) (KeyIngredients t) = Ok d /\
    check_ingredient_risk_level self (KeyIngredients t) = Ok b /\
    score = Z.max (Z.max (Z.max a s) d) b /\
    (a = 3 -> s = 2 -> score = 3 /\ score <> a + s).
Proof.
  intros self H.
  pose proof (assess_risk_efficient_range _ _ _ _ _ _ _ H) as R.
  destruct (assess_risk_efficient_inv _ _ _ _ _ _ _ H)
    as (a & s & d & b & Ha & Hs & Hd & Hb & E & _).
  exists a, s, d, b. repeat split; try assumption; lia.
Qed.

Lemma risk_score_is_max_of_rules_witness :
  exists a s d b,
    check_allergy_risk Sample.engine (CStr "nuts") (CStr "Nuts, Glycolic Acid")
      = Ok a /\
    check_skincare_risk Sample.engine (CStr "Sensitive") (CStr "Skincare")
      (CStr "Nuts, Glycolic Acid") = Ok s /\
    check_diet_risk Sample.engine (NVal (22 # 1)) (CStr "Skincare")
      (CStr "Nuts, Glycolic Acid") = Ok d /\
    check_ingredient_risk_level Sample.engine (CStr "Nuts, Glycolic Acid")
      = Ok b /\
    3 = Z.max (Z.max (Z.max a s) d) b /\
    (a = 3 -> s = 2 -> 3 = 3 /\ 3 <> a + s).
Proof.
  apply (risk_score_is_max_of_rules
           [Sample.alice; Sample.bob]
           [Sample.nut_peel; Sample.detox_tea; Sample.water]
           Sample.ingredient_risk Sample.alice Sample.nut_peel "High Risk" 3).
  reflexivity.
Defined.

(** C3 (evaluation). One user and one trend make one ordered pair, and yet
    no matrix of one row is returned: the ingredient entry of the trend is
    missing, the skincare check calls [lower] on it for the sensitive user,
    and the exception leaves [generate_risk_matrix] before it builds the
    table.  The [.str] accessor of the banned-ingredient check does the same
    on an ingredient table in which no name was recorded. *)
Lemma one_pair_matrix_is_not_returned :
  list_prod [Sample.alice] [Sample.mystery_serum]
    = [(Sample.alice, Sample.mystery_serum)] /\
  generate_risk_matrix
    (RuleEngine_init [Sample.alice] [Sample.mystery_serum]
                     Sample.ingredient_risk)
    = Raise AttributeError /\
  generate_risk_matrix
    (RuleEngine_init [Sample.alice] [Sample.water]
                     [mkEntry CNaN (CStr "High")])
    = Raise AttributeError.
Proof. repeat split. Qed.

(** X25. A matrix that is returned is the engine run over the Cartesian
    product of the two tables, users outside and trends inside, both in table
    order: one row per ordered pair, hence [|Users| * |Trends|] rows, and no
    key pair twice when the keys of each table are unique.  The matrix is
    returned whenever every trend has an ingredient text and the ingredient
    table is empty or records a name. *)
Theorem matrix_rows_are_the_product
    (users : list User) (trends : list Trend)
    (ingredient_risk : list IngredientRiskEntry) :
  let self := RuleEngine_init users trends ingredient_risk in
  generate_risk_matrix self = mapM (pair_row self) (list_prod users trends) /\
  (forall matrix,
      generate_risk_matrix self = Ok matrix ->
      length matrix = (length users * length trends)%nat /\
      map row_key matrix = list_prod (map UserID users) (map TrendName trends) /\
      (NoDup (map UserID users) -> NoDup (map TrendName trends) ->
       NoDup (map row_key matrix))) /\
  (Forall (fun t => is_text (KeyIngredients t)) trends ->
   ingredient_column_is_text ingredient_risk = true ->
   exists matrix, generate_risk_matrix self = Ok matrix).
Proof.
  intros self. split; [apply generate_risk_matrix_mapM |]. split.
  - intros matrix H. unfold self in H. rewrite generate_risk_matrix_mapM in H.
    assert (K : map row_key matrix =
                list_prod (map UserID users) (map TrendName trends)).
    { rewrite <- list_prod_map. eapply mapM_map; [| exact H].
      intros p r Hr. apply pair_row_inv in Hr as [_ ->]. reflexivity. }
    split; [| split].
    + rewrite (mapM_length _ _ _ H). apply length_prod.
    + exact K.
    + intros Hu Ht. rewrite K. apply NoDup_list_prod; assumption.
  - intros Htext Hcol. unfold self. rewrite generate_risk_matrix_mapM.
    apply mapM_total. intros [u t] Hp.
    apply in_prod_iff in Hp as [_ Ht].
    rewrite Forall_forall in Htext.
    destruct (assess_risk_efficient_total users trends ingredient_risk u t
                (Htext t Ht) Hcol) as (l & s & E).
    unfold pair_row. cbn [fst snd]. rewrite E. simpl. eauto.
Qed.

Lemma matrix_rows_are_the_product_witness :
  generate_risk_matrix Sample.engine = Ok Sample.matrix /\
  length Sample.matrix = 6%nat /\
  map row_key Sample.matrix =
    list_prod [CStr "U001"; CStr "U002"]
              [CStr "Nut Acid Peel"; CStr "Detox Tea"; CStr "Water"] /\
  NoDup (map row_key Sample.matrix).
Proof.
  pose proof (matrix_rows_are_the_product
                [Sample.alice; Sample.bob]
                [Sample.nut_peel; Sample.detox_tea; Sample.water]
                Sample.ingredient_risk) as (_ & H & _).
  assert (E : generate_risk_matrix Sample.engine = Ok Sample.matrix)
    by reflexivity.
  destruct (H Sample.matrix E) as (Hlen & Hkeys & Hnodup).
  split; [exact E |]. split; [exact Hlen |]. split; [exact Hkeys |].
  apply Hnodup; repeat constructor; simpl; intuition discriminate.
Defined.

(** The single-pair entry point assesses the first row under each key. *)
Lemma assess_risk_first_rows us1 u us2 ts1 t ts2 ingredient_risk uid tn :
  (forall u', In u' us1 -> cell_eqb (UserID u') uid = false) ->
  cell_eqb (UserID u) uid = true ->
  (forall t', In t' ts1 -> cell_eqb (TrendName t') tn = false) ->
  cell_eqb (TrendName t) tn = true ->
  let self := RuleEngine_init (us1 ++ u :: us2) (ts1 ++ t :: ts2) ingredient_risk in
  assess_risk self uid tn = _assess_risk_efficient self u t.
Proof.
  intros Hus Hu Hts Ht self. unfold assess_risk, self.
  cbn [users_df trends_df RuleEngine_init].
  rewrite (iloc0_filter_first (fun x => cell_eqb (UserID x) uid)) by assumption.
  rewrite (iloc0_filter_first (fun x => cell_eqb (TrendName x) tn)) by assumption.
  reflexivity.
Qed.

(** An assessment reads the rule weights and the ingredient table only. *)
Lemma assess_risk_efficient_tables us ts us' ts' ingredient_risk u t :
  _assess_risk_efficient (RuleEngine_init us ts ingredient_risk) u t =
  _assess_risk_efficient (RuleEngine_init us' ts' ingredient_risk) u t.
Proof. reflexivity. Qed.



(** C5 (evaluation). A missing ingredient entry is not an empty token set
    for the engine: the skincare and the diet check call [lower] on the float
    NaN and raise, which aborts the whole matrix; the two tokenising checks
    read NaN as the token [nan], so two missing texts match each other. *)
Lemma missing_ingredients_abort_matrix :
  check_skincare_risk Sample.engine (CStr "Sensitive") (CStr "Skincare") CNaN
    = Raise AttributeError /\
  check_diet_risk Sample.engine (NVal (32 # 1)) (CStr "Dietary") CNaN
    = Raise AttributeError /\
  generate_risk_matrix
    (RuleEngine_init [Sample.bob; Sample.alice]
                     [Sample.water; Sample.mystery_serum]
                     Sample.ingredient_risk)
    = Raise AttributeError /\
  tokens CNaN = ["nan"] /\
  check_allergy_risk Sample.engine CNaN CNaN = Ok 3.
Proof. repeat split. Qed.

(** C10 (evaluation). With two rows under the key "U001" the lookup fails:
    the first of them is the sensitive user's, the trend has no ingredient
    entry, and the skincare check calls [lower] on the missing text.  With
    the two rows in the other order the same lookup returns, from the row
    that now comes first. *)
Lemma duplicate_key_lookup_raises :
  assess_risk
    (RuleEngine_init [Sample.alice; Sample.alice_again]
                     [Sample.mystery_serum] Sample.ingredient_risk)
    (CStr "U001") (CStr "Mystery Serum")
  = Raise AttributeError /\
  assess_risk
    (RuleEngine_init [Sample.alice_again; Sample.alice]
                     [Sample.mystery_serum] Sample.ingredient_risk)
    (CStr "U001") (CStr "Mystery Serum")
  = Ok ("Safe", 0).
Proof. split; reflexivity. Qed.

(** X26. With several rows under one key, the single-pair lookup takes the
    first row of each table that matches and nothing after it: its outcome,
    an exception included, is the assessment of those two rows, the same as
    if the tables ended there; it never raises IndexError, and it returns a
    level and a score whenever the chosen trend has an ingredient text and
    the ingredient table is empty or records a name. *)
Theorem lookup_ignores_later_duplicates
    (us1 : list User) (u : User) (us2 : list User)
    (ts1 : list Trend) (t : Trend) (ts2 : list Trend)
    (ingredient_risk : list IngredientRiskEntry) (uid tn : cell) :
  (forall u', In u' us1 -> cell_eqb (UserID u') uid = false) ->
  cell_eqb (UserID u) uid = true ->
  (forall t', In t' ts1 -> cell_eqb (TrendName t') tn = false) ->
  cell_eqb (TrendName t) tn = true ->
  let self := RuleEngine_init (us1 ++ u :: us2) (ts1 ++ t :: ts2) ingredient_risk in
  assess_risk self uid tn = _assess_risk_efficient self u t /\
  assess_risk self uid tn =
    assess_risk (RuleEngine_init (us1 ++ [u]) (ts1 ++ [t]) ingredient_risk) uid tn /\
  assess_risk self uid tn <> Raise IndexError /\
  (is_text (KeyIngredients t) ->
   ingredient_column_is_text ingredient_risk = true ->
   exists level score, assess_risk self uid tn = Ok (level, score)).
Proof.
  intros Hus Hu Hts Ht self.
  assert (E : assess_risk self uid tn = _assess_risk_efficient self u t)
    by (apply assess_risk_first_rows; assumption).
  split; [exact E |]. split; [| split].
  - rewrite E.
    rewrite (assess_risk_first_rows us1 u [] ts1 t []) by assumption.
    apply assess_risk_efficient_tables.
  - rewrite E. intros H.
    apply assess_risk_efficient_raise in H. discriminate.
  - intros Htext Hcol. rewrite E.
    apply assess_risk_efficient_total; assumption.
Qed.

Lemma lookup_ignores_later_duplicates_witness :
  assess_risk
    (RuleEngine_init [Sample.bob; Sample.alice; Sample.alice_again]
                     [Sample.water; Sample.nut_peel] Sample.ingredient_risk)
    (CStr "U001") (CStr "Nut Acid Peel")
  = assess_risk
      (RuleEngine_init [Sample.bob; Sample.alice]
                       [Sample.water; Sample.nut_peel] Sample.ingredient_risk)
      (CStr "U001") (CStr "Nut Acid Peel").
Proof.
  apply (lookup_ignores_later_duplicates
           [Sample.bob] Sample.alice [Sample.alice_again]
           [Sample.water] Sample.nut_peel [] Sample.ingredient_risk
           (CStr "U001") (CStr "Nut Acid Peel")).
  - intros u' [<- | []]. reflexivity.
  - reflexivity.
  - intros t' [<- | []]. reflexivity.
  - reflexivity.
Defined.

(** ** The model trainer: prediction and the unsupported kinds *)

Section TrainerFacts.

Context {sk : Sklearn}.

(** Preparing the data assigns the encoder and the cleaned matrix only. *)
Lemma prepare_training_data_model (self : MLModel) :
  model (snd (prepare_training_data self)) = model self /\
  X_train (snd (prepare_training_data self)) = X_train self /\
  rule_engine (snd (prepare_training_data self)) = rule_engine self.
Proof.
  unfold prepare_training_data, bindM, lift, read, assign, ret.
  destruct (generate_risk_matrix (rule_engine self)); [| auto].
  destruct (select_columns _ _); [| auto].
  destruct (_preprocess_features _); [| auto].
  destruct (loc _ _); [| auto].
  cbn [fit_transform].
  destruct (loc _ _); cbn; auto.
Qed.

Lemma train_model_unsupported model_type (self : MLModel) :
  model_type <> "random_forest" ->
  train_model model_type self =
  match prepare_training_data self with
  | (Raise e, self') => (Raise e, self')
  | (Ok (X_processed, y_encoded, _), self') =>
      match train_test_split X_processed y_encoded (2 # 10) 42 with
      | Raise e => (Raise e, self')
      | Ok parts =>
          (Raise (ValueError "Unsupported model type."),
           set_partitions parts self')
      end
  end.
Proof.
  intros Hkind. apply String.eqb_neq in Hkind.
  unfold train_model, bindM at 1.
  destruct (prepare_training_data self) as [[[[X y] c] | e] self'];
    [| reflexivity].
  unfold bindM, lift, assign, raise.
  destruct (train_test_split X y (2 # 10) 42) as [[[[Xtr Xte] ytr] yte] | e];
    [| reflexivity].
  rewrite Hkind. reflexivity.
Qed.

End TrainerFacts.

(** C6 (evaluation). Before training the prediction entry point raises
    "Model not trained yet."; once a model is set, it predicts on the fixed
    array [1, 0, 1] and so returns the same thing for any two pairs of
    feature vectors. *)
Lemma predict_risk_ignores_its_arguments :
  forall (sk : Sklearn) (self : MLModel) (m : classifier) (U T : Type)
         (user_features user_features' : U) (trend_features trend_features' : T),
    predict_risk (MLModel_init (rule_engine self)) user_features trend_features
    = Raise (Exception "Model not trained yet.") /\
    predict_risk self user_features trend_features
    = predict_risk self user_features' trend_features' /\
    predict_risk (set_model m self) user_features trend_features
    = predict m (Array1 [1; 0; 1]).
Proof. intros. repeat split. Qed.

(** C7. For a kind other than "random_forest", training never returns and
    never sets a classifier; it prepares the data and splits it first, and
    raises the unsupported-kind ValueError after the partitions are stored,
    unless the preparation or the split raised before. *)
Theorem unsupported_kind_fails_after_split
    (sk : Sklearn) (model_type : string) (self : MLModel) :
  model_type <> "random_forest" ->
  train_model model_type self =
    match prepare_training_data self with
    | (Raise e, self') => (Raise e, self')
    | (Ok (X_processed, y_encoded, _), self') =>
        match train_test_split X_processed y_encoded (2 # 10) 42 with
        | Raise e => (Raise e, self')
        | Ok parts =>
            (Raise (ValueError "Unsupported model type."),
             set_partitions parts self')
        end
    end /\
  (forall out, fst (train_model model_type self) <> Ok out) /\
  model (snd (train_model model_type self)) = model self.
Proof.
  intros Hkind.
  pose proof (train_model_unsupported model_type self Hkind) as E.
  pose proof (prepare_training_data_model self) as (Hm & _).
  split; [exact E |]. rewrite E.
  destruct (prepare_training_data self) as [[[[X y] c] | e] self'];
    cbn [snd] in Hm.
  - destruct (train_test_split X y (2 # 10) 42) as [[[[Xtr Xte] ytr] yte] | e];
      cbn; split; try exact Hm; intros out; discriminate.
  - cbn. split; [intros out; discriminate | exact Hm].
Qed.

Lemma unsupported_kind_fails_after_split_witness :
  fst (train_model "svm" SampleTrainer.trainer)
    = Raise (ValueError "Unsupported model type.") /\
  model (snd (train_model "svm" SampleTrainer.trainer)) = None.
Proof.
  assert (K : "svm" <> "random_forest") by discriminate.
  destruct (unsupported_kind_fails_after_split
              plain_sklearn "svm" SampleTrainer.trainer K) as (E & _ & Hm).
  split.
  - rewrite E. reflexivity.
  - exact Hm.
Defined.

(** C7, as stated, fails: with the unsupported kind "svm" the trainer has
    already prepared the data and stored the partitions when it raises, and
    on an empty matrix the error is the KeyError of the preparation. *)
Lemma unsupported_kind_fails_late :
  ~ fails_before_any_computation "svm" SampleTrainer.trainer /\
  X_train (snd (train_model "svm" SampleTrainer.trainer)) <> None /\
  fst (train_model "svm" SampleTrainer.empty_trainer) = Raise KeyError.
Proof.
  split; [| split].
  - unfold fails_before_any_computation. intros H.
    apply (f_equal (fun p => X_train (snd p))) in H.
    vm_compute in H. discriminate.
  - vm_compute. discriminate.
  - reflexivity.
Qed.

(** ** Frames over a RangeIndex *)

Section RangeIndex.

Context {A : Type}.

Lemma map_range_index {B} (h : A -> B) i (l : list A) :
  map (fun r => (fst r, h (snd r))) (range_index i l)
  = range_index i (map h l).
Proof.
  revert i. induction l as [| x l IH]; intros i; simpl; [reflexivity |].
  rewrite IH. reflexivity.
Qed.

Lemma map_snd_range_index i (l : list A) : map snd (range_index i l) = l.
Proof.
  revert i. induction l as [| x l IH]; intros i; simpl; [reflexivity |].
  rewrite IH. reflexivity.
Qed.

Lemma combine_range_index {B C D} (g : A -> B) (h : A -> C) (F : B -> C -> D)
    i (l : list A) :
  map (fun rv => (fst (fst rv), F (snd (fst rv)) (snd rv)))
      (combine (range_index i (map g l)) (map h l))
  = range_index i (map (fun x => F (g x) (h x)) l).
Proof.
  revert i. induction l as [| x l IH]; intros i; simpl; [reflexivity |].
  rewrite IH. reflexivity.
Qed.

Lemma filter_range_index {B} (h : A -> B) (P : B -> bool) i (l : list A) :
  filter (fun r => P (snd r)) (range_index i (map h l))
  = map (fun r => (fst r, h (snd r)))
        (filter (fun r => P (h (snd r))) (range_index i l)).
Proof.
  revert i. induction l as [| x l IH]; intros i; simpl; [reflexivity |].
  rewrite IH. destruct (P (h x)); reflexivity.
Qed.

Lemma range_index_lower i (l : list A) k x :
  In (k, x) (range_index i l) -> (i <= k)%nat.
Proof.
  revert i. induction l as [| y l IH]; intros i; simpl; [tauto |].
  intros [E | H]; [inversion E; lia | apply IH in H; lia].
Qed.

Lemma range_index_NoDup i (l : list A) : NoDup (map fst (range_index i l)).
Proof.
  revert i. induction l as [| y l IH]; intros i; simpl; constructor.
  - rewrite in_map_iff. intros ([k x] & E & H). simpl in E. subst k.
    apply range_index_lower in H. lia.
  - apply IH.
Qed.

Lemma lookup_label_In (s : list (nat * A)) k x :
  NoDup (map fst s) -> In (k, x) s -> lookup_label s k = Ok x.
Proof.
  induction s as [| [k0 x0] s IH]; simpl; intros Hnd Hin; [destruct Hin |].
  inversion Hnd as [| ? ? Hnotin Hnd']; subst.
  destruct Hin as [E | Hin].
  - inversion E; subst. rewrite Nat.eqb_refl. reflexivity.
  - destruct (Nat.eqb k0 k) eqn:Ek.
    + apply Nat.eqb_eq in Ek. subst k0. exfalso. apply Hnotin.
      apply in_map_iff. exists (k, x). split; [reflexivity | exact Hin].
    + apply IH; assumption.
Qed.

(** Selecting the labels of some rows of a frame returns those rows. *)
Lemma loc_rows (s s' : list (nat * A)) :
  NoDup (map fst s) -> incl s' s -> loc s (map fst s') = Ok s'.
Proof.
  intros Hnd. induction s' as [| [k x] s' IH]; simpl; intros Hincl;
    [reflexivity |].
  rewrite (lookup_label_In s k x Hnd) by (apply Hincl; left; reflexivity).
  simpl. rewrite IH by (intros y Hy; apply Hincl; right; exact Hy).
  reflexivity.
Qed.

End RangeIndex.

(** ** Column operations on a frame given row by row *)

Section Columns.

Context {A : Type} (cols : list string) (g : A -> list value)
        (l : list A) (i : nat).

Local Abbreviation df := (mkDF cols (range_index i (map g l))).
Local Abbreviation levels_at p :=
  (sorted_unique (text_of (map (fun x => nth p (g x) (VCell CNaN)) l))).

Lemma get_column_closed c p :
  col_pos c cols = Some p ->
  get_column df c
  = Ok (range_index i (map (fun x => nth p (g x) (VCell CNaN)) l)).
Proof.
  intros H. unfold get_column. cbn [columns rows]. rewrite H.
  rewrite (map_range_index (fun v => nth p v (VCell CNaN))), map_map.
  reflexivity.
Qed.

Lemma drop_column_closed c p :
  col_pos c cols = Some p ->
  drop_column df c
  = Ok (mkDF (remove_nth p cols)
             (range_index i (map (fun x => remove_nth p (g x)) l))).
Proof.
  intros H. unfold drop_column. cbn [columns rows]. rewrite H.
  rewrite (map_range_index (remove_nth p)), map_map. reflexivity.
Qed.

Lemma encode_column_closed c p :
  col_pos c cols = Some p ->
  encode_column df c
  = Ok (mkDF (remove_nth p cols ++ dummy_names c (levels_at p))
             (range_index i
                (map (fun x => remove_nth p (g x)
                               ++ indicators (levels_at p)
                                             (nth p (g x) (VCell CNaN)))
                     l))).
Proof.
  intros H. unfold encode_column.
  rewrite (get_column_closed c p H), (drop_column_closed c p H).
  cbn [bind columns rows]. rewrite map_snd_range_index.
  f_equal. f_equal.
  apply (combine_range_index (fun x => remove_nth p (g x))
           (fun x => nth p (g x) (VCell CNaN))
           (fun row v => row ++ indicators (levels_at p) v)).
Qed.

Lemma set_column_closed c (h : A -> value) :
  col_pos c cols = None ->
  set_column df c (range_index i (map h l))
  = mkDF (cols ++ [c]) (range_index i (map (fun x => g x ++ [h x]) l)).
Proof.
  intros H. unfold set_column. cbn [columns rows]. rewrite H.
  rewrite map_snd_range_index. f_equal.
  apply (combine_range_index g h (fun row v => row ++ [v])).
Qed.

End Columns.

(** ** Feature derivation in closed form *)

Lemma col_pos_app_none c l1 l2 :
  col_pos c l1 = None -> col_pos c l2 = None -> col_pos c (l1 ++ l2) = None.
Proof.
  induction l1 as [| h l1 IH]; simpl; intros H1 H2; [exact H2 |].
  destruct (String.eqb h c); [discriminate |].
  destruct (col_pos c l1); [discriminate |].
  rewrite (IH eq_refl H2). reflexivity.
Qed.

Lemma col_pos_dummy_names c prefix levels :
  (forall l, String.eqb (prefix ++ "_" ++ l)%string c = false) ->
  col_pos c (dummy_names prefix levels) = None.
Proof.
  intros H. unfold dummy_names.
  induction levels as [| l levels IH]; cbn [map col_pos]; [reflexivity |].
  rewrite H, IH. reflexivity.
Qed.

Lemma preprocess_features_closed (risk_df : list RiskRow) :
  let skin := levels_of rSkinType risk_df in
  let trend := levels_of rTrendType risk_df in
  _preprocess_features (feature_frame risk_df)
  = Ok (mkDF (processed_columns skin trend)
             (range_index 0 (map (processed_values skin trend) risk_df))).
Proof.
  intros skin trend.
  unfold _preprocess_features, feature_frame, get_dummies.
  rewrite (encode_column_closed feature_columns feature_values risk_df 0
             "SkinType" 2 eq_refl).
  cbn [bind].
  erewrite (encode_column_closed _ _ risk_df 0 "TrendType" 3) by reflexivity.
  cbn [bind].
  erewrite (get_column_closed _ _ risk_df 0 "Allergies" 2) by reflexivity.
  cbn [bind].
  rewrite (map_range_index has_allergies), map_map.
  erewrite set_column_closed.
  - erewrite (drop_column_closed _ _ risk_df 0 "Allergies" 2) by reflexivity.
    reflexivity.
  - change (col_pos "HasAllergies"
              (["Age"; "BMI"; "Allergies"]
               ++ (dummy_names "SkinType" skin ++ dummy_names "TrendType" trend))
            = None).
    apply col_pos_app_none; [reflexivity |].
    apply col_pos_app_none; apply col_pos_dummy_names; reflexivity.
Qed.

Lemma select_features_closed (risk_df : list RiskRow) :
  risk_df <> [] ->
  select_columns (risk_frame risk_df)
                 ["Age"; "BMI"; "SkinType"; "Allergies"; "TrendType"]
  = Ok (feature_frame risk_df).
Proof.
  intros Hne. unfold risk_frame.
  destruct risk_df as [| r0 rest]; [congruence |].
  set (l := r0 :: rest). unfold select_columns, feature_frame.
  cbn [columns rows]. change (positions risk_columns _) with (Ok [1; 2; 3; 4; 7]%nat).
  cbn [bind]. f_equal. f_equal.
  rewrite (map_range_index
             (fun v => map (fun p => nth p v (VCell CNaN)) [1; 2; 3; 4; 7]%nat)).
  rewrite map_map. reflexivity.
Qed.

Lemma existsb_is_na_indicators levels v :
  existsb is_na (indicators levels v) = false.
Proof.
  unfold indicators. induction levels as [| l levels IH]; simpl; auto.
Qed.

Lemma has_allergies_not_na v : is_na (has_allergies v) = false.
Proof.
  destruct v as [c | [q |] | b | z]; unfold has_allergies; try reflexivity.
  destruct (PyStr.mem (PyStr.lower (py_str c)) _); reflexivity.
Qed.

(** In the processed table only Age and BMI can be missing. *)
Lemma existsb_is_na_processed skin trend r :
  existsb is_na (processed_values skin trend r) = incomplete r.
Proof.
  unfold processed_values, incomplete. cbn [existsb].
  rewrite !existsb_app, !existsb_is_na_indicators. cbn [existsb].
  rewrite has_allergies_not_na.
  destruct (rAge r), (rBMI r); reflexivity.
Qed.

Lemma dropna_closed skin trend (risk_df : list RiskRow) :
  dropna (mkDF (processed_columns skin trend)
               (range_index 0 (map (processed_values skin trend) risk_df)))
  = mkDF (processed_columns skin trend)
         (map (fun ir => (fst ir, processed_values skin trend (snd ir)))
              (filter (fun ir => negb (incomplete (snd ir)))
                      (range_index 0 risk_df))).
Proof.
  unfold dropna. cbn [columns rows]. f_equal.
  rewrite (filter_range_index (processed_values skin trend)
             (fun v => negb (existsb is_na v))).
  f_equal. apply filter_ext. intros [i r]. cbn [snd].
  rewrite existsb_is_na_processed. reflexivity.
Qed.

(** ** The label encoder *)

Lemma insert_level_In s x l : In s (insert_level x l) <-> s = x \/ In s l.
Proof.
  induction l as [| h l IH]; simpl; [intuition congruence |].
  destruct (String.compare x h) eqn:E; simpl.
  - apply String.compare_eq_iff in E. subst h. intuition congruence.
  - intuition congruence.
  - rewrite IH. intuition congruence.
Qed.

Lemma sorted_unique_In s l : In s (sorted_unique l) <-> In s l.
Proof.
  unfold sorted_unique. induction l as [| x l IH]; simpl; [tauto |].
  rewrite insert_level_In, IH. intuition congruence.
Qed.

Lemma inverse_label_index_of classes s :
  In s classes -> inverse_label classes (index_of s classes) = s.
Proof.
  unfold inverse_label.
  induction classes as [| h classes IH]; simpl; [tauto |].
  destruct (String.eqb h s) eqn:E.
  - intros _. apply String.eqb_eq, E.
  - intros [-> | H]; [rewrite String.eqb_refl in E; discriminate | auto].
Qed.

(** Decoding the codes of [fit_transform] gives the labels back. *)
Lemma fit_transform_decodes (y : list string) :
  map (inverse_label (fst (fit_transform y))) (snd (fit_transform y)) = y.
Proof.
  unfold fit_transform. cbn [fst snd]. rewrite map_map.
  transitivity (map (fun s : string => s) y); [| apply map_id].
  apply map_ext_in.
  intros s Hs. apply inverse_label_index_of, sorted_unique_In, Hs.
Qed.

(** ** The claims about the model trainer *)

Lemma range_index_label_unique {A} i (l : list A) k x y :
  In (k, x) (range_index i l) -> In (k, y) (range_index i l) -> x = y.
Proof.
  intros Hx Hy.
  pose proof (lookup_label_In _ k x (range_index_NoDup i l) Hx) as Ex.
  pose proof (lookup_label_In _ k y (range_index_NoDup i l) Hy) as Ey.
  congruence.
Qed.

(** C9. Training-data preparation drops exactly the rows whose Age or BMI is
    missing (the indicator columns and HasAllergies are never missing, so a
    missing SkinType, TrendType or Allergies entry does not drop a row), and
    it selects the labels by the index of the rows that remain: the feature
    table, the label vector and the cleaned matrix have the same rows in the
    same order, and decoding the k-th label gives the level of the k-th
    row. *)
Theorem prepared_features_and_labels_aligned
    (sk : Sklearn) (self : MLModel) (risk_df : list RiskRow) :
  generate_risk_matrix (rule_engine self) = Ok risk_df ->
  risk_df <> [] ->
  let skin := levels_of rSkinType risk_df in
  let trend := levels_of rTrendType risk_df in
  let kept :=
    filter (fun ir => negb (incomplete (snd ir))) (range_index 0 risk_df) in
  exists X_processed y_encoded classes self',
    prepare_training_data self = (Ok (X_processed, y_encoded, kept), self') /\
    label_encoder self' = Some classes /\
    rows X_processed
      = map (fun ir => (fst ir, processed_values skin trend (snd ir))) kept /\
    length y_encoded = length (rows X_processed) /\
    map (inverse_label classes) y_encoded
      = map (fun ir => rRiskLevel (snd ir)) kept /\
    Forall (fun row => existsb is_na (snd row) = false) (rows X_processed) /\
    (forall i r, In (i, r) (range_index 0 risk_df) ->
                 (In i (map fst (rows X_processed)) <-> incomplete r = false)).
Proof.
  intros Hgen Hne skin trend kept.
  set (labels := map (fun ir : nat * RiskRow => rRiskLevel (snd ir)) kept).
  assert (Hy : loc (range_index 0 (map rRiskLevel risk_df)) (map fst kept)
               = Ok (map (fun ir => (fst ir, rRiskLevel (snd ir))) kept)).
  { rewrite <- (loc_rows (range_index 0 (map rRiskLevel risk_df))
                         (map (fun ir => (fst ir, rRiskLevel (snd ir))) kept)).
    - rewrite map_map. reflexivity.
    - apply range_index_NoDup.
    - intros p Hp. apply in_map_iff in Hp as ([i r] & <- & Hin).
      apply filter_In in Hin as [Hin _].
      rewrite <- (map_range_index rRiskLevel).
      apply in_map_iff. exists (i, r). split; [reflexivity | exact Hin]. }
  assert (Hc : loc (range_index 0 risk_df) (map fst kept) = Ok kept).
  { apply loc_rows; [apply range_index_NoDup |].
    intros p Hp. apply filter_In in Hp. tauto. }
  exists (mkDF (processed_columns skin trend)
               (map (fun ir => (fst ir, processed_values skin trend (snd ir)))
                    kept)),
         (snd (fit_transform labels)), (fst (fit_transform labels)),
         (set_risk_df_cleaned kept
            (set_label_encoder (fst (fit_transform labels)) self)).
  split; [| split; [| split; [| split; [| split; [| split]]]]].
  - unfold prepare_training_data, bindM, lift, read, assign, ret.
    rewrite Hgen, (select_features_closed risk_df Hne).
    rewrite preprocess_features_closed.
    fold skin trend. rewrite dropna_closed. fold kept.
    cbn [rows]. rewrite map_map. cbn [fst].
    change (map (fun x : nat * RiskRow => fst x) kept) with (map fst kept).
    rewrite Hy. rewrite map_map. cbn [snd]. fold labels.
    unfold fit_transform. cbn [fst snd]. rewrite Hc. reflexivity.
  - reflexivity.
  - reflexivity.
  - unfold fit_transform, labels. cbn [snd rows]. rewrite !length_map.
    reflexivity.
  - apply fit_transform_decodes.
  - cbn [rows]. apply Forall_forall. intros row Hrow.
    apply in_map_iff in Hrow as ([i r] & <- & Hin). cbn [snd fst].
    rewrite existsb_is_na_processed.
    apply filter_In in Hin as [_ Hin]. cbn [snd] in Hin.
    destruct (incomplete r); [discriminate | reflexivity].
  - intros i r Hin. cbn [rows]. rewrite map_map. cbn [fst]. split.
    + intros Hi. apply in_map_iff in Hi as ([i' r'] & E & Hk).
      cbn [fst] in E. subst i'.
      apply filter_In in Hk as [Hk Hcomplete]. cbn [snd] in Hcomplete.
      rewrite (range_index_label_unique 0 risk_df i r r' Hin Hk).
      destruct (incomplete r'); [discriminate | reflexivity].
    + intros Hcomplete. apply in_map_iff. exists (i, r). split; [reflexivity |].
      apply filter_In. split; [exact Hin |]. cbn [snd]. rewrite Hcomplete.
      reflexivity.
Qed.

Lemma prepared_features_and_labels_aligned_witness :
  let risk_df := SampleTrainer.matrix in
  let skin := levels_of rSkinType risk_df in
  let trend := levels_of rTrendType risk_df in
  let kept :=
    filter (fun ir => negb (incomplete (snd ir))) (range_index 0 risk_df) in
  exists X_processed y_encoded classes self',
    prepare_training_data SampleTrainer.trainer
      = (Ok (X_processed, y_encoded, kept), self') /\
    label_encoder self' = Some classes /\
    rows X_processed
      = map (fun ir => (fst ir, processed_values skin trend (snd ir))) kept /\
    length y_encoded = length (rows X_processed) /\
    map (inverse_label classes) y_encoded
      = map (fun ir => rRiskLevel (snd ir)) kept /\
    Forall (fun row => existsb is_na (snd row) = false) (rows X_processed) /\
    (forall i r, In (i, r) (range_index 0 risk_df) ->
                 (In i (map fst (rows X_processed)) <-> incomplete r = false)).
Proof.
  apply (prepared_features_and_labels_aligned
           plain_sklearn SampleTrainer.trainer SampleTrainer.matrix).
  - reflexivity.
  - discriminate.
Defined.

(** C9, as stated, fails: Carol's rows have no SkinType, yet both stay in the
    feature table, under their labels 4 and 5. *)
Lemma missing_skin_type_row_is_kept :
  exists X_processed y_encoded cleaned self',
    prepare_training_data SampleTrainer.trainer
      = (Ok (X_processed, y_encoded, cleaned), self') /\
    In (4%nat, SampleTrainer.carol_row) (range_index 0 SampleTrainer.matrix) /\
    rSkinType SampleTrainer.carol_row = CNaN /\
    missing_feature SampleTrainer.carol_row = true /\
    In 4%nat (map fst (rows X_processed)).
Proof.
  do 4 eexists. split; [vm_compute; reflexivity |].
  repeat split; simpl; tauto.
Qed.

(** ** HasAllergies *)

Lemma space_lower_char c : PyStr.is_space c = true -> PyStr.lower_char c = c.
Proof.
  destruct c as [[] [] [] [] [] [] [] []]; vm_compute; intros H;
    first [reflexivity | discriminate].
Qed.

Lemma no_space_lower s : no_space (PyStr.lower s) = true -> no_space s = true.
Proof.
  induction s as [| c s IH]; simpl; [reflexivity |].
  intros H. apply andb_true_iff in H as [Hc Hs].
  rewrite (IH Hs), andb_true_r.
  destruct (PyStr.is_space c) eqn:E; [| reflexivity].
  rewrite (space_lower_char c E), E in Hc. discriminate.
Qed.

Lemma rstrip_no_space s : no_space s = true -> PyStr.rstrip s = s.
Proof.
  induction s as [| c s IH]; simpl; [reflexivity |].
  intros H. apply andb_true_iff in H as [Hc Hs].
  rewrite (IH Hs). destruct s; [| reflexivity].
  destruct (PyStr.is_space c); [discriminate | reflexivity].
Qed.

Lemma strip_no_space s : no_space s = true -> PyStr.strip s = s.
Proof.
  intros H. unfold PyStr.strip.
  assert (E : PyStr.lstrip s = s).
  { destruct s as [| c s]; simpl in *; [reflexivity |].
    destruct (PyStr.is_space c); [discriminate | reflexivity]. }
  rewrite E. apply rstrip_no_space, H.
Qed.

(** A text that reads "none" or "nan" once lowered has no blank to strip. *)
Lemma lower_word_strip s w :
  no_space w = true -> PyStr.lower s = w -> PyStr.lower (PyStr.strip s) = w.
Proof.
  intros Hw E. rewrite strip_no_space; [exact E |].
  apply no_space_lower. rewrite E. exact Hw.
Qed.

Lemma has_allergies_text s :
  has_allergies (VCell (CStr s))
  = if (String.eqb (PyStr.lower s) "none" || String.eqb (PyStr.lower s) "nan")%bool
    then VInt 0 else VInt 1.
Proof.
  unfold has_allergies, PyStr.mem. cbn [py_str existsb].
  rewrite orb_false_r. reflexivity.
Qed.

Lemma processed_HasAllergies_position skin trend :
  col_pos "HasAllergies" (processed_columns skin trend)
  = Some (2 + (length skin + length trend))%nat.
Proof.
  unfold processed_columns. cbn [app col_pos String.eqb Ascii.eqb Bool.eqb].
  cbn [option_map]. unfold dummy_names.
  set (names := map _ skin ++ map _ trend).
  assert (Hlen : length names = (length skin + length trend)%nat)
    by (unfold names; rewrite length_app, !length_map; reflexivity).
  assert (Hnone : col_pos "HasAllergies" names = None).
  { apply col_pos_app_none;
      apply (col_pos_dummy_names "HasAllergies"); reflexivity. }
  rewrite <- Hlen. clear Hlen. induction names as [| n names IH]; simpl in *.
  - reflexivity.
  - destruct (String.eqb n "HasAllergies"); [discriminate |].
    destruct (col_pos "HasAllergies" names); [discriminate |].
    specialize (IH eq_refl).
    destruct (col_pos "HasAllergies" (names ++ ["HasAllergies"]));
      [| discriminate].
    simpl in *. inversion IH. reflexivity.
Qed.

Lemma processed_HasAllergies_value skin trend r :
  nth (2 + (length skin + length trend)) (processed_values skin trend r)
      (VCell CNaN)
  = has_allergies (VCell (rAllergies r)).
Proof.
  unfold processed_values. cbn [plus nth].
  set (inds := indicators skin _ ++ indicators trend _).
  assert (Hlen : length inds = (length skin + length trend)%nat)
    by (unfold inds, indicators; rewrite length_app, !length_map; reflexivity).
  rewrite <- Hlen. apply nth_middle.
Qed.

(** C8. Feature derivation puts one HasAllergies column, computed from the
    Allergies entry of each row, in place of the Allergies column, which is
    gone from the table.  The flag is 0 when the entry is missing or reads
    "none" or "nan" in any letter case, and 1 for every text that, trimmed
    and lowered, is neither word: the empty text gets 1. *)
Theorem has_allergies_replaces_allergies (risk_df : list RiskRow) :
  exists X_processed,
    _preprocess_features (feature_frame risk_df) = Ok X_processed /\
    ~ In "Allergies" (columns X_processed) /\
    get_column X_processed "HasAllergies"
      = Ok (range_index 0
              (map (fun r => has_allergies (VCell (rAllergies r))) risk_df)) /\
    has_allergies (VCell CNaN) = VInt 0 /\
    (forall s,
        PyStr.lower s = "none" \/ PyStr.lower s = "nan" ->
        has_allergies (VCell (CStr s)) = VInt 0) /\
    (forall s,
        PyStr.lower (PyStr.strip s) <> "none" ->
        PyStr.lower (PyStr.strip s) <> "nan" ->
        has_allergies (VCell (CStr s)) = VInt 1) /\
    has_allergies (VCell (CStr "")) = VInt 1.
Proof.
  set (skin := levels_of rSkinType risk_df).
  set (trend := levels_of rTrendType risk_df).
  exists (mkDF (processed_columns skin trend)
               (range_index 0 (map (processed_values skin trend) risk_df))).
  split; [apply preprocess_features_closed |].
  split; [| split; [| split; [| split; [| split]]]].
  - cbn [columns]. unfold processed_columns.
    intros H. cbn [app In] in H. destruct H as [E | [E | H]]; try discriminate.
    apply in_app_or in H as [H | [E | []]]; [| discriminate].
    apply in_app_or in H as [H | H]; unfold dummy_names in H;
      apply in_map_iff in H as (l & E & _); discriminate.
  - rewrite (get_column_closed _ _ _ _ "HasAllergies" _
               (processed_HasAllergies_position skin trend)).
    f_equal. f_equal. apply map_ext. intros r.
    apply processed_HasAllergies_value.
  - reflexivity.
  - intros s [E | E]; rewrite has_allergies_text, E; reflexivity.
  - intros s Hnone Hnan. rewrite has_allergies_text.
    destruct (String.eqb (PyStr.lower s) "none") eqn:E1.
    + apply String.eqb_eq in E1. exfalso. apply Hnone.
      apply lower_word_strip; [reflexivity | exact E1].
    + destruct (String.eqb (PyStr.lower s) "nan") eqn:E2; [| reflexivity].
      apply String.eqb_eq in E2. exfalso. apply Hnan.
      apply lower_word_strip; [reflexivity | exact E2].
  - reflexivity.
Qed.

Lemma has_allergies_replaces_allergies_witness :
  has_allergies (VCell (CStr "NONE")) = VInt 0 /\
  has_allergies (VCell (CStr "Nuts, Soy")) = VInt 1.
Proof.
  destruct (has_allergies_replaces_allergies SampleTrainer.matrix)
    as (X & _ & _ & _ & _ & Hzero & Hone & _).
  split.
  - apply Hzero. left. reflexivity.
  - apply Hone; discriminate.
Defined.

(** C8, as stated, fails: the empty allergy text has no token, so the flag
    should be 0, and the derived column holds 1 for it. *)
Lemma empty_allergy_text_is_flagged :
  tokens (CStr "") = [] /\
  spec_allergy_tokens (rAllergies SampleTrainer.carol_row) = [] /\
  spec_has_allergies (rAllergies SampleTrainer.carol_row) = VInt 0 /\
  exists X_processed,
    _preprocess_features (feature_frame [SampleTrainer.carol_row])
      = Ok X_processed /\
    get_column X_processed "HasAllergies" = Ok [(0%nat, VInt 1)].
Proof.
  repeat split. eexists. split; vm_compute; reflexivity.
Qed.

(** ** Letter case, blanks and commas *)

Lemma lower_char_idem c : PyStr.lower_char (PyStr.lower_char c) = PyStr.lower_char c.
Proof. destruct c as [[] [] [] [] [] [] [] []]; reflexivity. Qed.

Lemma is_space_lower_char c : PyStr.is_space (PyStr.lower_char c) = PyStr.is_space c.
Proof. destruct c as [[] [] [] [] [] [] [] []]; reflexivity. Qed.

Lemma comma_lower_char c :
  Ascii.eqb (PyStr.lower_char c) "," = Ascii.eqb c ",".
Proof. destruct c as [[] [] [] [] [] [] [] []]; reflexivity. Qed.

(** Beyond ASCII: the capital E with acute (U+00C9) has the small letter
    U+00E9, the multiplication sign (U+00D7) and the sharp s (U+00DF) are left
    alone, and the no-break space (U+00A0) and NEL (U+0085) are stripped. *)
Example lower_accented_capital :
  PyStr.lower (String (ascii_of_nat 201) "GG") = String (ascii_of_nat 233) "gg".
Proof. reflexivity. Qed.

Example lower_leaves_signs :
  PyStr.lower (String (ascii_of_nat 215) (String (ascii_of_nat 223) "X"))
  = String (ascii_of_nat 215) (String (ascii_of_nat 223) "x").
Proof. reflexivity. Qed.

Example strip_latin1_blanks :
  PyStr.strip (String (ascii_of_nat 160) ("nuts" ++ String (ascii_of_nat 133) " "))
  = "nuts".
Proof. reflexivity. Qed.

Example tokens_beyond_ascii :
  tokens (CStr (String (ascii_of_nat 160) (String (ascii_of_nat 201) "GG ,")))
  = [String (ascii_of_nat 233) "gg"].
Proof. reflexivity. Qed.

Lemma lower_idem s : PyStr.lower (PyStr.lower s) = PyStr.lower s.
Proof.
  induction s as [| c s IH]; simpl; [reflexivity |].
  rewrite lower_char_idem, IH. reflexivity.
Qed.

Lemma lstrip_lower s : PyStr.lstrip (PyStr.lower s) = PyStr.lower (PyStr.lstrip s).
Proof.
  induction s as [| c s IH]; simpl; [reflexivity |].
  rewrite is_space_lower_char. destruct (PyStr.is_space c); [exact IH | reflexivity].
Qed.

Lemma rstrip_lower s : PyStr.rstrip (PyStr.lower s) = PyStr.lower (PyStr.rstrip s).
Proof.
  induction s as [| c s IH]; simpl; [reflexivity |].
  rewrite IH, is_space_lower_char.
  destruct (PyStr.rstrip s); simpl; [| reflexivity].
  destruct (PyStr.is_space c); reflexivity.
Qed.

Lemma strip_lower s : PyStr.strip (PyStr.lower s) = PyStr.lower (PyStr.strip s).
Proof. unfold PyStr.strip. rewrite lstrip_lower, rstrip_lower. reflexivity. Qed.

Lemma truthy_lower s : PyStr.truthy (PyStr.lower s) = PyStr.truthy s.
Proof. destruct s; reflexivity. Qed.

Lemma split_comma_lower s :
  PyStr.split "," (PyStr.lower s) = map PyStr.lower (PyStr.split "," s).
Proof.
  induction s as [| c s IH]; simpl; [reflexivity |].
  rewrite comma_lower_char, IH.
  destruct (Ascii.eqb c ","); simpl; [reflexivity |].
  destruct (PyStr.split "," s); reflexivity.
Qed.

Lemma filter_map_swap {A B} (f : A -> B) (p : B -> bool) l :
  filter p (map f l) = map f (filter (fun x => p (f x)) l).
Proof.
  induction l as [| x l IH]; simpl; [reflexivity |].
  rewrite IH. destruct (p (f x)); reflexivity.
Qed.

(** Lowering a text does not change its tokens. *)
Lemma tokens_lower s : tokens (CStr (PyStr.lower s)) = tokens (CStr s).
Proof.
  unfold tokens. cbn [py_str]. rewrite split_comma_lower, filter_map_swap, map_map.
  erewrite filter_ext.
  - apply map_ext. intros a. rewrite strip_lower, lower_idem. reflexivity.
  - intros a. cbn beta. rewrite strip_lower, truthy_lower. reflexivity.
Qed.

Lemma head_not_space_lstrip s : head_not_space (PyStr.lstrip s) = true.
Proof.
  induction s as [| c s IH]; simpl; [reflexivity |].
  destruct (PyStr.is_space c) eqn:E; [exact IH |]. simpl. rewrite E. reflexivity.
Qed.

Lemma lstrip_head_not_space s : head_not_space s = true -> PyStr.lstrip s = s.
Proof.
  destruct s as [| c s]; simpl; [reflexivity |].
  destruct (PyStr.is_space c); [discriminate | reflexivity].
Qed.

Lemma rstrip_cons c s :
  PyStr.rstrip (String c s)
  = match PyStr.rstrip s with
    | EmptyString => if PyStr.is_space c then EmptyString else String c EmptyString
    | String a r => String c (String a r)
    end.
Proof. reflexivity. Qed.

Lemma head_not_space_rstrip s :
  head_not_space s = true -> head_not_space (PyStr.rstrip s) = true.
Proof.
  destruct s as [| c s]; [reflexivity |].
  rewrite rstrip_cons. cbn [head_not_space]. intros H.
  destruct (PyStr.rstrip s).
  - destruct (PyStr.is_space c) eqn:E; [reflexivity |].
    cbn [head_not_space]. rewrite E. reflexivity.
  - exact H.
Qed.

Lemma rstrip_idem s : PyStr.rstrip (PyStr.rstrip s) = PyStr.rstrip s.
Proof.
  induction s as [| c s IH]; [reflexivity |].
  rewrite rstrip_cons.
  destruct (PyStr.rstrip s) as [| a r] eqn:E.
  - destruct (PyStr.is_space c) eqn:Ec; [reflexivity |].
    rewrite rstrip_cons. cbn [PyStr.rstrip]. rewrite Ec. reflexivity.
  - rewrite rstrip_cons, IH. reflexivity.
Qed.

Lemma strip_idem s : PyStr.strip (PyStr.strip s) = PyStr.strip s.
Proof.
  unfold PyStr.strip.
  rewrite (lstrip_head_not_space (PyStr.rstrip (PyStr.lstrip s))).
  - apply rstrip_idem.
  - apply head_not_space_rstrip, head_not_space_lstrip.
Qed.

(** ** More about the rule engine *)

(** X1. Every token the engine compares is normalised: it is not empty, has
    no blank at either end and no capital letter, the blanks and the capitals
    being all those that Python knows among the code points below 256. *)
Theorem tokens_are_normalised (x : cell) (tok : string) :
  In tok (tokens x) ->
  tok <> "" /\ PyStr.strip tok = tok /\ PyStr.lower tok = tok.
Proof.
  unfold tokens. intros H.
  apply in_map_iff in H as (a & <- & Ha).
  apply filter_In in Ha as [_ Ha].
  split; [| split].
  - intros E. rewrite <- truthy_lower, E in Ha. discriminate.
  - rewrite strip_lower, strip_idem. reflexivity.
  - apply lower_idem.
Qed.

Lemma tokens_are_normalised_witness :
  "vitamin c" <> "" /\ PyStr.strip "vitamin c" = "vitamin c"
  /\ PyStr.lower "vitamin c" = "vitamin c".
Proof.
  apply (tokens_are_normalised (CStr " Nuts ,, Vitamin C ,") "vitamin c").
  simpl. tauto.
Defined.

Lemma existsb_mem_common l1 l2 :
  existsb (fun x => PyStr.mem x l2) l1 = true <->
  exists tok, In tok l1 /\ In tok l2.
Proof.
  rewrite existsb_exists. unfold PyStr.mem. split.
  - intros (x & H1 & H2). apply existsb_exists in H2 as (y & Hy & E).
    apply String.eqb_eq in E. subst y. eauto.
  - intros (tok & H1 & H2). exists tok. split; [exact H1 |].
    apply existsb_exists. exists tok. split; [exact H2 | apply String.eqb_refl].
Qed.

(** X2. The allergy check fires exactly when the allergy text and the
    ingredient text share a token, so it gives the same answer with its two
    texts exchanged; in every other case it returns 0. *)
Theorem allergy_check_fires_on_common_token
    (users : list User) (trends : list Trend)
    (ingredient_risk : list IngredientRiskEntry) (a i : cell) :
  let self := RuleEngine_init users trends ingredient_risk in
  (check_allergy_risk self a i = Ok 3 <->
   exists tok, In tok (tokens a) /\ In tok (tokens i)) /\
  (check_allergy_risk self a i = Ok 0 <->
   ~ exists tok, In tok (tokens a) /\ In tok (tokens i)) /\
  check_allergy_risk self a i = check_allergy_risk self i a.
Proof.
  intros self.
  assert (Hcommon : forall x y,
    (exists tok, In tok (tokens x) /\ In tok (tokens y)) <->
    existsb (fun ing => PyStr.mem ing (tokens x)) (tokens y) = true).
  { intros x y. rewrite existsb_mem_common. split; intros (tok & H1 & H2); eauto. }
  unfold check_allergy_risk. cbn [risk_rules self RuleEngine_init].
  change (dict_get _define_risk_rules "Allergy") with (Ok 3 : result Z).
  rewrite (Hcommon a i).
  split; [| split].
  - destruct (existsb _ (tokens i)); split; congruence.
  - destruct (existsb _ (tokens i)); split; congruence.
  - destruct (existsb _ (tokens i)) eqn:E1, (existsb _ (tokens a)) eqn:E2;
      try reflexivity; exfalso.
    + apply Hcommon in E1 as (tok & H1 & H2).
      assert (E : existsb (fun ing => PyStr.mem ing (tokens i)) (tokens a) = true)
        by (apply Hcommon; eauto).
      congruence.
    + apply Hcommon in E2 as (tok & H1 & H2).
      assert (E : existsb (fun ing => PyStr.mem ing (tokens a)) (tokens i) = true)
        by (apply Hcommon; eauto).
      congruence.
Qed.

(** Lowering the names does not change the dtype of their column. *)
Lemma ingredient_column_is_text_lower ingredient_risk :
  ingredient_column_is_text (map lower_entry ingredient_risk)
  = ingredient_column_is_text ingredient_risk.
Proof.
  assert (H : forall l,
             existsb (fun e => match Ingredient e with
                               | CStr _ => true
                               | CNaN => false
                               end) (map lower_entry l)
             = existsb (fun e => match Ingredient e with
                                 | CStr _ => true
                                 | CNaN => false
                                 end) l).
  { induction l as [| x l IH]; [reflexivity |].
    cbn [map existsb]. rewrite IH. f_equal.
    unfold lower_entry. cbn [Ingredient].
    destruct (Ingredient x); reflexivity. }
  destruct ingredient_risk as [| e l]; [reflexivity |].
  exact (H (e :: l)).
Qed.

(** X3. The assessment does not depend on the letter case of the allergy
    text, of the ingredient text or of the ingredient names of the risk
    table: lowering any of them, accented capitals included, leaves the
    outcome as it is, level and score or exception. *)
Theorem assessment_ignores_letter_case
    (users : list User) (trends : list Trend)
    (ingredient_risk : list IngredientRiskEntry)
    (uid : cell) (age bmi : num) (skin : cell) (a : string) (hormone : cell)
    (tn ty : cell) (i : string) :
  let self := RuleEngine_init users trends ingredient_risk in
  _assess_risk_efficient self
    (mkUser uid age bmi skin (CStr (PyStr.lower a)) hormone)
    (mkTrend tn ty (CStr (PyStr.lower i)))
  = _assess_risk_efficient self
      (mkUser uid age bmi skin (CStr a) hormone) (mkTrend tn ty (CStr i)) /\
  _assess_risk_efficient
    (RuleEngine_init users trends (map lower_entry ingredient_risk))
    (mkUser uid age bmi skin (CStr a) hormone) (mkTrend tn ty (CStr i))
  = _assess_risk_efficient self
      (mkUser uid age bmi skin (CStr a) hormone) (mkTrend tn ty (CStr i)).
Proof.
  intros self. split.
  - unfold _assess_risk_efficient, check_allergy_risk, check_skincare_risk,
      check_diet_risk, check_ingredient_risk_level.
    cbn [Allergies KeyIngredients SkinType Type_ BMI cell_lower].
    rewrite !tokens_lower, !lower_idem. reflexivity.
  - assert (E : high_risk_ingredients
                  (RuleEngine_init users trends (map lower_entry ingredient_risk))
                = high_risk_ingredients self).
    { unfold high_risk_ingredients, self.
      cbn [ingredient_risk_df RuleEngine_init].
      rewrite ingredient_column_is_text_lower.
      destruct (ingredient_column_is_text ingredient_risk); [| reflexivity].
      f_equal.
      rewrite filter_map_swap, map_map. apply map_ext.
      intros e. cbn [lower_entry Ingredient].
      destruct (Ingredient e); simpl; [rewrite lower_idem |]; reflexivity. }
    unfold _assess_risk_efficient, check_ingredient_risk_level.
    rewrite E. reflexivity.
Qed.

(** The substring test finds exactly the texts that contain the word. *)
Lemma prefix_spec sub s :
  String.prefix sub s = true <-> exists post, s = (sub ++ post)%string.
Proof.
  revert s. induction sub as [| a sub IH]; intros s.
  - split; [intros _; exists s; reflexivity |].
    intros _. destruct s; reflexivity.
  - destruct s as [| b s]; simpl.
    + split; [discriminate | intros [post E]; discriminate].
    + destruct (ascii_dec a b) as [-> | Hne].
      * rewrite IH. split; intros [post E]; exists post; congruence.
      * split; [discriminate | intros [post E]; congruence].
Qed.

Lemma contains_spec sub s :
  PyStr.contains sub s = true <->
  exists pre post, s = (pre ++ sub ++ post)%string.
Proof.
  induction s as [| c s IH].
  - simpl. rewrite String.eqb_eq. split.
    + intros ->. exists "", "". reflexivity.
    + intros (pre & post & E). destruct pre; [| discriminate].
      destruct sub; [reflexivity | discriminate].
  - cbn [PyStr.contains]. rewrite orb_true_iff, prefix_spec, IH. split.
    + intros [[post E] | (pre & post & E)].
      * exists "", post. exact E.
      * exists (String c pre), post. simpl. congruence.
    + intros (pre & post & E). destruct pre as [| c' pre].
      * left. exists post. exact E.
      * right. exists pre, post. simpl in E. congruence.
Qed.

Lemma cell_is_spec x lit : cell_is x lit = true <-> x = CStr lit.
Proof.
  unfold cell_is. destruct x as [s |]; simpl.
  - rewrite String.eqb_eq. split; congruence.
  - split; discriminate.
Qed.

Lemma num_gt_spec x bound :
  num_gt x bound = true <-> exists q, x = NVal q /\ (bound < q)%Q.
Proof.
  destruct x as [q |]; simpl.
  - rewrite negb_true_iff. split.
    + intros H. exists q. split; [reflexivity |].
      apply Qnot_le_lt. intros Hle. apply Qle_bool_iff in Hle. congruence.
    + intros (q' & E & Hlt). inversion E; subst q'.
      destruct (Qle_bool q bound) eqn:Hb; [| reflexivity].
      apply Qle_bool_iff in Hb. exfalso. apply (Qlt_not_le _ _ Hlt Hb).
  - split; [discriminate | intros (q & E & _); discriminate].
Qed.

(** X4. The skincare check returns 2 exactly for a "Skincare" trend, a
    "Sensitive" skin and an ingredient text in which "acid" occurs, in any
    letter case and anywhere, inside a word too; it raises exactly when type
    and skin match and the ingredient entry is missing, and returns 0 when
    type or skin differ, whatever the ingredient entry. *)
Theorem skincare_check_fires_on_acid
    (users : list User) (trends : list Trend)
    (ingredient_risk : list IngredientRiskEntry) (skin ty i : cell) :
  let self := RuleEngine_init users trends ingredient_risk in
  (check_skincare_risk self skin ty i = Ok 2 <->
   ty = CStr "Skincare" /\ skin = CStr "Sensitive" /\
   exists txt pre post,
     i = CStr txt /\ PyStr.lower txt = (pre ++ "acid" ++ post)%string) /\
  (check_skincare_risk self skin ty i = Raise AttributeError <->
   ty = CStr "Skincare" /\ skin = CStr "Sensitive" /\ i = CNaN) /\
  (ty <> CStr "Skincare" \/ skin <> CStr "Sensitive" ->
   check_skincare_risk self skin ty i = Ok 0).
Proof.
  intros self. unfold check_skincare_risk. cbn [risk_rules self RuleEngine_init].
  change (dict_get _define_risk_rules "Skincare_Mismatch") with (Ok 2 : result Z).
  destruct (cell_is ty "Skincare") eqn:Ety; cbn [andb].
  - apply cell_is_spec in Ety. subst ty.
    destruct (cell_is skin "Sensitive") eqn:Esk.
    + apply cell_is_spec in Esk. subst skin.
      destruct i as [txt |]; cbn [cell_lower bind].
      * destruct (PyStr.contains "acid" (PyStr.lower txt)) eqn:Ec.
        -- apply contains_spec in Ec as (pre & post & Ec).
           split; [| split].
           ++ split; [intros _ | reflexivity].
              repeat split. exists txt, pre, post. split; [reflexivity | exact Ec].
           ++ split; [discriminate | intros (_ & _ & E); discriminate].
           ++ intros [H | H]; congruence.
        -- split; [| split].
           ++ split; [discriminate |].
              intros (_ & _ & txt' & pre & post & E & Hc). inversion E; subst txt'.
              assert (PyStr.contains "acid" (PyStr.lower txt) = true)
                by (apply contains_spec; eauto).
              congruence.
           ++ split; [discriminate | intros (_ & _ & E); discriminate].
           ++ reflexivity.
      * split; [| split].
        -- split; [discriminate |].
           intros (_ & _ & txt & pre & post & E & _). discriminate.
        -- split; [intros _ | reflexivity]. repeat split.
        -- intros [H | H]; congruence.
    + assert (Hsk : skin <> CStr "Sensitive").
      { intros E. apply cell_is_spec in E. congruence. }
      split; [| split].
      * split; [discriminate | intros (_ & E & _); congruence].
      * split; [discriminate | intros (_ & E & _); congruence].
      * reflexivity.
  - assert (Hty : ty <> CStr "Skincare").
    { intros E. apply cell_is_spec in E. congruence. }
    split; [| split].
    + split; [discriminate | intros (E & _); congruence].
    + split; [discriminate | intros (E & _); congruence].
    + reflexivity.
Qed.

Lemma skincare_check_fires_on_acid_witness :
  check_skincare_risk Sample.engine (CStr "Sensitive") (CStr "Skincare")
    (CStr "Hyaluronic ACID serum") = Ok 2 /\
  check_skincare_risk Sample.engine (CStr "sensitive") (CStr "Skincare") CNaN
    = Ok 0.
Proof.
  destruct (skincare_check_fires_on_acid
              [Sample.alice; Sample.bob]
              [Sample.nut_peel; Sample.detox_tea; Sample.water]
              Sample.ingredient_risk
              (CStr "Sensitive") (CStr "Skincare") (CStr "Hyaluronic ACID serum"))
    as (Hfire & _ & _).
  destruct (skincare_check_fires_on_acid
              [Sample.alice; Sample.bob]
              [Sample.nut_peel; Sample.detox_tea; Sample.water]
              Sample.ingredient_risk
              (CStr "sensitive") (CStr "Skincare") CNaN)
    as (_ & _ & Hzero).
  split.
  - apply Hfire. repeat split.
    exists "Hyaluronic ACID serum", "hyaluronic ", " serum". split; reflexivity.
  - apply Hzero. right. discriminate.
Defined.

(** The shape shared by the skincare and the diet check: a guard, then the
    search of a word in the lowered ingredient text. *)
Lemma guarded_word_check (guard : bool) (word : string) (w : Z) (i : cell) :
  w <> 0 ->
  let r := if guard
           then low <- cell_lower i ;;
                if PyStr.contains word low then Ok w else Ok 0
           else Ok 0 in
  (r = Ok w <->
   guard = true /\
   exists txt pre post,
     i = CStr txt /\ PyStr.lower txt = (pre ++ word ++ post)%string) /\
  (r = Raise AttributeError <-> guard = true /\ i = CNaN) /\
  (guard = false -> r = Ok 0).
Proof.
  intros Hw r. subst r. destruct guard.
  - destruct i as [txt |]; cbn [cell_lower bind].
    + destruct (PyStr.contains word (PyStr.lower txt)) eqn:Ec.
      * apply contains_spec in Ec as (pre & post & Ec).
        split; [| split].
        -- split; [intros _ | reflexivity].
           split; [reflexivity |]. exists txt, pre, post. auto.
        -- split; [discriminate | intros [_ E]; discriminate].
        -- discriminate.
      * split; [| split].
        -- split; [intros E; inversion E; congruence |].
           intros (_ & txt' & pre & post & E & Hc). inversion E; subst txt'.
           assert (PyStr.contains word (PyStr.lower txt) = true)
             by (apply contains_spec; eauto).
           congruence.
        -- split; [discriminate | intros [_ E]; discriminate].
        -- discriminate.
    + split; [| split].
      * split; [discriminate |].
        intros (_ & txt & pre & post & E & _). discriminate.
      * split; auto.
      * discriminate.
  - split; [| split].
    + split; [intros E; inversion E; congruence | intros [E _]; discriminate].
    + split; [discriminate | intros [E _]; discriminate].
    + reflexivity.
Qed.

(** X5. The diet check returns 1 exactly for a "Dietary" trend, a BMI
    strictly above 30 and an ingredient text in which "detox" occurs in any
    letter case; it raises exactly when type and BMI match and the
    ingredient entry is missing; a BMI of 30 or less, or a missing BMI,
    gives 0 whatever the ingredient entry. *)
Theorem diet_check_needs_bmi_above_30
    (users : list User) (trends : list Trend)
    (ingredient_risk : list IngredientRiskEntry) (bmi : num) (ty i : cell) :
  let self := RuleEngine_init users trends ingredient_risk in
  (check_diet_risk self bmi ty i = Ok 1 <->
   ty = CStr "Dietary" /\ (exists q, bmi = NVal q /\ (30 # 1 < q)%Q) /\
   exists txt pre post,
     i = CStr txt /\ PyStr.lower txt = (pre ++ "detox" ++ post)%string) /\
  (check_diet_risk self bmi ty i = Raise AttributeError <->
   ty = CStr "Dietary" /\ (exists q, bmi = NVal q /\ (30 # 1 < q)%Q) /\ i = CNaN) /\
  (bmi = NNaN \/ (exists q, bmi = NVal q /\ (q <= 30 # 1)%Q) ->
   check_diet_risk self bmi ty i = Ok 0).
Proof.
  intros self.
  assert (Hguard : (cell_is ty "Dietary" && num_gt bmi (30 # 1))%bool = true <->
                   ty = CStr "Dietary" /\ exists q, bmi = NVal q /\ (30 # 1 < q)%Q).
  { rewrite andb_true_iff, cell_is_spec, num_gt_spec. reflexivity. }
  pose proof (guarded_word_check
                (cell_is ty "Dietary" && num_gt bmi (30 # 1))%bool "detox" 1 i)
    as G.
  cbv zeta in G. destruct G as (Hfire & Hraise & Hzero); [discriminate |].
  unfold check_diet_risk. cbn [risk_rules self RuleEngine_init].
  change (dict_get _define_risk_rules "Diet_Mismatch") with (Ok 1 : result Z).
  split; [| split].
  - rewrite Hfire, Hguard. tauto.
  - rewrite Hraise, Hguard. tauto.
  - intros Hb. apply Hzero. apply not_true_is_false. intros E.
    apply Hguard in E as (_ & q & Eq & Hlt).
    destruct Hb as [Hb | (q' & Hb & Hle)]; [congruence |].
    rewrite Eq in Hb. inversion Hb; subst q'.
    apply (Qlt_not_le _ _ Hlt Hle).
Qed.

Lemma diet_check_needs_bmi_above_30_witness :
  check_diet_risk Sample.engine (NVal (301 # 10)) (CStr "Dietary")
    (CStr "Green DETOX blend") = Ok 1 /\
  check_diet_risk Sample.engine (NVal (30 # 1)) (CStr "Dietary") CNaN = Ok 0.
Proof.
  destruct (diet_check_needs_bmi_above_30
              [Sample.alice; Sample.bob]
              [Sample.nut_peel; Sample.detox_tea; Sample.water]
              Sample.ingredient_risk
              (NVal (301 # 10)) (CStr "Dietary") (CStr "Green DETOX blend"))
    as (Hfire & _ & _).
  destruct (diet_check_needs_bmi_above_30
              [Sample.alice; Sample.bob]
              [Sample.nut_peel; Sample.detox_tea; Sample.water]
              Sample.ingredient_risk
              (NVal (30 # 1)) (CStr "Dietary") CNaN)
    as (_ & _ & Hzero).
  split.
  - apply Hfire. split; [reflexivity |]. split.
    + exists (301 # 10). split; [reflexivity | reflexivity].
    + exists "Green DETOX blend", "green ", " blend". split; reflexivity.
  - apply Hzero. right. exists (30 # 1). split; [reflexivity | discriminate].
Defined.

(** The Ingredient column is not a text column exactly when the table has
    rows and no row has a name. *)
Lemma ingredient_column_not_text ingredient_risk :
  ingredient_column_is_text ingredient_risk = false <->
  nameless_ingredients ingredient_risk.
Proof.
  unfold nameless_ingredients.
  assert (H : forall l,
             existsb (fun e => match Ingredient e with
                               | CStr _ => true
                               | CNaN => false
                               end) l = false <->
             forall e, In e l -> Ingredient e = CNaN).
  { induction l as [| x l IH].
    - split; [intros _ e [] | reflexivity].
    - cbn [existsb]. rewrite orb_false_iff, IH. split.
      + intros [Hx Hl] e [<- | He]; [| apply Hl, He].
        destruct (Ingredient x); [discriminate | reflexivity].
      + intros Hall. split.
        * rewrite (Hall x) by (left; reflexivity). reflexivity.
        * intros e He. apply Hall. right. exact He. }
  destruct ingredient_risk as [| x l].
  - split; [discriminate | intros [Hne _]; congruence].
  - change (ingredient_column_is_text (x :: l))
      with (existsb (fun e => match Ingredient e with
                              | CStr _ => true
                              | CNaN => false
                              end) (x :: l)).
    rewrite H. split; [intros Hall; split; [discriminate | exact Hall] |].
    intros [_ Hall]. exact Hall.
Qed.

(** X6. The banned-ingredient check raises AttributeError exactly when the
    ingredient table has rows and none of them has a name (the Ingredient
    column is then a float column without [.str]).  Otherwise it returns 3
    exactly when a token of the ingredient text is the lowered name of an
    entry whose level is "High", and 0 exactly when no token is: entries with
    another level, or without a name, never count, and the user plays no
    part. *)
Theorem banned_check_reads_high_entries
    (users : list User) (trends : list Trend)
    (ingredient_risk : list IngredientRiskEntry) (i : cell) :
  let self := RuleEngine_init users trends ingredient_risk in
  let banned :=
    exists tok e name,
      In tok (tokens i) /\ In e ingredient_risk /\
      RiskLevel e = CStr "High" /\ Ingredient e = CStr name /\
      PyStr.lower name = tok in
  let nameless := nameless_ingredients ingredient_risk in
  (check_ingredient_risk_level self i = Raise AttributeError <-> nameless) /\
  (check_ingredient_risk_level self i = Ok 3 <-> banned) /\
  (check_ingredient_risk_level self i = Ok 0 <-> ~ banned /\ ~ nameless) /\
  (forall e, check_ingredient_risk_level self i = Raise e ->
             e = AttributeError).
Proof.
  intros self banned nameless.
  set (high := map (fun e => series_str_lower (Ingredient e))
                   (filter (fun e => cell_is (RiskLevel e) "High")
                           ingredient_risk)).
  assert (H : existsb (fun ing => existsb (cell_eqb (CStr ing)) high)
                      (tokens i) = true <-> banned).
  { unfold banned, high.
    rewrite existsb_exists. split.
    - intros (tok & Htok & Hex). apply existsb_exists in Hex as (c & Hc & Heq).
      apply in_map_iff in Hc as (e & <- & He).
      apply filter_In in He as [He Hhigh]. apply cell_is_spec in Hhigh.
      destruct (Ingredient e) as [name |] eqn:En; [| discriminate].
      cbn in Heq. apply String.eqb_eq in Heq.
      exists tok, e, name. repeat split; auto.
    - intros (tok & e & name & Htok & He & Hhigh & En & Elow).
      exists tok. split; [exact Htok |]. apply existsb_exists.
      exists (CStr tok). split; [| cbn; apply String.eqb_refl].
      apply in_map_iff. exists e. split.
      + rewrite En. cbn. rewrite Elow. reflexivity.
      + apply filter_In. split; [exact He | apply cell_is_spec, Hhigh]. }
  assert (Hexcl : banned -> ~ nameless).
  { intros (tok & e & name & _ & He & _ & En & _) [_ Hall].
    rewrite (Hall e He) in En. discriminate. }
  pose proof (ingredient_column_not_text ingredient_risk) as Hcol.
  fold nameless in Hcol.
  unfold check_ingredient_risk_level, high_risk_ingredients.
  cbn [risk_rules ingredient_risk_df self RuleEngine_init].
  change (dict_get _define_risk_rules "Banned_Ingredient") with (Ok 3 : result Z).
  fold high.
  destruct (ingredient_column_is_text ingredient_risk); cbn [bind].
  - assert (Hn : ~ nameless) by (intros K; apply Hcol in K; discriminate).
    destruct (existsb _ (tokens i)).
    + assert (Hb : banned) by (apply H; reflexivity).
      split; [| split; [| split]];
        [intuition congruence .. | intros e E; congruence].
    + assert (Hnb : ~ banned) by (intros Hb; apply H in Hb; discriminate).
      split; [| split; [| split]];
        [intuition congruence .. | intros e E; congruence].
  - assert (Hn : nameless) by (apply Hcol; reflexivity).
    split; [| split; [| split]];
      [intuition congruence .. | intros e E; congruence].
Qed.

Lemma banned_check_reads_high_entries_witness :
  check_ingredient_risk_level Sample.engine (CStr "Mica , LEAD") = Ok 3 /\
  check_ingredient_risk_level Sample.engine (CStr "water") = Ok 0 /\
  check_ingredient_risk_level
    (RuleEngine_init [] [] [mkEntry CNaN (CStr "High")]) (CStr "water")
  = Raise AttributeError.
Proof.
  destruct (banned_check_reads_high_entries
              [Sample.alice; Sample.bob]
              [Sample.nut_peel; Sample.detox_tea; Sample.water]
              Sample.ingredient_risk (CStr "Mica , LEAD")) as (_ & Hfire & _).
  destruct (banned_check_reads_high_entries
              [] [] [mkEntry CNaN (CStr "High")] (CStr "water"))
    as (Hraise & _).
  split; [| split].
  - apply Hfire.
    exists "lead", (mkEntry (CStr "Lead") (CStr "High")), "Lead".
    simpl. tauto.
  - reflexivity.
  - apply Hraise. split; [discriminate |].
    intros e [<- | []]. reflexivity.
Defined.

(** X7. The level tells which rules fired: "High Risk" exactly when the
    allergy rule or the banned-ingredient rule fired, "Medium Risk" exactly
    when neither did and the skincare or the diet rule fired, "Safe" exactly
    when all four checks returned 0. *)
Theorem level_follows_the_fired_rules
    (users : list User) (trends : list Trend)
    (ingredient_risk : list IngredientRiskEntry)
    (u : User) (t : Trend) (level : string) (score : Z) :
  let self := RuleEngine_init users trends ingredient_risk in
  let allergy := check_allergy_risk self (Allergies u) (KeyIngredients t) in
  let skincare :=
    check_skincare_risk self (SkinType u) (Type_ t) (KeyIngredients t) in
  let diet := check_diet_risk self (BMI u) (Type_ t) (KeyIngredients t) in
  let banned := check_ingredient_risk_level self (KeyIngredients t) in
  _assess_risk_efficient self u t = Ok (level, score) ->
  (level = "High Risk" <-> allergy = Ok 3 \/ banned = Ok 3) /\
  (level = "Medium Risk" <->
   allergy = Ok 0 /\ banned = Ok 0 /\ (skincare = Ok 2 \/ diet = Ok 1)) /\
  (level = "Safe" <->
   allergy = Ok 0 /\ skincare = Ok 0 /\ diet = Ok 0 /\ banned = Ok 0).
Proof.
  intros self allergy skincare diet banned H.
  destruct (assess_risk_efficient_inv _ _ _ _ _ _ _ H)
    as (a & s & d & b & Ha & Hs & Hd & Hb & Esc & Elv).
  fold self in Ha, Hs, Hd, Hb. fold allergy in Ha. fold skincare in Hs.
  fold diet in Hd. fold banned in Hb.
  rewrite Ha, Hs, Hd, Hb, Elv, Esc.
  destruct (check_allergy_risk_cases users trends ingredient_risk
              (Allergies u) (KeyIngredients t)) as [E | E];
    fold self in E; fold allergy in E; rewrite E in Ha; inversion Ha; subst a;
  (destruct (check_skincare_risk_cases users trends ingredient_risk
               (SkinType u) (Type_ t) (KeyIngredients t)) as [E1 | [E1 | [E1 _]]];
   fold self in E1; fold skincare in E1; rewrite E1 in Hs; inversion Hs; subst s);
  (destruct (check_diet_risk_cases users trends ingredient_risk
               (BMI u) (Type_ t) (KeyIngredients t)) as [E2 | [E2 | [E2 _]]];
   fold self in E2; fold diet in E2; rewrite E2 in Hd; inversion Hd; subst d);
  (destruct (check_ingredient_risk_level_cases users trends ingredient_risk
               (KeyIngredients t)) as [E3 | [E3 | [E3 _]]];
   fold self in E3; fold banned in E3; rewrite E3 in Hb; inversion Hb; subst b);
  cbn; repeat split; intros; try discriminate; try tauto;
  repeat match goal with
         | K : _ /\ _ |- _ => destruct K
         | K : _ \/ _ |- _ => destruct K
         end; try discriminate; auto.
Qed.

Lemma level_follows_the_fired_rules_witness :
  "Medium Risk" = "Medium Risk" <->
  check_allergy_risk Sample.engine (Allergies Sample.bob)
    (KeyIngredients Sample.detox_tea) = Ok 0 /\
  check_ingredient_risk_level Sample.engine (KeyIngredients Sample.detox_tea)
    = Ok 0 /\
  (check_skincare_risk Sample.engine (SkinType Sample.bob)
     (Type_ Sample.detox_tea) (KeyIngredients Sample.detox_tea) = Ok 2 \/
   check_diet_risk Sample.engine (BMI Sample.bob) (Type_ Sample.detox_tea)
     (KeyIngredients Sample.detox_tea) = Ok 1).
Proof.
  apply (level_follows_the_fired_rules
           [Sample.alice; Sample.bob]
           [Sample.nut_peel; Sample.detox_tea; Sample.water]
           Sample.ingredient_risk Sample.bob Sample.detox_tea
           "Medium Risk" 1).
  reflexivity.
Defined.

(** ** When the matrix is not returned *)

Section MapMFailure.

Context {A B : Type} (f : A -> result B).

Lemma mapM_raise l e :
  mapM f l = Raise e -> exists x, In x l /\ f x = Raise e.
Proof.
  induction l as [| x l IH]; simpl; [discriminate |].
  destruct (f x) as [y | e'] eqn:Ef; simpl.
  - destruct (mapM f l) as [ys | e'']; simpl; [discriminate |].
    intros H. inversion H; subst e''.
    destruct (IH eq_refl) as (x' & Hin & Hx'). eauto.
  - intros H. inversion H; subst e'. eauto.
Qed.

Lemma mapM_raises_on l x e :
  In x l -> f x = Raise e -> exists e', mapM f l = Raise e'.
Proof.
  intros Hin Hx. destruct (mapM f l) as [out | e'] eqn:E; [| eauto].
  destruct (mapM_In_in f l out x E Hin) as (y & _ & Hy). congruence.
Qed.

Lemma mapM_nth_error l out k x :
  mapM f l = Ok out -> nth_error l k = Some x ->
  exists y, nth_error out k = Some y /\ f x = Ok y.
Proof.
  revert out k. induction l as [| x0 l IH]; intros out k H Hk.
  - destruct k; discriminate.
  - simpl in H. destruct (f x0) as [y0 | e] eqn:Ef; simpl in H; [| discriminate].
    destruct (mapM f l) as [ys | e]; simpl in H; [| discriminate].
    inversion H; subst out. destruct k as [| k]; simpl in Hk |- *.
    + inversion Hk; subst x0. eauto.
    + apply (IH ys k eq_refl Hk).
Qed.

Lemma mapM_find (p : A -> bool) (q : B -> bool) l out :
  (forall x y, f x = Ok y -> q y = p x) ->
  mapM f l = Ok out ->
  match find p l with
  | Some x => exists y, f x = Ok y /\ find q out = Some y
  | None => find q out = None
  end.
Proof.
  intros Hpq. revert out. induction l as [| x0 l IH]; intros out H.
  - inversion H. reflexivity.
  - simpl in H. destruct (f x0) as [y0 | e] eqn:Ef; simpl in H; [| discriminate].
    destruct (mapM f l) as [ys | e]; simpl in H; [| discriminate].
    inversion H; subst out. simpl. rewrite (Hpq x0 y0 Ef).
    destruct (p x0); [eauto |]. apply IH. reflexivity.
Qed.

End MapMFailure.

Section Checks2.

Variables (users : list User) (trends : list Trend)
          (ingredient_risk : list IngredientRiskEntry).

Local Abbreviation self := (RuleEngine_init users trends ingredient_risk).

Lemma check_skincare_risk_raise s ty i :
  check_skincare_risk self s ty i = Raise AttributeError <->
  ty = CStr "Skincare" /\ s = CStr "Sensitive" /\ i = CNaN.
Proof.
  pose proof (guarded_word_check
                (cell_is ty "Skincare" && cell_is s "Sensitive")%bool "acid" 2 i)
    as G.
  cbv zeta in G. destruct G as (_ & Hraise & _); [discriminate |].
  unfold check_skincare_risk. cbn [risk_rules RuleEngine_init].
  change (dict_get _define_risk_rules "Skincare_Mismatch") with (Ok 2 : result Z).
  rewrite Hraise, andb_true_iff, !cell_is_spec. tauto.
Qed.

Lemma check_diet_risk_raise bmi ty i :
  check_diet_risk self bmi ty i = Raise AttributeError <->
  ty = CStr "Dietary" /\ (exists q, bmi = NVal q /\ (30 # 1 < q)%Q) /\ i = CNaN.
Proof.
  pose proof (guarded_word_check
                (cell_is ty "Dietary" && num_gt bmi (30 # 1))%bool "detox" 1 i)
    as G.
  cbv zeta in G. destruct G as (_ & Hraise & _); [discriminate |].
  unfold check_diet_risk. cbn [risk_rules RuleEngine_init].
  change (dict_get _define_risk_rules "Diet_Mismatch") with (Ok 1 : result Z).
  rewrite Hraise, andb_true_iff, cell_is_spec, num_gt_spec. tauto.
Qed.

Lemma check_ingredient_risk_level_raise i :
  check_ingredient_risk_level self i = Raise AttributeError <->
  ingredient_column_is_text ingredient_risk = false.
Proof.
  unfold check_ingredient_risk_level, high_risk_ingredients.
  cbn [risk_rules ingredient_risk_df RuleEngine_init].
  change (dict_get _define_risk_rules "Banned_Ingredient") with (Ok 3 : result Z).
  destruct (ingredient_column_is_text ingredient_risk); cbn [bind].
  - destruct (existsb _ _); split; discriminate.
  - split; reflexivity.
Qed.

Lemma assess_risk_efficient_raise_iff u t :
  (exists e, _assess_risk_efficient self u t = Raise e) <->
  raising_pair u t \/ ingredient_column_is_text ingredient_risk = false.
Proof.
  unfold raising_pair.
  pose proof (check_skincare_risk_raise (SkinType u) (Type_ t) (KeyIngredients t))
    as Hs.
  pose proof (check_diet_risk_raise (BMI u) (Type_ t) (KeyIngredients t)) as Hd.
  pose proof (check_ingredient_risk_level_raise (KeyIngredients t)) as Hb.
  unfold _assess_risk_efficient.
  destruct (check_allergy_risk_cases users trends ingredient_risk
              (Allergies u) (KeyIngredients t)) as [E | E]; rewrite E; clear E;
  (destruct (check_skincare_risk_cases users trends ingredient_risk
               (SkinType u) (Type_ t) (KeyIngredients t)) as [E1 | [E1 | [E1 _]]];
   rewrite E1 in Hs |- *);
  (destruct (check_diet_risk_cases users trends ingredient_risk
               (BMI u) (Type_ t) (KeyIngredients t)) as [E2 | [E2 | [E2 _]]];
   rewrite E2 in Hd |- *);
  (destruct (check_ingredient_risk_level_cases users trends ingredient_risk
               (KeyIngredients t)) as [E3 | [E3 | [E3 _]]];
   rewrite E3 in Hb |- *);
  cbn [bind py_max fold_left];
  (split;
   [ intros [e He];
     first [ left; destruct (proj1 Hs eq_refl) as (? & ? & ?); tauto
           | left; destruct (proj1 Hd eq_refl) as (? & ? & ?); tauto
           | right; exact (proj1 Hb eq_refl)
           | cbn in He; discriminate He ]
   | intros Hr;
     first [ eexists; reflexivity
           | exfalso;
             destruct Hr as [(Hk & [[Ht Hsk] | [Ht Hq]]) | Hc];
             [ pose proof (proj2 Hs (conj Ht (conj Hsk Hk))) as X; discriminate X
             | pose proof (proj2 Hd (conj Ht (conj Hq Hk))) as X; discriminate X
             | pose proof (proj2 Hb Hc) as X; discriminate X ] ] ]).
Qed.

End Checks2.

(** X8. The matrix is lost in two cases only.  Some user and some trend form
    a raising pair: the trend has no ingredient entry and is a "Skincare"
    trend met by a "Sensitive" skin, or a "Dietary" trend met by a BMI above
    30.  Or there is a user and a trend to assess and the ingredient table
    has rows but not one name.  The exception is then always AttributeError,
    of [lower] or of [.str].  Without users or without trends the matrix is
    returned, empty. *)
Theorem matrix_fails_only_on_raising_pairs
    (users : list User) (trends : list Trend)
    (ingredient_risk : list IngredientRiskEntry) :
  let self := RuleEngine_init users trends ingredient_risk in
  (forall e, generate_risk_matrix self = Raise e -> e = AttributeError) /\
  ((exists e, generate_risk_matrix self = Raise e) <->
   (exists u t, In u users /\ In t trends /\ raising_pair u t) \/
   (users <> [] /\ trends <> [] /\ nameless_ingredients ingredient_risk)) /\
  (users = [] \/ trends = [] -> generate_risk_matrix self = Ok []).
Proof.
  intros self. unfold self. rewrite generate_risk_matrix_mapM.
  assert (Hpair : forall p e,
             pair_row (RuleEngine_init users trends ingredient_risk) p = Raise e ->
             _assess_risk_efficient (RuleEngine_init users trends ingredient_risk)
               (fst p) (snd p) = Raise e).
  { intros p e. unfold pair_row.
    destruct (_assess_risk_efficient _ (fst p) (snd p)); simpl; congruence. }
  assert (Hraises : forall u t,
             In u users -> In t trends ->
             (exists e, _assess_risk_efficient
                          (RuleEngine_init users trends ingredient_risk) u t
                        = Raise e) ->
             exists e, mapM (pair_row (RuleEngine_init users trends ingredient_risk))
                            (list_prod users trends) = Raise e).
  { intros u t Hu Ht [e He].
    apply (mapM_raises_on _ _ (u, t) e); [apply in_prod; assumption |].
    unfold pair_row. cbn [fst snd]. rewrite He. reflexivity. }
  split; [| split].
  - intros e H. apply mapM_raise in H as ([u t] & _ & H).
    apply Hpair in H. eapply assess_risk_efficient_raise, H.
  - split.
    + intros [e H]. apply mapM_raise in H as ([u t] & Hin & H).
      apply in_prod_iff in Hin as [Hu Ht]. apply Hpair in H.
      cbn [fst snd] in H.
      assert (Hr : raising_pair u t \/
                   ingredient_column_is_text ingredient_risk = false)
        by (apply (assess_risk_efficient_raise_iff users trends); eauto).
      destruct Hr as [Hr | Hc].
      * left. exists u, t. auto.
      * right. split; [intros ->; destruct Hu |].
        split; [intros ->; destruct Ht |].
        apply ingredient_column_not_text, Hc.
    + intros [(u & t & Hu & Ht & Hr) | (Hus & Hts & Hn)].
      * apply (Hraises u t Hu Ht).
        apply (assess_risk_efficient_raise_iff users trends ingredient_risk).
        left. exact Hr.
      * destruct users as [| u us]; [congruence |].
        destruct trends as [| t ts]; [congruence |].
        apply (Hraises u t); [left; reflexivity | left; reflexivity |].
        apply (assess_risk_efficient_raise_iff (u :: us) (t :: ts)
                 ingredient_risk).
        right. apply ingredient_column_not_text, Hn.
  - intros [-> | ->]; [reflexivity |].
    assert (E : list_prod users (@nil Trend) = [])
      by (clear; induction users; simpl; auto).
    rewrite E. reflexivity.
Qed.

Lemma matrix_fails_only_on_raising_pairs_witness :
  (exists e,
    generate_risk_matrix
      (RuleEngine_init [Sample.bob; Sample.alice]
                       [Sample.water; Sample.mystery_serum]
                       Sample.ingredient_risk) = Raise e) /\
  (exists e,
    generate_risk_matrix
      (RuleEngine_init [Sample.bob] [Sample.water]
                       [mkEntry CNaN (CStr "Low")]) = Raise e).
Proof.
  split.
  - apply (matrix_fails_only_on_raising_pairs
             [Sample.bob; Sample.alice] [Sample.water; Sample.mystery_serum]
             Sample.ingredient_risk).
    left. exists Sample.alice, Sample.mystery_serum.
    split; [simpl; tauto |]. split; [simpl; tauto |].
    split; [reflexivity |]. left. split; reflexivity.
  - apply (matrix_fails_only_on_raising_pairs
             [Sample.bob] [Sample.water] [mkEntry CNaN (CStr "Low")]).
    right. split; [discriminate |]. split; [discriminate |].
    split; [discriminate |]. intros e [<- | []]. reflexivity.
Defined.

Lemma nth_error_list_prod {A B} (l : list A) (l' : list B) i j x y :
  nth_error l i = Some x -> nth_error l' j = Some y ->
  nth_error (list_prod l l') (i * length l' + j) = Some (x, y).
Proof.
  revert i. induction l as [| a l IH]; intros i Hi Hj.
  - destruct i; discriminate.
  - simpl. destruct i as [| i]; simpl in Hi |- *.
    + inversion Hi; subst a.
      rewrite nth_error_app1
        by (rewrite length_map; apply nth_error_Some; congruence).
      rewrite nth_error_map, Hj. reflexivity.
    + rewrite nth_error_app2 by (rewrite length_map; lia).
      rewrite length_map.
      replace (length l' + i * length l' + j - length l')%nat
        with (i * length l' + j)%nat by lia.
      apply IH; assumption.
Qed.

(** X9. The row of the i-th user and the j-th trend (counting from 0) sits at
    position [i * |Trends| + j] of the matrix; it holds the attributes of
    that user and that trend and the level and score of their assessment. *)
Theorem matrix_row_position
    (users : list User) (trends : list Trend)
    (ingredient_risk : list IngredientRiskEntry)
    (matrix : list RiskRow) (i j : nat) (u : User) (t : Trend) :
  let self := RuleEngine_init users trends ingredient_risk in
  generate_risk_matrix self = Ok matrix ->
  nth_error users i = Some u ->
  nth_error trends j = Some t ->
  exists level score,
    _assess_risk_efficient self u t = Ok (level, score) /\
    nth_error matrix (i * length trends + j)
    = Some (mkRiskRow (UserID u) (Age u) (BMI u) (SkinType u) (Allergies u)
                      (HormoneLevel u) (TrendName t) (Type_ t)
                      (KeyIngredients t) level score).
Proof.
  intros self Hm Hi Hj. unfold self in Hm.
  rewrite generate_risk_matrix_mapM in Hm.
  destruct (mapM_nth_error _ _ _ _ (u, t) Hm
              (nth_error_list_prod users trends i j u t Hi Hj))
    as (r & Hr & Hp).
  apply pair_row_inv in Hp as [Ha Hrow]. cbn [fst snd] in Ha, Hrow.
  exists (rRiskLevel r), (rRiskScore r). split; [exact Ha |].
  rewrite Hr, Hrow at 1. reflexivity.
Qed.

Lemma matrix_row_position_witness :
  exists level score,
    _assess_risk_efficient Sample.engine Sample.bob Sample.water
      = Ok (level, score) /\
    nth_error Sample.matrix (1 * 3 + 2)
    = Some (mkRiskRow (CStr "U002") (NVal (41 # 1)) (NVal (32 # 1)) (CStr "Oily")
                      (CStr "None") (CStr "High") (CStr "Water")
                      (CStr "General") (CStr "Water") level score).
Proof.
  apply (matrix_row_position
           [Sample.alice; Sample.bob]
           [Sample.nut_peel; Sample.detox_tea; Sample.water]
           Sample.ingredient_risk Sample.matrix 1 2 Sample.bob Sample.water);
    reflexivity.
Defined.

(** ** Lookups and first rows *)

Lemma find_app {A} (p : A -> bool) l1 l2 :
  find p (l1 ++ l2)
  = match find p l1 with Some x => Some x | None => find p l2 end.
Proof.
  induction l1 as [| x l1 IH]; simpl; [reflexivity |].
  destruct (p x); [reflexivity | exact IH].
Qed.

Lemma find_list_prod {A B} (pa : A -> bool) (pb : B -> bool) l l' :
  find (fun p => (pa (fst p) && pb (snd p))%bool) (list_prod l l')
  = match find pa l, find pb l' with
    | Some x, Some y => Some (x, y)
    | _, _ => None
    end.
Proof.
  induction l as [| a l IH]; simpl; [reflexivity |].
  rewrite find_app, IH.
  assert (E : find (fun p => (pa (fst p) && pb (snd p))%bool)
                   (map (fun y => (a, y)) l')
              = if pa a then option_map (pair a) (find pb l') else None).
  { clear IH. induction l' as [| b l' IH']; simpl.
    - destruct (pa a); reflexivity.
    - destruct (pa a); simpl; [| exact IH'].
      destruct (pb b); [reflexivity | exact IH']. }
  rewrite E. destruct (pa a).
  - destruct (find pb l'); simpl; [reflexivity |].
    destruct (find pa l); reflexivity.
  - reflexivity.
Qed.

Lemma iloc0_filter_find {A} (p : A -> bool) l :
  iloc0 (filter p l)
  = match find p l with Some x => Ok x | None => Raise IndexError end.
Proof.
  induction l as [| x l IH]; simpl; [reflexivity |].
  destruct (p x); [reflexivity | exact IH].
Qed.

(** X10. Duplicated keys or not, the lookup and the matrix agree on the
    first row: when the matrix is returned, [assess_risk] gives the level and
    the score of the first matrix row under the two keys, and raises
    IndexError exactly when the matrix has no row under them. *)
Theorem assess_risk_is_first_matrix_row
    (users : list User) (trends : list Trend)
    (ingredient_risk : list IngredientRiskEntry)
    (matrix : list RiskRow) (user_id trend_name : cell) :
  let self := RuleEngine_init users trends ingredient_risk in
  generate_risk_matrix self = Ok matrix ->
  match find (under_keys user_id trend_name) matrix with
  | Some r => assess_risk self user_id trend_name
              = Ok (rRiskLevel r, rRiskScore r)
  | None => assess_risk self user_id trend_name = Raise IndexError
  end.
Proof.
  intros self Hm. unfold self in Hm. rewrite generate_risk_matrix_mapM in Hm.
  pose proof (mapM_find _
                (fun p => (cell_eqb (UserID (fst p)) user_id
                           && cell_eqb (TrendName (snd p)) trend_name)%bool)
                (under_keys user_id trend_name) _ _
                (fun p r (Hr : pair_row _ p = Ok r) =>
                   match pair_row_inv users trends ingredient_risk p r Hr with
                   | conj _ Hrow =>
                       eq_ind_r (fun r' => under_keys user_id trend_name r' = _)
                                eq_refl Hrow
                   end)
                Hm) as Hfind.
  rewrite (find_list_prod (fun u => cell_eqb (UserID u) user_id)
                          (fun t => cell_eqb (TrendName t) trend_name)) in Hfind.
  unfold assess_risk, self. cbn [users_df trends_df RuleEngine_init].
  rewrite !iloc0_filter_find.
  destruct (find (fun u => cell_eqb (UserID u) user_id) users) as [u |].
  - destruct (find (fun t => cell_eqb (TrendName t) trend_name) trends) as [t |].
    + destruct Hfind as (r & Hr & ->).
      apply pair_row_inv in Hr as [Ha _]. exact Ha.
    + rewrite Hfind. reflexivity.
  - rewrite Hfind. reflexivity.
Qed.

Lemma assess_risk_is_first_matrix_row_witness :
  assess_risk Sample.engine (CStr "U001") (CStr "Water") = Ok ("Safe", 0).
Proof.
  apply (assess_risk_is_first_matrix_row
           [Sample.alice; Sample.bob]
           [Sample.nut_peel; Sample.detox_tea; Sample.water]
           Sample.ingredient_risk Sample.matrix (CStr "U001") (CStr "Water")).
  reflexivity.
Defined.

(** ** More about the model trainer *)

Section TrainerClosed.

Context {sk : Sklearn}.

(** What the preparation returns and assigns on a matrix with rows. *)
Lemma prepare_training_data_closed (self : MLModel) (risk_df : list RiskRow) :
  generate_risk_matrix (rule_engine self) = Ok risk_df ->
  risk_df <> [] ->
  let skin := levels_of rSkinType risk_df in
  let trend := levels_of rTrendType risk_df in
  let kept :=
    filter (fun ir => negb (incomplete (snd ir))) (range_index 0 risk_df) in
  let labels := map (fun ir : nat * RiskRow => rRiskLevel (snd ir)) kept in
  prepare_training_data self
  = (Ok (mkDF (processed_columns skin trend)
              (map (fun ir => (fst ir, processed_values skin trend (snd ir)))
                   kept),
         snd (fit_transform labels), kept),
     set_risk_df_cleaned kept
       (set_label_encoder (fst (fit_transform labels)) self)).
Proof.
  intros Hgen Hne skin trend kept labels.
  assert (Hy : loc (range_index 0 (map rRiskLevel risk_df)) (map fst kept)
               = Ok (map (fun ir => (fst ir, rRiskLevel (snd ir))) kept)).
  { rewrite <- (loc_rows (range_index 0 (map rRiskLevel risk_df))
                         (map (fun ir => (fst ir, rRiskLevel (snd ir))) kept)).
    - rewrite map_map. reflexivity.
    - apply range_index_NoDup.
    - intros p Hp. apply in_map_iff in Hp as ([i r] & <- & Hin).
      apply filter_In in Hin as [Hin _].
      rewrite <- (map_range_index rRiskLevel).
      apply in_map_iff. exists (i, r). split; [reflexivity | exact Hin]. }
  assert (Hc : loc (range_index 0 risk_df) (map fst kept) = Ok kept).
  { apply loc_rows; [apply range_index_NoDup |].
    intros p Hp. apply filter_In in Hp. tauto. }
  unfold prepare_training_data, bindM, lift, read, assign, ret.
  rewrite Hgen, (select_features_closed risk_df Hne).
  rewrite preprocess_features_closed.
  fold skin trend. rewrite dropna_closed. fold kept.
  cbn [rows]. rewrite map_map. cbn [fst].
  change (map (fun x : nat * RiskRow => fst x) kept) with (map fst kept).
  rewrite Hy. rewrite map_map. cbn [snd]. fold labels.
  unfold fit_transform. cbn [fst snd]. rewrite Hc. reflexivity.
Qed.

End TrainerClosed.

(** X11. Preparing the training data fails in two cases only, and then
    leaves the trainer as it was: when the matrix is not returned, with the
    exception of the engine, and when the matrix has no row (no user or no
    trend), with the KeyError of the column selection.  On a matrix with rows
    it returns, and assigns the label encoder and the cleaned matrix. *)
Theorem prepare_training_data_failures
    (sk : Sklearn) (self : MLModel) :
  match generate_risk_matrix (rule_engine self) with
  | Raise e => prepare_training_data self = (Raise e, self)
  | Ok [] => prepare_training_data self = (Raise KeyError, self)
  | Ok (_ :: _) =>
      exists X_processed y_encoded cleaned self',
        prepare_training_data self
          = (Ok (X_processed, y_encoded, cleaned), self') /\
        label_encoder self' <> None /\
        risk_df_cleaned self' = Some cleaned
  end.
Proof.
  destruct (generate_risk_matrix (rule_engine self)) as [[| r rest] | e] eqn:Hgen.
  - unfold prepare_training_data, bindM, lift, read. rewrite Hgen. reflexivity.
  - assert (Hne : r :: rest <> []) by discriminate.
    rewrite (prepare_training_data_closed self (r :: rest) Hgen Hne).
    do 4 eexists. split; [reflexivity |]. split; [discriminate | reflexivity].
  - unfold prepare_training_data, bindM, lift, read. rewrite Hgen. reflexivity.
Qed.

(** A preparation that returns has set the encoder and the cleaned matrix. *)
Lemma prepare_training_data_sets (sk : Sklearn) (self s1 : MLModel) out :
  prepare_training_data self = (Ok out, s1) ->
  label_encoder s1 <> None /\ risk_df_cleaned s1 <> None.
Proof.
  unfold prepare_training_data, bindM, lift, read, assign, ret.
  destruct (generate_risk_matrix (rule_engine self)); [| discriminate].
  destruct (select_columns _ _); [| discriminate].
  destruct (_preprocess_features _); [| discriminate].
  destruct (loc _ _); [| discriminate].
  cbn [fit_transform].
  destruct (loc _ _); [| discriminate].
  intros H. inversion H. split; discriminate.
Qed.

(** X12. When training returns, it was asked for "random_forest", and the
    trainer keeps what was computed: the classifier returned is the one
    stored and is the forest fitted on the stored training partition, the
    accuracy and the confusion matrix are those of its predictions on the
    stored test partition, the encoder and the cleaned matrix are set, the
    engine is untouched, and [predict_risk] no longer raises "Model not
    trained yet.". *)
Theorem train_model_returns_what_it_stores
    (sk : Sklearn) (model_type : string) (self self' : MLModel)
    (accuracy : Q) (rep : report) (conf_matrix : list (list nat))
    (m : classifier) :
  train_model model_type self = (Ok (accuracy, rep, conf_matrix, m), self') ->
  model_type = "random_forest" /\
  model self' = Some m /\
  (exists Xtr Xte ytr yte y_pred,
      X_train self' = Some Xtr /\ X_test self' = Some Xte /\
      y_train self' = Some ytr /\ y_test self' = Some yte /\
      fit (RandomForestClassifier 100 42) Xtr ytr = Ok m /\
      predict m (Table Xte) = Ok y_pred /\
      accuracy = accuracy_score yte y_pred /\
      conf_matrix = confusion_matrix yte y_pred) /\
  label_encoder self' <> None /\
  risk_df_cleaned self' <> None /\
  rule_engine self' = rule_engine self /\
  (forall (U T : Type) (uf : U) (tf : T),
      predict_risk self' uf tf = predict m (Array1 [1; 0; 1])).
Proof.
  unfold train_model, bindM at 1.
  pose proof (prepare_training_data_model self) as (_ & _ & Heng).
  destruct (prepare_training_data self) as [[[[X y] c] | e] s1] eqn:Eprep;
    [| discriminate].
  cbn [snd] in Heng.
  destruct (prepare_training_data_sets sk self s1 _ Eprep) as [Hl Hr].
  unfold bindM, lift, assign, raise, ret, read.
  destruct (train_test_split X y (2 # 10) 42) as [[[[Xtr Xte] ytr] yte] | e];
    [| discriminate].
  destruct (String.eqb model_type "random_forest") eqn:Ekind; [| discriminate].
  apply String.eqb_eq in Ekind.
  destruct (fit (RandomForestClassifier 100 42) Xtr ytr) as [fitted | e] eqn:Efit;
    [| discriminate].
  destruct (predict fitted (Table Xte)) as [y_pred | e] eqn:Epred;
    [| discriminate].
  destruct (classification_report yte y_pred _) as [rep' | e]; [| discriminate].
  intros H. inversion H; subst. clear H.
  split; [reflexivity |]. split; [reflexivity |]. split.
  - exists Xtr, Xte, ytr, yte, y_pred. repeat split; assumption.
  - repeat split; assumption.
Qed.

Lemma train_model_returns_what_it_stores_witness :
  exists m,
    model (snd (train_model "random_forest" SampleTrainer.trainer)) = Some m /\
    forall (U T : Type) (uf : U) (tf : T),
      predict_risk (snd (train_model "random_forest" SampleTrainer.trainer)) uf tf
      = predict m (Array1 [1; 0; 1]).
Proof.
  destruct (train_model "random_forest" SampleTrainer.trainer)
    as [[[[[accuracy rep] cm] m] | e] self'] eqn:E;
    [| vm_compute in E; discriminate E].
  destruct (train_model_returns_what_it_stores
              plain_sklearn "random_forest" SampleTrainer.trainer self'
              accuracy rep cm m E) as (_ & Hm & _ & _ & _ & _ & Hp).
  exists m. split; [exact Hm | exact Hp].
Defined.

(** X13. The forest is stored before it is fitted: when the data was
    prepared and split and the fit raises, training raises the same
    exception and the trainer is left with the partitions and an unfitted
    classifier, so that [predict_risk] calls its [predict] instead of raising
    "Model not trained yet.". *)
Theorem failed_fit_leaves_unfitted_classifier
    (sk : Sklearn) (self s1 : MLModel)
    (X_processed : DataFrame) (y_encoded : list nat)
    (cleaned : list (nat * RiskRow))
    (Xtr Xte : DataFrame) (ytr yte : list nat) (e : pyerr) :
  prepare_training_data self = (Ok (X_processed, y_encoded, cleaned), s1) ->
  train_test_split X_processed y_encoded (2 # 10) 42 = Ok (Xtr, Xte, ytr, yte) ->
  fit (RandomForestClassifier 100 42) Xtr ytr = Raise e ->
  let self' := snd (train_model "random_forest" self) in
  fst (train_model "random_forest" self) = Raise e /\
  model self' = Some (RandomForestClassifier 100 42) /\
  X_train self' = Some Xtr /\ y_train self' = Some ytr /\
  (forall (U T : Type) (uf : U) (tf : T),
      predict_risk self' uf tf
      = predict (RandomForestClassifier 100 42) (Array1 [1; 0; 1])).
Proof.
  intros Hprep Hsplit Hfit.
  assert (E : train_model "random_forest" self
              = (Raise e, set_model (RandomForestClassifier 100 42)
                            (set_partitions (Xtr, Xte, ytr, yte) s1))).
  { unfold train_model, bindM at 1. rewrite Hprep.
    unfold bindM, lift, assign. rewrite Hsplit. cbn [String.eqb].
    change (String.eqb "random_forest" "random_forest") with true.
    cbv iota. rewrite Hfit. reflexivity. }
  cbv zeta. rewrite E. repeat split.
Qed.

Lemma failed_fit_leaves_unfitted_classifier_witness :
  fst (@train_model failing_fit_sklearn "random_forest"
         (@MLModel_init failing_fit_sklearn SampleTrainer.engine))
    = Raise (ValueError "could not convert string to float") /\
  @model failing_fit_sklearn
    (snd (@train_model failing_fit_sklearn "random_forest"
            (@MLModel_init failing_fit_sklearn SampleTrainer.engine)))
    = Some O.
Proof.
  destruct (@prepare_training_data failing_fit_sklearn
              (@MLModel_init failing_fit_sklearn SampleTrainer.engine))
    as [[[[X y] c] | e] s1] eqn:Eprep; [| vm_compute in Eprep; discriminate Eprep].
  destruct (@train_test_split failing_fit_sklearn X y (2 # 10) 42)
    as [[[[Xtr Xte] ytr] yte] | e] eqn:Esplit.
  - destruct (failed_fit_leaves_unfitted_classifier
                failing_fit_sklearn
                (@MLModel_init failing_fit_sklearn SampleTrainer.engine) s1
                X y c Xtr Xte ytr yte
                (ValueError "could not convert string to float")
                Eprep Esplit eq_refl) as (Hr & Hm & _).
    split; [exact Hr | exact Hm].
  - exfalso. vm_compute in Eprep. inversion Eprep; subst.
    vm_compute in Esplit. discriminate Esplit.
Defined.

Lemma assess_risk_efficient_level users trends ingredient_risk u t level score :
  _assess_risk_efficient (RuleEngine_init users trends ingredient_risk) u t
  = Ok (level, score) ->
  In level risk_levels.
Proof.
  intros H.
  destruct (assess_risk_efficient_inv _ _ _ _ _ _ _ H)
    as (a & s & d & b & _ & _ & _ & _ & _ & ->).
  unfold risk_levels.
  destruct (3 <=? score); [simpl; tauto |].
  destruct (1 <=? score); simpl; tauto.
Qed.

(** On the three levels the sorted distinct labels are the levels present,
    in the order High, Medium, Safe. *)
Lemma sorted_unique_risk_levels (labels : list string) :
  Forall (fun s => In s risk_levels) labels ->
  sorted_unique labels = filter (fun c => PyStr.mem c labels) risk_levels.
Proof.
  induction 1 as [| x labels Hx _ IH]; [reflexivity |].
  unfold sorted_unique in *. cbn [fold_right]. rewrite IH. clear IH.
  unfold risk_levels, PyStr.mem in *. cbn [filter existsb].
  destruct Hx as [<- | [<- | [<- | []]]];
    destruct (existsb (String.eqb "High Risk") labels),
             (existsb (String.eqb "Medium Risk") labels),
             (existsb (String.eqb "Safe") labels); reflexivity.
Qed.

Lemma index_of_lt s classes :
  In s classes -> (index_of s classes < length classes)%nat.
Proof.
  induction classes as [| h classes IH]; simpl; [tauto |].
  destruct (String.eqb h s) eqn:E; [lia |].
  intros [-> | H]; [rewrite String.eqb_refl in E; discriminate |].
  apply IH in H. lia.
Qed.

(** X14. The label codes are not fixed: the classes of the encoder are the
    levels that occur among the rows kept, in the order "High Risk",
    "Medium Risk", "Safe", and a code is the position of the level among
    them, so that "Safe" is 2 only when both other levels occur.  Every code
    is below the number of classes. *)
Theorem label_classes_are_the_levels_present
    (sk : Sklearn) (users : list User) (trends : list Trend)
    (ingredient_risk : list IngredientRiskEntry)
    (self : MLModel) (risk_df : list RiskRow) :
  rule_engine self = RuleEngine_init users trends ingredient_risk ->
  generate_risk_matrix (rule_engine self) = Ok risk_df ->
  risk_df <> [] ->
  exists X_processed y_encoded cleaned self' classes,
    prepare_training_data self = (Ok (X_processed, y_encoded, cleaned), self') /\
    label_encoder self' = Some classes /\
    classes
    = filter (fun c => PyStr.mem c (map (fun ir => rRiskLevel (snd ir)) cleaned))
             risk_levels /\
    y_encoded
    = map (fun ir => index_of (rRiskLevel (snd ir)) classes) cleaned /\
    Forall (fun code => (code < length classes)%nat) y_encoded.
Proof.
  intros Heng Hgen Hne.
  rewrite (prepare_training_data_closed self risk_df Hgen Hne).
  set (kept := filter _ (range_index 0 risk_df)).
  set (labels := map (fun ir : nat * RiskRow => rRiskLevel (snd ir)) kept).
  assert (Hlv : Forall (fun s => In s risk_levels) labels).
  { apply Forall_forall. intros s Hs.
    apply in_map_iff in Hs as ([i r] & <- & Hin).
    apply filter_In in Hin as [Hin _].
    assert (Hr : In r risk_df).
    { rewrite <- (map_snd_range_index 0 risk_df).
      apply in_map_iff. exists (i, r). split; [reflexivity | exact Hin]. }
    rewrite Heng in Hgen.
    destruct (matrix_row_origin _ _ _ _ _ Hgen Hr) as (u & t & _ & _ & Ha & _).
    eapply assess_risk_efficient_level, Ha. }
  do 4 eexists. exists (fst (fit_transform labels)).
  split; [reflexivity |]. split; [reflexivity |].
  unfold fit_transform. cbn [fst snd]. split; [| split].
  - apply sorted_unique_risk_levels, Hlv.
  - unfold labels. rewrite map_map. reflexivity.
  - apply Forall_forall. intros code Hc.
    apply in_map_iff in Hc as (s & <- & Hs).
    apply index_of_lt, sorted_unique_In, Hs.
Qed.

Lemma label_classes_are_the_levels_present_witness :
  exists X_processed y_encoded cleaned self' classes,
    prepare_training_data SampleTrainer.trainer
      = (Ok (X_processed, y_encoded, cleaned), self') /\
    label_encoder self' = Some classes /\
    classes
    = filter (fun c => PyStr.mem c (map (fun ir => rRiskLevel (snd ir)) cleaned))
             risk_levels /\
    y_encoded
    = map (fun ir => index_of (rRiskLevel (snd ir)) classes) cleaned /\
    Forall (fun code => (code < length classes)%nat) y_encoded.
Proof.
  apply (label_classes_are_the_levels_present
           plain_sklearn
           [Sample.alice; Sample.bob; SampleTrainer.carol; SampleTrainer.dave]
           [Sample.nut_peel; Sample.detox_tea] Sample.ingredient_risk
           SampleTrainer.trainer SampleTrainer.matrix).
  - reflexivity.
  - reflexivity.
  - discriminate.
Defined.

(** ** Indicator columns *)

Lemma append_eqb p a b :
  String.eqb (p ++ a)%string (p ++ b)%string = String.eqb a b.
Proof.
  induction p as [| c p IH]; simpl; [reflexivity |].
  rewrite Ascii.eqb_refl. exact IH.
Qed.

Lemma col_pos_dummy prefix s levels :
  col_pos (prefix ++ "_" ++ s)%string (dummy_names prefix levels)
  = col_pos s levels.
Proof.
  unfold dummy_names. induction levels as [| l levels IH]; cbn [map col_pos];
    [reflexivity |].
  rewrite !append_eqb, IH. reflexivity.
Qed.

Lemma col_pos_index_of s levels :
  In s levels -> col_pos s levels = Some (index_of s levels).
Proof.
  induction levels as [| l levels IH]; simpl; [tauto |].
  destruct (String.eqb l s) eqn:E; [reflexivity |].
  intros [-> | H]; [rewrite String.eqb_refl in E; discriminate |].
  rewrite (IH H). reflexivity.
Qed.

Lemma col_pos_absent s levels : ~ In s levels -> col_pos s levels = None.
Proof.
  induction levels as [| l levels IH]; simpl; [reflexivity |].
  intros H. destruct (String.eqb l s) eqn:E.
  - apply String.eqb_eq in E. tauto.
  - rewrite IH by tauto. reflexivity.
Qed.

Lemma col_pos_app_right c l1 l2 :
  col_pos c l1 = None ->
  col_pos c (l1 ++ l2) = option_map (Nat.add (length l1)) (col_pos c l2).
Proof.
  induction l1 as [| h l1 IH]; simpl; intros H.
  - destruct (col_pos c l2); reflexivity.
  - destruct (String.eqb h c); [discriminate |].
    destruct (col_pos c l1); [discriminate |].
    rewrite (IH eq_refl). destruct (col_pos c l2); reflexivity.
Qed.

Lemma col_pos_app_left c l1 l2 p :
  col_pos c l1 = Some p -> col_pos c (l1 ++ l2) = Some p.
Proof.
  revert p. induction l1 as [| h l1 IH]; simpl; intros p H; [discriminate |].
  destruct (String.eqb h c); [exact H |].
  destruct (col_pos c l1) as [q |]; [| discriminate].
  rewrite (IH q eq_refl). exact H.
Qed.

Lemma indicators_length levels v : length (indicators levels v) = length levels.
Proof. unfold indicators. apply length_map. Qed.

Lemma nth_indicators levels (c : cell) s :
  In s levels ->
  nth (index_of s levels) (indicators levels (VCell c)) (VCell CNaN)
  = VBool (cell_eqb c (CStr s)).
Proof.
  intros Hs. unfold indicators.
  rewrite (nth_indep _ (VCell CNaN)
             (VBool (match VCell c with
                     | VCell (CStr x) => String.eqb x ""
                     | _ => false
                     end)))
    by (rewrite length_map; apply index_of_lt, Hs).
  rewrite (map_nth (fun l => VBool (match VCell c with
                                    | VCell (CStr x) => String.eqb x l
                                    | _ => false
                                    end))).
  fold (inverse_label levels (index_of s levels)).
  rewrite (inverse_label_index_of levels s Hs).
  destruct c; reflexivity.
Qed.

Lemma levels_of_In (field : RiskRow -> cell) risk_df s :
  In s (levels_of field risk_df) <->
  exists r, In r risk_df /\ field r = CStr s.
Proof.
  unfold levels_of. rewrite sorted_unique_In.
  induction risk_df as [| r0 rest IH]; simpl.
  - split; [tauto | intros (r & [] & _)].
  - destruct (field r0) as [x |] eqn:E; simpl.
    + rewrite IH. split.
      * intros [<- | (r & Hr & Er)]; [exists r0; auto | exists r; auto].
      * intros (r & [<- | Hr] & Er); [left; congruence | right; eauto].
    + rewrite IH. split.
      * intros (r & Hr & Er). eauto.
      * intros (r & [<- | Hr] & Er); [congruence | eauto].
Qed.

Lemma processed_values_length skin trend r :
  length (processed_values skin trend r)
  = length (processed_columns skin trend).
Proof.
  unfold processed_values, processed_columns, dummy_names.
  cbn [app length]. rewrite !length_app, !indicators_length, !length_map.
  reflexivity.
Qed.

Lemma processed_skin_position skin trend s :
  col_pos ("SkinType_" ++ s)%string (processed_columns skin trend)
  = option_map (Nat.add 2) (col_pos s skin).
Proof.
  change ("SkinType_" ++ s)%string with ("SkinType" ++ "_" ++ s)%string.
  unfold processed_columns. cbn [app].
  change (col_pos ("SkinType" ++ "_" ++ s)%string
            ("Age" :: "BMI" :: (dummy_names "SkinType" skin
                                ++ dummy_names "TrendType" trend)
                               ++ ["HasAllergies"]))
    with (option_map S (option_map S
            (col_pos ("SkinType" ++ "_" ++ s)%string
               ((dummy_names "SkinType" skin ++ dummy_names "TrendType" trend)
                ++ ["HasAllergies"])))).
  destruct (col_pos s skin) as [p |] eqn:E.
  - rewrite (col_pos_app_left _ _ _ p); [reflexivity |].
    apply col_pos_app_left. rewrite col_pos_dummy. exact E.
  - rewrite col_pos_app_none; [reflexivity | | reflexivity].
    apply col_pos_app_none; [rewrite col_pos_dummy; exact E |].
    apply col_pos_dummy_names. reflexivity.
Qed.

Lemma processed_trend_position skin trend s :
  col_pos ("TrendType_" ++ s)%string (processed_columns skin trend)
  = option_map (fun p => 2 + (length skin + p))%nat (col_pos s trend).
Proof.
  change ("TrendType_" ++ s)%string with ("TrendType" ++ "_" ++ s)%string.
  unfold processed_columns. cbn [app].
  change (col_pos ("TrendType" ++ "_" ++ s)%string
            ("Age" :: "BMI" :: (dummy_names "SkinType" skin
                                ++ dummy_names "TrendType" trend)
                               ++ ["HasAllergies"]))
    with (option_map S (option_map S
            (col_pos ("TrendType" ++ "_" ++ s)%string
               ((dummy_names "SkinType" skin ++ dummy_names "TrendType" trend)
                ++ ["HasAllergies"])))).
  assert (Hskin : col_pos ("TrendType" ++ "_" ++ s)%string
                    (dummy_names "SkinType" skin) = None)
    by (apply col_pos_dummy_names; reflexivity).
  assert (Hboth : col_pos ("TrendType" ++ "_" ++ s)%string
                    (dummy_names "SkinType" skin ++ dummy_names "TrendType" trend)
                  = option_map (Nat.add (length skin)) (col_pos s trend)).
  { rewrite (col_pos_app_right _ _ _ Hskin), col_pos_dummy.
    unfold dummy_names. rewrite length_map. reflexivity. }
  destruct (col_pos s trend) as [p |] eqn:E; cbn [option_map] in Hboth |- *.
  - rewrite (col_pos_app_left _ _ _ _ Hboth). reflexivity.
  - rewrite col_pos_app_none; [reflexivity | exact Hboth | reflexivity].
Qed.

(** X15. The indicator columns are one-hot columns fitted on the batch: the
    processed table has a column [SkinType_s] exactly for the skin types [s]
    that occur in the batch, and in it each row holds whether its own skin
    type is [s] (false when it is missing); likewise [TrendType_s].  Every
    row has one value per column. *)
Theorem indicator_columns_mark_the_level
    (risk_df : list RiskRow) (s : string) :
  exists X_processed,
    _preprocess_features (feature_frame risk_df) = Ok X_processed /\
    get_column X_processed ("SkinType_" ++ s)%string
    = (if PyStr.mem s (text_of (map (fun r => VCell (rSkinType r)) risk_df))
       then Ok (range_index 0
                  (map (fun r => VBool (cell_eqb (rSkinType r) (CStr s)))
                       risk_df))
       else Raise KeyError) /\
    get_column X_processed ("TrendType_" ++ s)%string
    = (if PyStr.mem s (text_of (map (fun r => VCell (rTrendType r)) risk_df))
       then Ok (range_index 0
                  (map (fun r => VBool (cell_eqb (rTrendType r) (CStr s)))
                       risk_df))
       else Raise KeyError) /\
    Forall (fun row => length (snd row) = length (columns X_processed))
           (rows X_processed).
Proof.
  set (skin := levels_of rSkinType risk_df).
  set (trend := levels_of rTrendType risk_df).
  exists (mkDF (processed_columns skin trend)
               (range_index 0 (map (processed_values skin trend) risk_df))).
  split; [apply preprocess_features_closed |].
  assert (Hmem : forall field,
             PyStr.mem s (text_of (map (fun r => VCell (field r)) risk_df)) = true
             <-> In s (levels_of field risk_df)).
  { intros field. unfold levels_of, PyStr.mem.
    rewrite sorted_unique_In, existsb_exists. split.
    - intros (x & Hx & E). apply String.eqb_eq in E. congruence.
    - intros H. exists s. split; [exact H | apply String.eqb_refl]. }
  split; [| split].
  - destruct (PyStr.mem s _) eqn:E.
    + apply Hmem in E. fold skin in E.
      rewrite (get_column_closed _ _ _ _ _ (2 + index_of s skin));
        [| rewrite processed_skin_position, (col_pos_index_of s skin E);
           reflexivity].
      f_equal. f_equal. apply map_ext. intros r.
      unfold processed_values. cbn [plus nth].
      rewrite !app_nth1
        by (rewrite ?length_app, !indicators_length;
            pose proof (index_of_lt s skin E); lia).
      apply nth_indicators, E.
    + assert (Hn : ~ In s skin).
      { intros H. apply (Hmem rSkinType) in H. congruence. }
      unfold get_column. cbn [columns].
      rewrite processed_skin_position, (col_pos_absent s skin Hn). reflexivity.
  - destruct (PyStr.mem s _) eqn:E.
    + apply Hmem in E. fold trend in E.
      rewrite (get_column_closed _ _ _ _ _
                 (2 + (length skin + index_of s trend)));
        [| rewrite processed_trend_position, (col_pos_index_of s trend E);
           reflexivity].
      f_equal. f_equal. apply map_ext. intros r.
      unfold processed_values. cbn [plus nth].
      rewrite app_nth1
        by (rewrite length_app, !indicators_length;
            pose proof (index_of_lt s trend E); lia).
      rewrite app_nth2 by (rewrite indicators_length; lia).
      rewrite indicators_length.
      replace (length skin + index_of s trend - length skin)%nat
        with (index_of s trend) by lia.
      apply nth_indicators, E.
    + assert (Hn : ~ In s trend).
      { intros H. apply (Hmem rTrendType) in H. congruence. }
      unfold get_column. cbn [columns].
      rewrite processed_trend_position, (col_pos_absent s trend Hn). reflexivity.
  - cbn [rows columns]. apply Forall_forall. intros row Hrow.
    rewrite <- (map_range_index (processed_values skin trend)) in Hrow.
    apply in_map_iff in Hrow as ([i r] & <- & _). cbn [snd].
    apply processed_values_length.
Qed.

(** ** Levels do not depend on the order of the rows *)

Lemma insert_level_sorted x l :
  StronglySorted OrderedTypeEx.String_as_OT.lt l ->
  StronglySorted OrderedTypeEx.String_as_OT.lt (insert_level x l).
Proof.
  induction 1 as [| h t Hs IH Hh]; simpl.
  - constructor; constructor.
  - destruct (String.compare x h) eqn:E.
    + constructor; assumption.
    + apply OrderedTypeEx.String_as_OT.cmp_lt in E.
      constructor; [constructor; assumption |].
      constructor; [exact E |].
      rewrite Forall_forall in Hh |- *. intros y Hy.
      eapply OrderedTypeEx.String_as_OT.lt_trans; [exact E | apply Hh, Hy].
    + assert (Hlt : OrderedTypeEx.String_as_OT.lt h x).
      { apply OrderedTypeEx.String_as_OT.cmp_lt.
        rewrite OrderedTypeEx.String_as_OT.cmp_antisym.
        unfold OrderedTypeEx.String_as_OT.cmp. rewrite E. reflexivity. }
      constructor; [exact IH |].
      rewrite Forall_forall in Hh |- *. intros y Hy.
      apply insert_level_In in Hy as [-> | Hy]; [exact Hlt | apply Hh, Hy].
Qed.

Lemma sorted_unique_sorted l :
  StronglySorted OrderedTypeEx.String_as_OT.lt (sorted_unique l).
Proof.
  unfold sorted_unique. induction l as [| x l IH]; simpl.
  - constructor.
  - apply insert_level_sorted, IH.
Qed.

Lemma sorted_lists_equal l1 l2 :
  StronglySorted OrderedTypeEx.String_as_OT.lt l1 ->
  StronglySorted OrderedTypeEx.String_as_OT.lt l2 ->
  (forall x, In x l1 <-> In x l2) ->
  l1 = l2.
Proof.
  intros H1. revert l2. induction H1 as [| a t1 Hs1 IH Ha]; intros l2 H2 Hin.
  - destruct l2 as [| b t2]; [reflexivity |].
    exfalso. apply (Hin b). left. reflexivity.
  - destruct H2 as [| b t2 Hs2 Hb].
    + exfalso. apply (Hin a). left. reflexivity.
    + rewrite Forall_forall in Ha, Hb.
      assert (Eab : a = b).
      { destruct (proj1 (Hin a) (or_introl eq_refl)) as [E | Hat2]; [congruence |].
        destruct (proj2 (Hin b) (or_introl eq_refl)) as [E | Hbt1]; [congruence |].
        exfalso.
        apply (OrderedTypeEx.String_as_OT.lt_not_eq a a); [| reflexivity].
        eapply OrderedTypeEx.String_as_OT.lt_trans; [apply Ha, Hbt1 | apply Hb, Hat2]. }
      subst b. f_equal. apply IH; [exact Hs2 |].
      intros x. split; intros Hx.
      * destruct (proj1 (Hin x) (or_intror Hx)) as [E | H]; [| exact H].
        exfalso. subst x.
        apply (OrderedTypeEx.String_as_OT.lt_not_eq a a (Ha a Hx)). reflexivity.
      * destruct (proj2 (Hin x) (or_intror Hx)) as [E | H]; [| exact H].
        exfalso. subst x.
        apply (OrderedTypeEx.String_as_OT.lt_not_eq a a (Hb a Hx)). reflexivity.
Qed.

Lemma levels_of_Permutation (field : RiskRow -> cell) l l' :
  Permutation l l' -> levels_of field l = levels_of field l'.
Proof.
  intros Hp. apply sorted_lists_equal; try apply sorted_unique_sorted.
  intros s. fold (levels_of field l). fold (levels_of field l').
  rewrite !levels_of_In. split; intros (r & Hr & E); exists r; split; auto.
  - eapply Permutation_in; eassumption.
  - eapply Permutation_in; [apply Permutation_sym |]; eassumption.
Qed.

Lemma Permutation_filter_rows {A} (p : A -> bool) l l' :
  Permutation l l' -> Permutation (filter p l) (filter p l').
Proof.
  induction 1 as [| x l l' _ IH | x y l | l l' l'' _ IH1 _ IH2]; cbn [filter].
  - constructor.
  - destruct (p x); [constructor |]; exact IH.
  - destruct (p x), (p y); try apply Permutation_refl.
    apply perm_swap.
  - eapply Permutation_trans; eassumption.
Qed.

Lemma kept_rows_closed {A} (p : A -> bool) i (l : list A) :
  map snd (filter (fun ir => p (snd ir)) (range_index i l)) = filter p l.
Proof.
  revert i. induction l as [| x l IH]; intros i; [reflexivity |].
  cbn [range_index filter snd]. destruct (p x); cbn [map snd]; rewrite IH;
    reflexivity.
Qed.

(** X16. Training-data preparation does not depend on the order of the rows
    of the matrix.  Two matrices with the same rows in another order get the
    same feature columns, in the same order, the levels being sorted, and the
    same processed rows up to that reordering, before the incomplete rows
    are dropped and after; the rows kept are the same up to the reordering,
    and the label encoder, which is fitted on the labels of the rows kept,
    gets the same classes. *)
Theorem feature_derivation_ignores_row_order
    (sk : Sklearn) (self self' : MLModel) (risk_df risk_df' : list RiskRow) :
  generate_risk_matrix (rule_engine self) = Ok risk_df ->
  generate_risk_matrix (rule_engine self') = Ok risk_df' ->
  risk_df <> [] ->
  Permutation risk_df risk_df' ->
  (exists F F',
      _preprocess_features (feature_frame risk_df) = Ok F /\
      _preprocess_features (feature_frame risk_df') = Ok F' /\
      columns F = columns F' /\
      Permutation (map snd (rows F)) (map snd (rows F'))) /\
  (exists X y cleaned s1 X' y' cleaned' s1' classes,
      prepare_training_data self = (Ok (X, y, cleaned), s1) /\
      prepare_training_data self' = (Ok (X', y', cleaned'), s1') /\
      columns X = columns X' /\
      Permutation (map snd (rows X)) (map snd (rows X')) /\
      Permutation (map snd cleaned) (map snd cleaned') /\
      label_encoder s1 = Some classes /\
      label_encoder s1' = Some classes /\
      classes = fst (fit_transform (map rRiskLevel (map snd cleaned)))).
Proof.
  intros Hgen Hgen' Hne Hp.
  assert (Hne' : risk_df' <> []).
  { intros ->. apply Permutation_sym, Permutation_nil in Hp. congruence. }
  pose proof (levels_of_Permutation rSkinType _ _ Hp) as Es.
  pose proof (levels_of_Permutation rTrendType _ _ Hp) as Et.
  split.
  - do 2 eexists.
    split; [apply preprocess_features_closed |].
    split; [apply preprocess_features_closed |].
    cbn [columns rows]. rewrite <- Es, <- Et.
    split; [reflexivity |].
    rewrite !map_snd_range_index. apply Permutation_map, Hp.
  - rewrite (prepare_training_data_closed self risk_df Hgen Hne).
    rewrite (prepare_training_data_closed self' risk_df' Hgen' Hne').
    rewrite <- Es, <- Et.
    set (skin := levels_of rSkinType risk_df).
    set (trend := levels_of rTrendType risk_df).
    set (kept := filter (fun ir => negb (incomplete (snd ir)))
                        (range_index 0 risk_df)).
    set (kept' := filter (fun ir => negb (incomplete (snd ir)))
                         (range_index 0 risk_df')).
    assert (Hk : Permutation (map snd kept) (map snd kept')).
    { unfold kept, kept'.
      rewrite !(kept_rows_closed (fun r => negb (incomplete r))).
      apply Permutation_filter_rows, Hp. }
    assert (Hl : forall k : list (nat * RiskRow),
               map (fun ir => rRiskLevel (snd ir)) k
               = map rRiskLevel (map snd k))
      by (intros k; rewrite map_map; reflexivity).
    do 8 eexists. exists (fst (fit_transform (map rRiskLevel (map snd kept)))).
    split; [reflexivity |]. split; [reflexivity |].
    cbn [columns rows]. split; [reflexivity |].
    split; [| split; [exact Hk |]].
    + rewrite !map_map. cbn [snd].
      rewrite <- !(map_map snd (processed_values skin trend)).
      apply Permutation_map, Hk.
    + unfold set_risk_df_cleaned, set_label_encoder. cbn [label_encoder].
      rewrite !Hl.
      split; [reflexivity |]. split; [| reflexivity].
      f_equal. unfold fit_transform. cbn [fst].
      apply sorted_lists_equal; try apply sorted_unique_sorted.
      intros lv. rewrite !sorted_unique_In. split; apply Permutation_in.
      * apply Permutation_map, Permutation_sym, Hk.
      * apply Permutation_map, Hk.
Qed.

Lemma feature_derivation_ignores_row_order_witness :
  exists X y cleaned s1 X' y' cleaned' s1',
    prepare_training_data SampleOrder.trainer
      = (Ok (X, y, cleaned), s1) /\
    prepare_training_data SampleOrder.trainer'
      = (Ok (X', y', cleaned'), s1') /\
    columns X = columns X' /\
    Permutation (map snd (rows X)) (map snd (rows X')) /\
    label_encoder s1 = Some ["High Risk"] /\
    label_encoder s1' = Some ["High Risk"].
Proof.
  destruct (feature_derivation_ignores_row_order
              plain_sklearn
              SampleOrder.trainer SampleOrder.trainer'
              SampleOrder.matrix SampleOrder.matrix')
    as (_ & X & y & cleaned & s1 & X' & y' & cleaned' & s1' & classes
          & E & E' & Hc & Hr & _ & Hl & Hl' & Hcl).
  - reflexivity.
  - reflexivity.
  - discriminate.
  - apply perm_swap.
  - exists X, y, cleaned, s1, X', y', cleaned', s1'.
    split; [exact E |]. split; [exact E' |].
    split; [exact Hc |]. split; [exact Hr |].
    assert (Ecl : classes = ["High Risk"]).
    { rewrite Hcl.
      assert (K : fst (prepare_training_data SampleOrder.trainer)
                  = Ok (X, y, cleaned)) by (rewrite E; reflexivity).
      vm_compute in K. inversion K. reflexivity. }
    rewrite Hl, Hl', Ecl. split; reflexivity.
Defined.

(** ** The dashboard *)

Lemma matrix_levels users trends ingredient_risk matrix :
  generate_risk_matrix (RuleEngine_init users trends ingredient_risk) = Ok matrix ->
  Forall (fun r => In (rRiskLevel r) risk_levels) matrix.
Proof.
  intros Hm. apply Forall_forall. intros r Hr.
  destruct (matrix_row_origin _ _ _ _ _ Hm Hr) as (u & t & _ & _ & Ha & _).
  eapply assess_risk_efficient_level, Ha.
Qed.

Lemma level_counts_add_up (df : list RiskRow) :
  Forall (fun r => In (rRiskLevel r) risk_levels) df ->
  (length (rows_with_level df "Safe")
   + length (rows_with_level df "Medium Risk")
   + length (rows_with_level df "High Risk") = length df)%nat.
Proof.
  unfold rows_with_level.
  induction 1 as [| r df Hr _ IH]; [reflexivity |].
  cbn [filter]. unfold risk_levels in Hr.
  destruct Hr as [<- | [<- | [<- | []]]]; cbn [String.eqb Ascii.eqb Bool.eqb];
    cbn [length]; lia.
Qed.

(** X17. The three figures of the dashboard add up: on a matrix returned by
    the engine, the numbers of "Safe", "Medium Risk" and "High Risk" rows sum
    to the total number of assessments, which is [|Users| * |Trends|]. *)
Theorem dashboard_counts_add_up
    (users : list User) (trends : list Trend)
    (ingredient_risk : list IngredientRiskEntry) (risk_df : list RiskRow) :
  generate_risk_matrix (RuleEngine_init users trends ingredient_risk)
  = Ok risk_df ->
  (safe_count risk_df + medium_risk_count risk_df + high_risk_count risk_df
   = total_assessments risk_df)%nat /\
  total_assessments risk_df = (length users * length trends)%nat.
Proof.
  intros Hm. split.
  - apply level_counts_add_up. eapply matrix_levels, Hm.
  - unfold total_assessments. rewrite generate_risk_matrix_mapM in Hm.
    rewrite (mapM_length _ _ _ Hm). apply length_prod.
Qed.

Lemma dashboard_counts_add_up_witness :
  (safe_count Sample.matrix + medium_risk_count Sample.matrix
   + high_risk_count Sample.matrix = total_assessments Sample.matrix)%nat /\
  total_assessments Sample.matrix = (2 * 3)%nat.
Proof.
  apply (dashboard_counts_add_up
           [Sample.alice; Sample.bob]
           [Sample.nut_peel; Sample.detox_tea; Sample.water]
           Sample.ingredient_risk Sample.matrix).
  reflexivity.
Defined.

Lemma filter_Forall {A} (P : A -> Prop) (p : A -> bool) l :
  Forall P l -> Forall P (filter p l).
Proof.
  rewrite !Forall_forall. intros H x Hx. apply filter_In in Hx. apply H, Hx.
Qed.

Lemma rows_with_level_twice df a b :
  rows_with_level (rows_with_level df a) b
  = if String.eqb a b then rows_with_level df a else [].
Proof.
  unfold rows_with_level. induction df as [| r df IH]; simpl.
  - destruct (String.eqb a b); reflexivity.
  - destruct (String.eqb (rRiskLevel r) a) eqn:Ea; simpl.
    + apply String.eqb_eq in Ea. rewrite Ea, IH.
      destruct (String.eqb a b); reflexivity.
    + exact IH.
Qed.

(** X18. The three tabs split the rows that passed the filters: on a matrix
    returned by the engine every such row is in exactly one tab, so the tab
    sizes add up to the number of rows; and when a level is selected the tab
    of that level holds all of them and the two other tabs are empty. *)
Theorem tabs_split_the_filtered_rows
    (users : list User) (trends : list Trend)
    (ingredient_risk : list IngredientRiskEntry) (risk_df : list RiskRow)
    (selected_user selected_type : cell) (selected_risk : string) :
  generate_risk_matrix (RuleEngine_init users trends ingredient_risk)
  = Ok risk_df ->
  let shown := user_risk_df risk_df selected_user selected_type selected_risk in
  (length (safe_trends shown) + length (medium_trends shown)
   + length (high_trends shown) = length shown)%nat /\
  (In selected_risk risk_levels ->
   rows_with_level shown selected_risk = shown /\
   forall level, level <> selected_risk -> rows_with_level shown level = []).
Proof.
  intros Hm shown.
  assert (Hlv : Forall (fun r => In (rRiskLevel r) risk_levels) shown).
  { unfold shown, user_risk_df, rows_with_level.
    destruct (negb (cell_is selected_type "All")),
             (negb (String.eqb selected_risk "All"));
      repeat apply filter_Forall; eapply matrix_levels, Hm. }
  split; [apply level_counts_add_up, Hlv |].
  intros Hsel.
  assert (Hall : String.eqb selected_risk "All" = false).
  { unfold risk_levels in Hsel.
    destruct Hsel as [<- | [<- | [<- | []]]]; reflexivity. }
  unfold shown, user_risk_df. rewrite Hall. cbn [negb]. split.
  - rewrite rows_with_level_twice, String.eqb_refl. reflexivity.
  - intros level Hne. rewrite rows_with_level_twice.
    destruct (String.eqb selected_risk level) eqn:E; [| reflexivity].
    apply String.eqb_eq in E. congruence.
Qed.

Lemma tabs_split_the_filtered_rows_witness :
  rows_with_level
    (user_risk_df Sample.matrix (CStr "U002") (CStr "All") "Medium Risk")
    "Medium Risk"
  = user_risk_df Sample.matrix (CStr "U002") (CStr "All") "Medium Risk" /\
  forall level, level <> "Medium Risk" ->
    rows_with_level
      (user_risk_df Sample.matrix (CStr "U002") (CStr "All") "Medium Risk")
      level = [].
Proof.
  apply (tabs_split_the_filtered_rows
           [Sample.alice; Sample.bob]
           [Sample.nut_peel; Sample.detox_tea; Sample.water]
           Sample.ingredient_risk Sample.matrix
           (CStr "U002") (CStr "All") "Medium Risk").
  - reflexivity.
  - simpl. tauto.
Defined.

Lemma mapM_filter {A B} (f : A -> result B) (p : A -> bool) (q : B -> bool)
    l out :
  (forall x y, f x = Ok y -> q y = p x) ->
  mapM f l = Ok out ->
  mapM f (filter p l) = Ok (filter q out).
Proof.
  intros Hpq. revert out. induction l as [| x l IH]; intros out H.
  - inversion H. reflexivity.
  - simpl in H. destruct (f x) as [y | e] eqn:Ef; simpl in H; [| discriminate].
    destruct (mapM f l) as [ys | e]; simpl in H; [| discriminate].
    inversion H; subst out. simpl. rewrite (Hpq x y Ef).
    destruct (p x); simpl; rewrite ?Ef, (IH ys eq_refl); reflexivity.
Qed.

Lemma filter_list_prod_fst {A B} (pa : A -> bool) (l : list A) (l' : list B) :
  filter (fun p => pa (fst p)) (list_prod l l') = list_prod (filter pa l) l'.
Proof.
  induction l as [| a l IH]; simpl; [reflexivity |].
  rewrite filter_app, IH.
  assert (E : filter (fun p => pa (fst p)) (map (fun y => (a, y)) l')
              = if pa a then map (fun y => (a, y)) l' else []).
  { clear IH. induction l' as [| b l' IH']; simpl.
    - destruct (pa a); reflexivity.
    - rewrite IH'. destruct (pa a); reflexivity. }
  rewrite E. destruct (pa a); reflexivity.
Qed.

Lemma map_snd_list_prod_flat {A B C} (g : B -> C) (l : list A) (l' : list B) :
  map (fun p => g (snd p)) (list_prod l l') = flat_map (fun _ => map g l') l.
Proof.
  induction l as [| a l IH]; simpl; [reflexivity |].
  rewrite map_app, map_map, IH. reflexivity.
Qed.

Lemma filter_unique_key (users : list User) (u : User) (uid : cell) :
  NoDup (map UserID users) -> In u users -> cell_eqb (UserID u) uid = true ->
  filter (fun x => cell_eqb (UserID x) uid) users = [u].
Proof.
  intros Hnd Hin Hu. induction users as [| a rest IH]; [destruct Hin |].
  cbn [map] in Hnd. inversion Hnd as [| ? ? Hnotin Hnd']; subst.
  cbn [filter]. destruct Hin as [-> | Hin].
  - rewrite Hu. f_equal.
    assert (Hnone : forall x, In x rest -> cell_eqb (UserID x) uid = false).
    { intros x Hx. destruct (cell_eqb (UserID x) uid) eqn:E; [| reflexivity].
      exfalso. apply Hnotin. apply cell_eqb_eq in E, Hu.
      rewrite Hu, <- E. apply in_map, Hx. }
    clear -Hnone. induction rest as [| b rest IH]; [reflexivity |].
    cbn [filter]. rewrite (Hnone b (or_introl eq_refl)).
    apply IH. intros x Hx. apply Hnone. right. exact Hx.
  - destruct (cell_eqb (UserID a) uid) eqn:E.
    + exfalso. apply Hnotin. apply cell_eqb_eq in E, Hu.
      rewrite E, <- Hu. apply in_map, Hin.
    + apply IH; assumption.
Qed.

(** X19. With no filter on type or level, the rows shown for a user are the
    rows of every user record under the selected key against every trend, in
    table order; when the user keys are unique and the key occurs, that is
    each trend exactly once, in the order of the trends table. *)
Theorem user_rows_cover_every_trend
    (users : list User) (trends : list Trend)
    (ingredient_risk : list IngredientRiskEntry) (risk_df : list RiskRow)
    (selected_user : cell) :
  generate_risk_matrix (RuleEngine_init users trends ingredient_risk)
  = Ok risk_df ->
  let shown := user_risk_df risk_df selected_user (CStr "All") "All" in
  map rTrendName shown
  = flat_map (fun _ => map TrendName trends)
             (filter (fun u => cell_eqb (UserID u) selected_user) users) /\
  Forall (fun r => cell_eqb (rUserID r) selected_user = true) shown /\
  (NoDup (map UserID users) ->
   existsb (fun u => cell_eqb (UserID u) selected_user) users = true ->
   map rTrendName shown = map TrendName trends).
Proof.
  intros Hm shown.
  assert (Eshown : shown
                   = filter (fun r => cell_eqb (rUserID r) selected_user) risk_df)
    by reflexivity.
  rewrite generate_risk_matrix_mapM in Hm.
  pose proof (mapM_filter _
                (fun p => cell_eqb (UserID (fst p)) selected_user)
                (fun r => cell_eqb (rUserID r) selected_user) _ _
                (fun p r (Hr : pair_row _ p = Ok r) =>
                   match pair_row_inv users trends ingredient_risk p r Hr with
                   | conj _ Hrow =>
                       eq_ind_r (fun r' => cell_eqb (rUserID r') selected_user = _)
                                eq_refl Hrow
                   end)
                Hm) as Hf.
  rewrite (filter_list_prod_fst (fun u => cell_eqb (UserID u) selected_user))
    in Hf.
  rewrite <- Eshown in Hf.
  assert (Hnames : map rTrendName shown
                   = flat_map (fun _ => map TrendName trends)
                       (filter (fun u => cell_eqb (UserID u) selected_user) users)).
  { rewrite <- map_snd_list_prod_flat. eapply mapM_map; [| exact Hf].
    intros p r Hr.
    apply (pair_row_inv users trends ingredient_risk) in Hr as [_ ->].
    reflexivity. }
  split; [exact Hnames |]. split.
  - rewrite Eshown. apply Forall_forall. intros r Hr.
    apply filter_In in Hr. tauto.
  - intros Hnd Hex. rewrite Hnames.
    apply existsb_exists in Hex as (u & Hu & Hk).
    rewrite (filter_unique_key users u selected_user Hnd Hu Hk).
    cbn [flat_map]. apply app_nil_r.
Qed.

Lemma user_rows_cover_every_trend_witness :
  map rTrendName (user_risk_df Sample.matrix (CStr "U002") (CStr "All") "All")
  = [CStr "Nut Acid Peel"; CStr "Detox Tea"; CStr "Water"].
Proof.
  destruct (user_rows_cover_every_trend
              [Sample.alice; Sample.bob]
              [Sample.nut_peel; Sample.detox_tea; Sample.water]
              Sample.ingredient_risk Sample.matrix (CStr "U002") eq_refl)
    as (_ & _ & H).
  apply H.
  - repeat constructor; simpl; intuition discriminate.
  - reflexivity.
Defined.

(** ** Ingredient names and allergy lists *)

Lemma split_not_nil sep s : PyStr.split sep s <> [].
Proof.
  destruct s as [| c s]; simpl; [discriminate |].
  destruct (Ascii.eqb c sep); [discriminate |].
  destruct (PyStr.split sep s); discriminate.
Qed.

Lemma lower_names_are_tokens (x : cell) :
  map PyStr.lower
      (filter (fun name => negb (String.eqb name ""))
              (map PyStr.strip (PyStr.split "," (py_str x))))
  = tokens x.
Proof.
  unfold tokens. rewrite filter_map_swap, map_map.
  f_equal. apply filter_ext. intros a.
  destruct (PyStr.strip a); reflexivity.
Qed.

(** X20. The ingredient analysis and the rule engine read an ingredient text
    alike up to letter case: the names the analysis counts for a row, once
    lowered, are exactly the tokens the engine compares, in the same order.
    The analysis has no ingredient row exactly when no row of the matrix has
    a token. *)
Theorem ingredient_names_are_the_tokens (risk_df : list RiskRow) :
  (forall x, map PyStr.lower (ingredient_names x) = tokens x) /\
  (ingredient_df risk_df = [] <->
   forall r, In r risk_df -> tokens (rKeyIngredients r) = []).
Proof.
  split; [intros x; apply lower_names_are_tokens |].
  assert (Hone : forall x, ingredient_names x = [] <-> tokens x = []).
  { intros x. rewrite <- lower_names_are_tokens. fold (ingredient_names x).
    destruct (ingredient_names x); simpl; split; congruence. }
  unfold ingredient_df. induction risk_df as [| r rest IH]; simpl.
  - split; [intros _ r [] | reflexivity].
  - split.
    + intros H. apply app_eq_nil in H as [H1 H2].
      intros r' [<- | Hr'].
      * apply Hone. destruct (ingredient_names (rKeyIngredients r));
          [reflexivity | discriminate].
      * apply IH; assumption.
    + intros H.
      rewrite (proj2 (Hone (rKeyIngredients r)) (H r (or_introl eq_refl))).
      simpl. apply IH. intros r' Hr'. apply H. right. exact Hr'.
Qed.

(** X21. The allergy list of the preprocessor is empty exactly when the
    entry, lowered and trimmed, reads "none" or "nan" (a missing entry does);
    otherwise it has at least one element.  It is empty whenever the
    trainer's HasAllergies flag is 0, and when it is not empty its non-blank
    elements, lowered, are the tokens of the rule engine. *)
Theorem allergy_list_and_the_other_readings (x : cell) :
  (allergy_list x = [] <->
   PyStr.strip (PyStr.lower (py_str x)) = "none" \/
   PyStr.strip (PyStr.lower (py_str x)) = "nan") /\
  (has_allergies (VCell x) = VInt 0 -> allergy_list x = []) /\
  (allergy_list x <> [] ->
   map PyStr.lower (filter (fun a => negb (String.eqb a "")) (allergy_list x))
   = tokens x).
Proof.
  assert (Hmem : forall w,
             PyStr.mem w ["none"; "nan"] = true <-> w = "none" \/ w = "nan").
  { intros w. unfold PyStr.mem. cbn [existsb].
    rewrite !orb_true_iff, !String.eqb_eq. intuition discriminate. }
  assert (Hempty : allergy_list x = [] <->
                   PyStr.strip (PyStr.lower (py_str x)) = "none" \/
                   PyStr.strip (PyStr.lower (py_str x)) = "nan").
  { rewrite <- Hmem. unfold allergy_list.
    destruct (PyStr.mem _ _); split; try reflexivity; try discriminate.
    intros H. exfalso. apply map_eq_nil in H.
    exact (split_not_nil _ _ H). }
  split; [exact Hempty |]. split.
  - intros H. apply Hempty.
    assert (Hlow : PyStr.lower (py_str x) = "none" \/ PyStr.lower (py_str x) = "nan").
    { apply Hmem. unfold has_allergies in H.
      destruct (PyStr.mem (PyStr.lower (py_str x)) _); [reflexivity | discriminate]. }
    destruct Hlow as [E | E]; rewrite E; [left | right]; reflexivity.
  - intros Hne. unfold allergy_list in *.
    destruct (PyStr.mem _ _); [congruence |].
    apply lower_names_are_tokens.
Qed.

Lemma allergy_list_and_the_other_readings_witness :
  allergy_list (CStr "NONE") = [] /\
  map PyStr.lower
      (filter (fun a => negb (String.eqb a "")) (allergy_list (CStr "Nuts, ,Soy ")))
  = tokens (CStr "Nuts, ,Soy ").
Proof.
  destruct (allergy_list_and_the_other_readings (CStr "NONE")) as (_ & Hzero & _).
  destruct (allergy_list_and_the_other_readings (CStr "Nuts, ,Soy "))
    as (_ & _ & Htok).
  split.
  - apply Hzero. reflexivity.
  - apply Htok. discriminate.
Defined.

(** ** The data loader *)

Section LoaderFacts.

Context {table : Type} (path_exists : path -> bool)
        (read_csv : path -> load_exception + table).

Local Abbreviation outcome self f := (file_outcome path_exists read_csv self f).
Local Abbreviation load self := (load_data path_exists read_csv self).

(** What [load_data] does, by the outcome of the three files in turn. *)
Lemma load_data_cases (self : DataLoader table) :
  let users := outcome self "Users.csv" in
  let trends := outcome self "trends.csv" in
  let ingredients := outcome self "ingredient_risk.csv" in
  fst (fst (load self))
  = match users, trends, ingredients with
    | inr _, inr _, inr _ => true
    | _, _, _ => false
    end /\
  snd (fst (load self))
  = match users, trends, ingredients with
    | inl _, _, _ => self
    | inr u, inl _, _ =>
        mkDataLoader (Some u) (l_trends_df self) (l_ingredient_risk_df self)
                     (script_dir self)
    | inr u, inr t, inl _ =>
        mkDataLoader (Some u) (Some t) (l_ingredient_risk_df self)
                     (script_dir self)
    | inr u, inr t, inr i =>
        mkDataLoader (Some u) (Some t) (Some i) (script_dir self)
    end.
Proof.
  cbv zeta. unfold load_data, files_to_load, file_outcome, _get_data_path.
  cbn [load_files]. unfold _get_data_path.
  cbn [script_dir assign_table String.eqb Ascii.eqb Bool.eqb].
  destruct (path_exists _) eqn:E1; [| split; reflexivity].
  destruct (read_csv _) as [[e | e] | u]; [split; reflexivity .. |].
  cbn [script_dir].
  destruct (path_exists ([script_dir self; ".."; "data"] ++ ["trends.csv"]));
    [| split; reflexivity].
  destruct (read_csv ([script_dir self; ".."; "data"] ++ ["trends.csv"]))
    as [[e | e] | t]; [split; reflexivity .. |].
  cbn [script_dir].
  destruct (path_exists
              ([script_dir self; ".."; "data"] ++ ["ingredient_risk.csv"]));
    [| split; reflexivity].
  destruct (read_csv
              ([script_dir self; ".."; "data"] ++ ["ingredient_risk.csv"]))
    as [[e | e] | i]; split; reflexivity.
Qed.

End LoaderFacts.

(** X22. [load_data] returns True exactly when each of Users.csv, trends.csv
    and ingredient_risk.csv exists in the data folder and is read without an
    exception; the loader then holds the three tables read. *)
Theorem load_data_succeeds_iff_all_files_read
    (table : Type) (path_exists : path -> bool)
    (read_csv : path -> load_exception + table) (self : DataLoader table) :
  fst (fst (load_data path_exists read_csv self)) = true <->
  exists u t i,
    file_outcome path_exists read_csv self "Users.csv" = inr u /\
    file_outcome path_exists read_csv self "trends.csv" = inr t /\
    file_outcome path_exists read_csv self "ingredient_risk.csv" = inr i /\
    snd (fst (load_data path_exists read_csv self))
    = mkDataLoader (Some u) (Some t) (Some i) (script_dir self).
Proof.
  destruct (load_data_cases path_exists read_csv self) as [Hflag Hself].
  cbv zeta in Hflag, Hself. rewrite Hflag, Hself.
  destruct (file_outcome path_exists read_csv self "Users.csv") as [e1 | u].
  - split; [discriminate | intros (? & ? & ? & E & _); discriminate].
  - destruct (file_outcome path_exists read_csv self "trends.csv") as [e2 | t].
    + split; [discriminate | intros (? & ? & ? & _ & E & _); discriminate].
    + destruct (file_outcome path_exists read_csv self "ingredient_risk.csv")
        as [e3 | i].
      * split; [discriminate | intros (? & ? & ? & _ & _ & E & _); discriminate].
      * split; [intros _ | reflexivity]. exists u, t, i. auto.
Qed.

(** X23. A failed load can leave the loader half updated: the files are read
    in the order Users, Trends, Ingredient Risk, and when one cannot be read
    [load_data] returns False with the tables read before it already
    assigned and the others as they were.  When Users.csv itself cannot be
    read the loader is unchanged. *)
Theorem load_data_keeps_what_was_read
    (table : Type) (path_exists : path -> bool)
    (read_csv : path -> load_exception + table) (self : DataLoader table) :
  let self' := snd (fst (load_data path_exists read_csv self)) in
  (forall e,
      file_outcome path_exists read_csv self "Users.csv" = inl e ->
      fst (fst (load_data path_exists read_csv self)) = false /\ self' = self) /\
  (forall u e,
      file_outcome path_exists read_csv self "Users.csv" = inr u ->
      file_outcome path_exists read_csv self "trends.csv" = inl e ->
      fst (fst (load_data path_exists read_csv self)) = false /\
      l_users_df self' = Some u /\
      l_trends_df self' = l_trends_df self /\
      l_ingredient_risk_df self' = l_ingredient_risk_df self) /\
  (forall u t e,
      file_outcome path_exists read_csv self "Users.csv" = inr u ->
      file_outcome path_exists read_csv self "trends.csv" = inr t ->
      file_outcome path_exists read_csv self "ingredient_risk.csv" = inl e ->
      fst (fst (load_data path_exists read_csv self)) = false /\
      l_users_df self' = Some u /\
      l_trends_df self' = Some t /\
      l_ingredient_risk_df self' = l_ingredient_risk_df self).
Proof.
  destruct (load_data_cases path_exists read_csv self) as [Hflag Hself].
  cbv zeta in Hflag, Hself |- *. rewrite Hflag, Hself.
  split; [| split].
  - intros e ->. split; reflexivity.
  - intros u e -> ->. repeat split.
  - intros u t e -> -> ->. repeat split.
Qed.

Lemma load_data_keeps_what_was_read_witness :
  fst (fst (load_data SampleFiles.only_users SampleFiles.read_rows
              (DataLoader_init "src"))) = false /\
  l_users_df (snd (fst (load_data SampleFiles.only_users SampleFiles.read_rows
                          (DataLoader_init "src")))) = Some 12%nat.
Proof.
  destruct (load_data_keeps_what_was_read
              nat SampleFiles.only_users SampleFiles.read_rows
              (DataLoader_init "src")) as (_ & H & _).
  destruct (H 12%nat (FileNotFoundError "Required file not found: trends.csv")
              eq_refl eq_refl) as (Hflag & Hu & _).
  split; [exact Hflag | exact Hu].
Defined.

(** ** Loading and processing *)

Section AppFacts.

Context {sk : Sklearn}.

Lemma train_model_keeps_prepared model_type (self s1 : MLModel) X y c :
  prepare_training_data self = (Ok (X, y, c), s1) ->
  label_encoder (snd (train_model model_type self)) = label_encoder s1 /\
  risk_df_cleaned (snd (train_model model_type self)) = risk_df_cleaned s1 /\
  rule_engine (snd (train_model model_type self)) = rule_engine s1.
Proof.
  intros Hprep.
  assert (E : exists r s',
             train_model model_type self = (r, s') /\
             label_encoder s' = label_encoder s1 /\
             risk_df_cleaned s' = risk_df_cleaned s1 /\
             rule_engine s' = rule_engine s1).
  { unfold train_model, bindM at 1. rewrite Hprep.
    unfold bindM, lift, assign, raise, ret, read.
    destruct (train_test_split X y (2 # 10) 42) as [[[[Xtr Xte] ytr] yte] | e];
      [| do 2 eexists; split; [reflexivity | cbn; auto]].
    destruct (String.eqb model_type "random_forest");
      [| do 2 eexists; split; [reflexivity | cbn; auto]].
    destruct (fit (RandomForestClassifier 100 42) Xtr ytr) as [fitted | e];
      [| do 2 eexists; split; [reflexivity | cbn; auto]].
    destruct (predict fitted (Table Xte)) as [y_pred | e];
      [| do 2 eexists; split; [reflexivity | cbn; auto]].
    destruct (classification_report yte y_pred _) as [rep | e];
      do 2 eexists; (split; [reflexivity | cbn; auto]). }
  destruct E as (r & s' & -> & H). exact H.
Qed.

End AppFacts.

(** X24. In [load_and_process_data] only the matrix can fail: an exception of
    the training is swallowed.  When the function returns after a successful
    load, the trainer is None exactly when the matrix is empty, that is when
    there is no user or no trend, and [setup] then refuses to go on; when
    there is a trainer, its label encoder and cleaned matrix are set and it
    holds the engine returned, whether or not the training succeeded. *)
Theorem processing_trains_on_a_non_empty_matrix
    (sk : Sklearn) (loader : Type) (data_loader : loader)
    (users : list User) (trends : list Trend)
    (ingredient_risk : list IngredientRiskEntry) :
  let engine := RuleEngine_init users trends ingredient_risk in
  match generate_risk_matrix engine with
  | Raise e =>
      load_and_process_data data_loader true users trends ingredient_risk
      = Raise e
  | Ok risk_df =>
      exists ml_model,
        load_and_process_data data_loader true users trends ingredient_risk
        = Ok (Some data_loader, Some engine, ml_model, Some risk_df) /\
        (ml_model = None <-> users = [] \/ trends = []) /\
        (setup (Some data_loader, Some engine, ml_model, Some risk_df) = true
         <-> users <> [] /\ trends <> []) /\
        (forall m, ml_model = Some m ->
                   label_encoder m <> None /\ risk_df_cleaned m <> None /\
                   rule_engine m = engine)
  end.
Proof.
  intros engine. unfold load_and_process_data. cbn [negb]. fold engine.
  destruct (generate_risk_matrix engine) as [risk_df | e] eqn:Hgen;
    [| reflexivity].
  cbn [bind]. eexists. split; [reflexivity |].
  assert (Hlen : length risk_df = (length users * length trends)%nat).
  { unfold engine in Hgen. rewrite generate_risk_matrix_mapM in Hgen.
    rewrite (mapM_length _ _ _ Hgen). apply length_prod. }
  assert (Hempty : risk_df = [] <-> users = [] \/ trends = []).
  { split.
    - intros ->. simpl in Hlen. symmetry in Hlen.
      apply Nat.eq_mul_0 in Hlen as [H | H]; apply length_zero_iff_nil in H; auto.
    - intros [-> | ->]; apply length_zero_iff_nil; rewrite Hlen; simpl; lia. }
  split; [| split].
  - rewrite <- Hempty. destruct risk_df; split; congruence.
  - cbn [setup]. destruct risk_df as [| r rest].
    + split; [discriminate |]. intros [Hu Ht].
      destruct (proj1 Hempty eq_refl); contradiction.
    + split; [intros _ | reflexivity].
      split; intros ->; [assert (H : r :: rest = []) by (apply Hempty; auto)
                        | assert (H : r :: rest = []) by (apply Hempty; auto)];
        discriminate H.
  - intros m Hm. destruct risk_df as [| r rest]; [discriminate |].
    inversion Hm; subst m. clear Hm.
    assert (Hne : r :: rest <> []) by discriminate.
    pose proof (prepare_training_data_closed (MLModel_init engine) (r :: rest)
                  Hgen Hne) as Hprep.
    cbv zeta in Hprep.
    destruct (train_model_keeps_prepared "random_forest" _ _ _ _ _ Hprep)
      as (Hl & Hc & He).
    rewrite Hl, Hc, He. repeat split; discriminate.
Qed.
